(** * mini_al data conversion pipeline: a shallow embedding of [mini_al.h]

    The development follows the source file section by section:
    floating point helpers, channel maps, the format converter, the
    channel router, the sample rate converter and the DSP supervisor.
    C integers are modelled as [Z]; [float] and [double] values are
    modelled bit-exactly as IEEE-754 binary32 / binary64 numbers through
    the parametric operations of [SpecFloat]. *)

From Stdlib Require Import ZArith List Bool Lia.
From Stdlib Require Import Floats.SpecFloat.
Import ListNotations.

Local Open Scope Z_scope.

(* ------------------------------------------------------------------ *)
(** ** IEEE-754 arithmetic as performed by the C code                  *)
(* ------------------------------------------------------------------ *)

(** Truncation toward zero of a finite float, the value a C cast from a
    floating point type to an integer type produces. NaN and infinities
    (undefined in C) are mapped to 0. *)
Definition SFtrunc (x : spec_float) : Z :=
  match x with
  | S754_finite s m e =>
      let mag := match e with
                 | Z0 => Zpos m
                 | Zpos p => Z.shiftl (Zpos m) e
                 | Zneg p => Z.shiftr (Zpos m) (Zpos p)
                 end in
      if s then - mag else mag
  | _ => 0
  end.

(** Largest integer not above the value of a finite float. *)
Definition SFfloorZ (x : spec_float) : Z :=
  match x with
  | S754_finite s m e =>
      let sm := if s then Zneg m else Zpos m in
      match e with
      | Z0 => sm
      | Zpos p => Z.shiftl sm e
      | Zneg p => Z.shiftr sm (Zpos p)
      end
  | _ => 0
  end.

(** [float]: binary32. *)
Module F32.
Definition prec : Z := 24.
Definition emax : Z := 128.
Definition t := spec_float.

Definition add : t -> t -> t := SFadd prec emax.
Definition sub : t -> t -> t := SFsub prec emax.
Definition mul : t -> t -> t := SFmul prec emax.
Definition div : t -> t -> t := SFdiv prec emax.
Definition abs : t -> t := SFabs.
Definition ltb : t -> t -> bool := SFltb.
Definition eqb : t -> t -> bool := SFeqb.
Definition gtb (x y : t) : bool := SFltb y x.
Definition leb : t -> t -> bool := SFleb.

(** Conversion of an integer to [float] (round to nearest even). *)
Definition of_Z (z : Z) : t := binary_normalize prec emax z 0 false.
(** Conversion of a dyadic number [m * 2^e], used for literals. *)
Definition of_dyadic (m e : Z) : t := binary_normalize prec emax m e false.
(** A decimal literal [n / d] with the suffix [f]: the nearest float. *)
Definition of_ratio (n d : Z) : t := div (of_Z n) (of_Z d).

Definition zero : t := S754_zero false.
Definition one : t := of_Z 1.

(** [(mal_int32)x], [(mal_uint32)x], [(mal_uint64)x] for values in range. *)
Definition to_Z : t -> Z := SFtrunc.

(** [(float)floor((double)x)]: widening to double is exact, and the
    floor of a binary32 value is again a binary32 value. *)
Definition floor (x : t) : t :=
  match x with
  | S754_finite s m e =>
      match e with
      | Zneg _ =>
          match SFfloorZ x with
          | Z0 => S754_zero s
          | z => of_Z z
          end
      | _ => x
      end
  | _ => x
  end.
End F32.

(** [double]: binary64. *)
Module F64.
Definition prec : Z := 53.
Definition emax : Z := 1024.
Definition t := spec_float.

Definition add : t -> t -> t := SFadd prec emax.
Definition sub : t -> t -> t := SFsub prec emax.
Definition mul : t -> t -> t := SFmul prec emax.
Definition div : t -> t -> t := SFdiv prec emax.
Definition of_Z (z : Z) : t := binary_normalize prec emax z 0 false.
Definition of_dyadic (m e : Z) : t := binary_normalize prec emax m e false.
Definition of_ratio (n d : Z) : t := div (of_Z n) (of_Z d).
Definition eqb : t -> t -> bool := SFeqb.

(** [(float)x] for a double [x]: rounding to binary32. *)
Definition to_f32 (x : t) : F32.t :=
  match x with
  | S754_finite s m e => binary_round F32.prec F32.emax s m e
  | _ => x
  end.
(** [(double)x] for a float [x] is exact. *)
Definition of_f32 (x : F32.t) : t := x.
End F64.

(* ------------------------------------------------------------------ *)
(** ** Fixed width integers, result codes and enumerations             *)
(* ------------------------------------------------------------------ *)

(** [(mal_uint32)x] and [(mal_uint64)x]: unsigned wrap-around. *)
Definition u8  (z : Z) : Z := z mod 2 ^ 8.
Definition u32 (z : Z) : Z := z mod 2 ^ 32.
Definition u64 (z : Z) : Z := z mod 2 ^ 64.
(** Two's complement [mal_int32]. *)
Definition s32 (z : Z) : Z := (z + 2 ^ 31) mod 2 ^ 32 - 2 ^ 31.

(** [mal_bool32] is a [mal_uint32]; [MAL_TRUE] is 1 and [MAL_FALSE] 0. *)
Definition mal_bool32 := Z.
Definition MAL_TRUE : mal_bool32 := 1.
Definition MAL_FALSE : mal_bool32 := 0.

Definition mal_result := Z.
Definition MAL_SUCCESS : mal_result := 0.
Definition MAL_ERROR : mal_result := -1.
Definition MAL_INVALID_ARGS : mal_result := -2.
Definition MAL_INVALID_OPERATION : mal_result := -3.
Definition MAL_FORMAT_NOT_SUPPORTED : mal_result := -5.
Definition MAL_INVALID_DEVICE_CONFIG : mal_result := -31.

Definition MAL_MIN_CHANNELS : Z := 1.
Definition MAL_MAX_CHANNELS : Z := 32.
Definition MAL_SRC_SINC_MIN_WINDOW_WIDTH : Z := 2.
Definition MAL_SRC_SINC_MAX_WINDOW_WIDTH : Z := 32.
Definition MAL_SRC_SINC_DEFAULT_WINDOW_WIDTH : Z := 32.
Definition MAL_SRC_SINC_LOOKUP_TABLE_RESOLUTION : Z := 8.
Definition MAL_SRC_INPUT_BUFFER_SIZE_IN_SAMPLES : Z := 256.
Definition MAL_SIMD_ALIGNMENT : Z := 64.

(** An initialisation function of the library returns a result code and
    fills the object behind its output pointer; the model returns the
    object on [MAL_SUCCESS] and the code otherwise. Output object
    pointers are taken to be valid (the [pX == NULL] tests on them are
    not modelled); a config pointer that may be [NULL] is an [option]. *)
Inductive init_result (A : Type) : Type :=
| Initialized (obj : A)
| Failed (code : mal_result).
Arguments Initialized {A} obj.
Arguments Failed {A} code.

Definition result_code {A} (r : init_result A) : mal_result :=
  match r with
  | Initialized _ => MAL_SUCCESS
  | Failed c => c
  end.

Inductive mal_dither_mode :=
| mal_dither_mode_none
| mal_dither_mode_rectangle
| mal_dither_mode_triangle.

Inductive mal_format :=
| mal_format_unknown
| mal_format_u8
| mal_format_s16
| mal_format_s24
| mal_format_s32
| mal_format_f32.

Definition mal_format_eqb (a b : mal_format) : bool :=
  match a, b with
  | mal_format_unknown, mal_format_unknown
  | mal_format_u8, mal_format_u8
  | mal_format_s16, mal_format_s16
  | mal_format_s24, mal_format_s24
  | mal_format_s32, mal_format_s32
  | mal_format_f32, mal_format_f32 => true
  | _, _ => false
  end.

Inductive mal_stream_format := mal_stream_format_pcm.

Inductive mal_channel_mix_mode :=
| mal_channel_mix_mode_planar_blend
| mal_channel_mix_mode_simple.

Definition mal_channel_mix_mode_eqb (a b : mal_channel_mix_mode) : bool :=
  match a, b with
  | mal_channel_mix_mode_planar_blend, mal_channel_mix_mode_planar_blend
  | mal_channel_mix_mode_simple, mal_channel_mix_mode_simple => true
  | _, _ => false
  end.

Inductive mal_src_algorithm :=
| mal_src_algorithm_sinc
| mal_src_algorithm_linear
| mal_src_algorithm_none.

(** The window function is an [int]-sized enum; a config may carry a
    value that names no enumerator ([mal_src_init] has a [default:]
    case for it). *)
Inductive mal_src_sinc_window_function :=
| mal_src_sinc_window_function_hann
| mal_src_sinc_window_function_rectangular
| mal_src_sinc_window_function_other (raw : Z).

(** What the run-time CPU probes [mal_has_sse2()] ... report. *)
Record mal_cpu := {
  mal_has_sse2 : bool;
  mal_has_avx2 : bool;
  mal_has_avx512f : bool;
  mal_has_neon : bool
}.

(** The C library functions [sin] and [cos] on doubles, used to fill the
    sinc lookup table. They are parameters of the model. *)
Record mal_libm := {
  c_sin : F64.t -> F64.t;
  c_cos : F64.t -> F64.t
}.

(* ------------------------------------------------------------------ *)
(** ** Arrays and loops                                                *)
(* ------------------------------------------------------------------ *)

(** The index range of [for (i = 0; i < n; ++i)]. *)
Definition range (n : Z) : list nat := seq 0 (Z.to_nat n).

(** [a[i] = v] on a fixed-size array; an index past the end (undefined
    in C) leaves the model array unchanged. *)
Fixpoint array_set {A} (a : list A) (i : nat) (v : A) : list A :=
  match a, i with
  | [], _ => []
  | _ :: tl, O => v :: tl
  | hd :: tl, S i' => hd :: array_set tl i' v
  end.

(** [memcpy(a + off, data, ...)] on a fixed-size array. *)
Fixpoint array_blit {A} (a : list A) (off : nat) (data : list A) : list A :=
  match off, a with
  | S off', hd :: tl => hd :: array_blit tl off' data
  | S _, [] => []
  | O, _ =>
      match data, a with
      | d :: data', _ :: tl => d :: array_blit tl O data'
      | _, _ => a
      end
  end.

(** A caller supplied output buffer. The model tracks the prefix of the
    buffer that has been written; a store past the tracked prefix
    extends it (cells never written read as zero). *)
Definition buffer := list F32.t.

Definition buffer_store (b : buffer) (off : Z) (data : list F32.t) : buffer :=
  let o := Z.to_nat off in
  firstn o b ++ repeat F32.zero (o - length b) ++ data ++ skipn (o + length data) b.

Definition buffer_load (b : buffer) (i : Z) : F32.t :=
  if i <? 0 then F32.zero else nth (Z.to_nat i) b F32.zero.

(** [while (cond) { body }] with [break]: [body] returns the new state
    and whether the loop goes on to test its condition again. The number
    of trips is bounded by a binary counter, so that a bound as large as
    a 64-bit frame count costs nothing when the loop leaves early. *)
Section While.
Context {St : Type}.
Variable cond : St -> bool.
Variable body : St -> St * bool.

Definition while_trip (s : St) : St * bool :=
  if cond s then body s else (s, false).

Fixpoint while_trips (fuel : positive) (s : St) : St * bool :=
  match fuel with
  | xH => while_trip s
  | xO p =>
      let '(s1, go) := while_trips p s in
      if go then while_trips p s1 else (s1, false)
  | xI p =>
      let '(s0, go0) := while_trip s in
      if go0 then
        let '(s1, go) := while_trips p s0 in
        if go then while_trips p s1 else (s1, false)
      else (s0, false)
  end.

(** The loop; the flag tells whether the trips ran out before the
    loop was left ([false]: the loop has terminated by itself). *)
Definition while_loop (fuel : positive) (s : St) : St * bool :=
  while_trips fuel s.

(** The same trips counted in unary, to reason about the loop trip by
    trip. *)
Fixpoint while_trips_nat (n : nat) (s : St) : St * bool :=
  match n with
  | O => (s, true)
  | Datatypes.S n' =>
      let '(s1, go) := while_trip s in
      if go then while_trips_nat n' s1 else (s1, false)
  end.
End While.

(* ------------------------------------------------------------------ *)
(** ** Channel maps                                                    *)
(* ------------------------------------------------------------------ *)

(** [typedef mal_uint8 mal_channel;] *)
Definition mal_channel := Z.
Definition MAL_CHANNEL_NONE : mal_channel := 0.
Definition MAL_CHANNEL_MONO : mal_channel := 1.
Definition MAL_CHANNEL_FRONT_LEFT : mal_channel := 2.
Definition MAL_CHANNEL_FRONT_RIGHT : mal_channel := 3.
Definition MAL_CHANNEL_FRONT_CENTER : mal_channel := 4.
Definition MAL_CHANNEL_LFE : mal_channel := 5.
Definition MAL_CHANNEL_BACK_LEFT : mal_channel := 6.
Definition MAL_CHANNEL_BACK_RIGHT : mal_channel := 7.
Definition MAL_CHANNEL_FRONT_LEFT_CENTER : mal_channel := 8.
Definition MAL_CHANNEL_FRONT_RIGHT_CENTER : mal_channel := 9.
Definition MAL_CHANNEL_BACK_CENTER : mal_channel := 10.
Definition MAL_CHANNEL_SIDE_LEFT : mal_channel := 11.
Definition MAL_CHANNEL_SIDE_RIGHT : mal_channel := 12.
Definition MAL_CHANNEL_TOP_CENTER : mal_channel := 13.
Definition MAL_CHANNEL_TOP_FRONT_LEFT : mal_channel := 14.
Definition MAL_CHANNEL_TOP_FRONT_CENTER : mal_channel := 15.
Definition MAL_CHANNEL_TOP_FRONT_RIGHT : mal_channel := 16.
Definition MAL_CHANNEL_TOP_BACK_LEFT : mal_channel := 17.
Definition MAL_CHANNEL_TOP_BACK_CENTER : mal_channel := 18.
Definition MAL_CHANNEL_TOP_BACK_RIGHT : mal_channel := 19.
Definition MAL_CHANNEL_AUX_0 : mal_channel := 20.
Definition MAL_CHANNEL_AUX_31 : mal_channel := 51.
Definition MAL_CHANNEL_POSITION_COUNT : Z := MAL_CHANNEL_AUX_31 + 1.

(** [mal_channel channelMap[MAL_MAX_CHANNELS]]. Reading a slot past the
    array (undefined in C) yields [MAL_CHANNEL_NONE] in the model. *)
Definition channel_map := list mal_channel.

Definition map_at (m : channel_map) (i : nat) : mal_channel :=
  nth i m MAL_CHANNEL_NONE.

Definition blank_channel_map : channel_map :=
  repeat MAL_CHANNEL_NONE (Z.to_nat MAL_MAX_CHANNELS).

Definition mal_channel_map_valid (channels : Z) (channelMap : option channel_map) : bool :=
  match channelMap with
  | None => false
  | Some m =>
      if channels =? 0 then false
      else if 1 <? channels then
        negb (existsb (fun iChannel => map_at m iChannel =? MAL_CHANNEL_MONO)
                      (range channels))
      else true
  end.

(** The first test of the C function compares the two array addresses;
    [same_address] tells whether the caller passed the same array for
    both arguments. *)
Definition mal_channel_map_equal (same_address : bool) (channels : Z)
    (channelMapA channelMapB : channel_map) : bool :=
  if same_address then false
  else if (channels =? 0) || (MAL_MAX_CHANNELS <? channels) then false
  else forallb (fun iChannel => map_at channelMapA iChannel =? map_at channelMapB iChannel)
               (range channels).

Definition mal_channel_map_blank (channels : Z) (channelMap : channel_map) : bool :=
  forallb (fun iChannel => map_at channelMap iChannel =? MAL_CHANNEL_NONE)
          (range channels).

Definition mal_channel_map_contains_channel_position (channels : Z)
    (channelMap : channel_map) (channelPosition : mal_channel) : bool :=
  existsb (fun iChannel => map_at channelMap iChannel =? channelPosition)
          (range channels).

(* ------------------------------------------------------------------ *)
(** ** Mixing, random numbers and dither                               *)
(* ------------------------------------------------------------------ *)

Definition mal_clip_f32 (x : F32.t) : F32.t :=
  if F32.ltb x (F32.of_Z (-1)) then F32.of_Z (-1)
  else if F32.gtb x (F32.of_Z 1) then F32.of_Z 1
  else x.

Definition mal_mix_f32 (x y a : F32.t) : F32.t :=
  F32.add (F32.mul x (F32.sub (F32.of_Z 1) a)) (F32.mul y a).

Definition mal_mix_f32_fast (x y a : F32.t) : F32.t :=
  let r0 := F32.sub y x in
  let r1 := F32.mul r0 a in
  F32.add x r1.

Definition mal_scale_to_range_f32 (x lo hi : F32.t) : F32.t :=
  F32.add lo (F32.mul x (F32.sub hi lo)).

Definition MAL_LCG_M : Z := 4294967296.
Definition MAL_LCG_A : Z := 1103515245.
Definition MAL_LCG_C : Z := 12345.

(** The generator state [g_malLCG] is a global [mal_int32]; the
    functions that draw random numbers thread it explicitly. The
    multiplication is performed on [int] (overflow wraps on the
    supported compilers) and the remainder on a 64-bit integer. *)
Definition mal_rand_s32 (g_malLCG : Z) : Z * Z :=
  let lcg := g_malLCG in
  let r := s32 (Z.rem (s32 (s32 (MAL_LCG_A * lcg) + MAL_LCG_C)) MAL_LCG_M) in
  (r, r).

Definition mal_rand_f64 (g_malLCG : Z) : F64.t * Z :=
  let '(r, g) := mal_rand_s32 g_malLCG in
  (F64.div (F64.of_Z (u32 (r + 0x80000000))) (F64.of_Z 0x7FFFFFFF), g).

Definition mal_rand_f32 (g_malLCG : Z) : F32.t * Z :=
  let '(r, g) := mal_rand_f64 g_malLCG in
  (F64.to_f32 r, g).

Definition mal_rand_range_f32 (lo hi : F32.t) (g_malLCG : Z) : F32.t * Z :=
  let '(r, g) := mal_rand_f32 g_malLCG in
  (mal_scale_to_range_f32 r lo hi, g).

Definition mal_dither_f32_rectangle (ditherMin ditherMax : F32.t) (g_malLCG : Z)
    : F32.t * Z :=
  mal_rand_range_f32 ditherMin ditherMax g_malLCG.

Definition mal_dither_f32_triangle (ditherMin ditherMax : F32.t) (g_malLCG : Z)
    : F32.t * Z :=
  let '(a, g1) := mal_rand_range_f32 ditherMin (F32.of_Z 0) g_malLCG in
  let '(b, g2) := mal_rand_range_f32 (F32.of_Z 0) ditherMax g1 in
  (F32.add a b, g2).

Definition mal_dither_f32 (ditherMode : mal_dither_mode) (ditherMin ditherMax : F32.t)
    (g_malLCG : Z) : F32.t * Z :=
  match ditherMode with
  | mal_dither_mode_rectangle => mal_dither_f32_rectangle ditherMin ditherMax g_malLCG
  | mal_dither_mode_triangle => mal_dither_f32_triangle ditherMin ditherMax g_malLCG
  | mal_dither_mode_none => (F32.of_Z 0, g_malLCG)
  end.

(* ------------------------------------------------------------------ *)
(** ** Format conversion: f32 to u8                                    *)
(* ------------------------------------------------------------------ *)

(** One trip of the loop of [mal_pcm_f32_to_u8__reference]. *)
Definition mal_pcm_f32_to_u8__sample (ditherMode : mal_dither_mode)
    (ditherMin ditherMax : F32.t) (x : F32.t) (g_malLCG : Z) : Z * Z :=
  let '(d, g) := mal_dither_f32 ditherMode ditherMin ditherMax g_malLCG in
  let x := F32.add x d in
  let x := if F32.ltb x (F32.of_Z (-1)) then F32.of_Z (-1)
           else if F32.gtb x (F32.of_Z 1) then F32.of_Z 1 else x in
  let x := F32.add x (F32.of_Z 1) in
  let x := F32.mul x (F32.of_ratio 1275 10) in
  (u8 (F32.to_Z x), g).

(** [dst] is returned as the list of the [count] bytes written; [src]
    holds [count] samples. *)
Definition mal_pcm_f32_to_u8__reference (src : list F32.t)
    (ditherMode : mal_dither_mode) (g_malLCG : Z) : list Z * Z :=
  let ditherMin :=
    match ditherMode with
    | mal_dither_mode_none => F32.of_Z 0
    | _ => F32.div (F32.of_Z 1) (F32.of_Z (-128))
    end in
  let ditherMax :=
    match ditherMode with
    | mal_dither_mode_none => F32.of_Z 0
    | _ => F32.div (F32.of_Z 1) (F32.of_Z 127)
    end in
  fold_left
    (fun (acc : list Z * Z) (x : F32.t) =>
       let '(dst, g) := acc in
       let '(b, g') := mal_pcm_f32_to_u8__sample ditherMode ditherMin ditherMax x g in
       (dst ++ [b], g'))
    src ([], g_malLCG).

Definition mal_pcm_f32_to_u8__optimized := mal_pcm_f32_to_u8__reference.
Definition mal_pcm_f32_to_u8 := mal_pcm_f32_to_u8__optimized.

(* ------------------------------------------------------------------ *)
(** ** Format converter                                                *)
(* ------------------------------------------------------------------ *)

(** The configuration and object records are parametric in the types of
    the read callbacks they store; a [NULL] callback is [None]. The
    opaque [pUserData] member, which no function of the pipeline reads,
    is left out. Members are prefixed with the initials of their
    struct. *)
Record mal_format_converter_config (rproc dproc : Type) := {
  fcc_formatIn : mal_format;
  fcc_formatOut : mal_format;
  fcc_channels : Z;
  fcc_streamFormatIn : mal_stream_format;
  fcc_streamFormatOut : mal_stream_format;
  fcc_ditherMode : mal_dither_mode;
  fcc_noSSE2 : bool;
  fcc_noAVX2 : bool;
  fcc_noAVX512 : bool;
  fcc_noNEON : bool;
  fcc_onRead : option rproc;
  fcc_onReadDeinterleaved : option dproc
}.
Arguments fcc_formatIn {rproc dproc}.
Arguments fcc_formatOut {rproc dproc}.
Arguments fcc_channels {rproc dproc}.
Arguments fcc_streamFormatIn {rproc dproc}.
Arguments fcc_streamFormatOut {rproc dproc}.
Arguments fcc_ditherMode {rproc dproc}.
Arguments fcc_noSSE2 {rproc dproc}.
Arguments fcc_noAVX2 {rproc dproc}.
Arguments fcc_noAVX512 {rproc dproc}.
Arguments fcc_noNEON {rproc dproc}.
Arguments fcc_onRead {rproc dproc}.
Arguments fcc_onReadDeinterleaved {rproc dproc}.

(** The instruction set a conversion kernel was written for. *)
Inductive mal_kernel := kernel_default | kernel_sse2 | kernel_avx2 | kernel_avx512 | kernel_neon.

(** The conversion routine [mal_pcm_<in>_to_<out>] stored in
    [onConvertPCM], named by its two formats and its kernel. *)
Record mal_pcm_convert_proc := {
  convert_from : mal_format;
  convert_to : mal_format;
  convert_kernel : mal_kernel
}.

(** The routines [mal_pcm_interleave_<fmt>] / [mal_pcm_deinterleave_<fmt>]. *)
Inductive mal_pcm_interleave_proc := mal_pcm_interleave (f : mal_format).
Inductive mal_pcm_deinterleave_proc := mal_pcm_deinterleave (f : mal_format).

Record mal_format_converter (rproc dproc : Type) := {
  fc_config : mal_format_converter_config rproc dproc;
  fc_useSSE2 : bool;
  fc_useAVX2 : bool;
  fc_useAVX512 : bool;
  fc_useNEON : bool;
  fc_onConvertPCM : option mal_pcm_convert_proc;
  fc_onInterleavePCM : option mal_pcm_interleave_proc;
  fc_onDeinterleavePCM : option mal_pcm_deinterleave_proc
}.
Arguments fc_config {rproc dproc}.
Arguments fc_useSSE2 {rproc dproc}.
Arguments fc_useAVX2 {rproc dproc}.
Arguments fc_useAVX512 {rproc dproc}.
Arguments fc_useNEON {rproc dproc}.
Arguments fc_onConvertPCM {rproc dproc}.
Arguments fc_onInterleavePCM {rproc dproc}.
Arguments fc_onDeinterleavePCM {rproc dproc}.

(** [mal_format_converter_init_callbacks__default] and its SIMD
    variants: the [switch] on [formatIn] falls into the f32 family for
    every value that is not u8, s16, s24 or s32; an output format that
    is none of the five leaves [onConvertPCM] unset. Conversions between
    equal formats have no SIMD variant. *)
Definition mal_format_converter_init_callbacks (k : mal_kernel)
    (formatIn formatOut : mal_format) : option mal_pcm_convert_proc :=
  let from :=
    match formatIn with
    | mal_format_u8 => mal_format_u8
    | mal_format_s16 => mal_format_s16
    | mal_format_s24 => mal_format_s24
    | mal_format_s32 => mal_format_s32
    | _ => mal_format_f32
    end in
  match formatOut with
  | mal_format_unknown => None
  | _ =>
      Some {| convert_from := from; convert_to := formatOut;
              convert_kernel := if mal_format_eqb from formatOut then kernel_default else k |}
  end.

Definition mal_format_converter_init_callbacks__default :=
  mal_format_converter_init_callbacks kernel_default.
Definition mal_format_converter_init_callbacks__sse2 :=
  mal_format_converter_init_callbacks kernel_sse2.
Definition mal_format_converter_init_callbacks__avx2 :=
  mal_format_converter_init_callbacks kernel_avx2.
Definition mal_format_converter_init_callbacks__avx512 :=
  mal_format_converter_init_callbacks kernel_avx512.
Definition mal_format_converter_init_callbacks__neon :=
  mal_format_converter_init_callbacks kernel_neon.

Definition mal_format_converter_init {rproc dproc : Type} (cpu : mal_cpu)
    (pConfig : option (mal_format_converter_config rproc dproc))
    : init_result (mal_format_converter rproc dproc) :=
  match pConfig with
  | None => Failed MAL_INVALID_ARGS
  | Some cfg =>
      let useSSE2 := mal_has_sse2 cpu && negb (fcc_noSSE2 cfg) in
      let useAVX2 := mal_has_avx2 cpu && negb (fcc_noAVX2 cfg) in
      let useAVX512 := mal_has_avx512f cpu && negb (fcc_noAVX512 cfg) in
      let useNEON := mal_has_neon cpu && negb (fcc_noNEON cfg) in
      let onConvertPCM :=
        if useAVX512 then
          mal_format_converter_init_callbacks__avx512 (fcc_formatIn cfg) (fcc_formatOut cfg)
        else if useAVX2 then
          mal_format_converter_init_callbacks__avx2 (fcc_formatIn cfg) (fcc_formatOut cfg)
        else if useSSE2 then
          mal_format_converter_init_callbacks__sse2 (fcc_formatIn cfg) (fcc_formatOut cfg)
        else if useNEON then
          mal_format_converter_init_callbacks__neon (fcc_formatIn cfg) (fcc_formatOut cfg)
        else
          mal_format_converter_init_callbacks__default (fcc_formatIn cfg) (fcc_formatOut cfg) in
      let fmt :=
        match fcc_formatOut cfg with
        | mal_format_u8 => mal_format_u8
        | mal_format_s16 => mal_format_s16
        | mal_format_s24 => mal_format_s24
        | mal_format_s32 => mal_format_s32
        | _ => mal_format_f32
        end in
      Initialized
        {| fc_config := cfg;
           fc_useSSE2 := useSSE2;
           fc_useAVX2 := useAVX2;
           fc_useAVX512 := useAVX512;
           fc_useNEON := useNEON;
           fc_onConvertPCM := onConvertPCM;
           fc_onInterleavePCM := Some (mal_pcm_interleave fmt);
           fc_onDeinterleavePCM := Some (mal_pcm_deinterleave fmt) |}
  end.

Definition mal_format_converter_config_init_new {rproc dproc : Type}
    : mal_format_converter_config rproc dproc :=
  {| fcc_formatIn := mal_format_unknown;
     fcc_formatOut := mal_format_unknown;
     fcc_channels := 0;
     fcc_streamFormatIn := mal_stream_format_pcm;
     fcc_streamFormatOut := mal_stream_format_pcm;
     fcc_ditherMode := mal_dither_mode_none;
     fcc_noSSE2 := false;
     fcc_noAVX2 := false;
     fcc_noAVX512 := false;
     fcc_noNEON := false;
     fcc_onRead := None;
     fcc_onReadDeinterleaved := None |}.

Definition mal_format_converter_config_init {rproc dproc : Type}
    (formatIn formatOut : mal_format) (channels : Z) (onRead : option rproc)
    : mal_format_converter_config rproc dproc :=
  {| fcc_formatIn := formatIn;
     fcc_formatOut := formatOut;
     fcc_channels := channels;
     fcc_streamFormatIn := mal_stream_format_pcm;
     fcc_streamFormatOut := mal_stream_format_pcm;
     fcc_ditherMode := mal_dither_mode_none;
     fcc_noSSE2 := false;
     fcc_noAVX2 := false;
     fcc_noAVX512 := false;
     fcc_noNEON := false;
     fcc_onRead := onRead;
     fcc_onReadDeinterleaved := None |}.

(* ------------------------------------------------------------------ *)
(** ** Deinterleaved read callbacks                                    *)
(* ------------------------------------------------------------------ *)

(** A deinterleaved read callback receives a frame count and one
    pointer per channel; it returns a frame count after storing samples
    through the pointers. In the model the callback maps the request
    and the state of the data source to the count it returns, the
    samples it stored through each channel pointer, and the new state
    of the source. *)
Definition deinterleaved_block := list (list F32.t).

Definition read_deinterleaved_proc (S : Type) : Type :=
  Z -> S -> (Z * deinterleaved_block) * S.

(** [ppNextSamplesOut]: one write position per channel pointer. *)
Definition cursors := list Z.

Definition cursors_init : cursors := repeat 0 (Z.to_nat MAL_MAX_CHANNELS).

(** [for (i = 0; i < n; ++i) ppNextSamplesOut[i] += k;] *)
Definition cursors_advance (c : cursors) (n k : Z) : cursors :=
  fold_left (fun c i => array_set c i (nth i c 0 + k)) (range n) c.

(** Stores, for each of the first [channels] channel pointers, the
    samples a callback (or a routine) wrote through it. *)
Definition store_block (out : list buffer) (c : cursors) (channels : Z)
    (samples : deinterleaved_block) : list buffer :=
  fold_left
    (fun out i =>
       array_set out i (buffer_store (nth i out []) (nth i c 0) (nth i samples [])))
    (range channels) out.

(* ------------------------------------------------------------------ *)
(** ** Channel router                                                  *)
(* ------------------------------------------------------------------ *)

Definition MAL_PLANE_LEFT : nat := 0.
Definition MAL_PLANE_RIGHT : nat := 1.
Definition MAL_PLANE_FRONT : nat := 2.
Definition MAL_PLANE_BACK : nat := 3.
Definition MAL_PLANE_BOTTOM : nat := 4.
Definition MAL_PLANE_TOP : nat := 5.

Definition plane_row (l r f b bo t : Z * Z) : list F32.t :=
  map (fun q => F32.of_ratio (fst q) (snd q)) [l; r; f; b; bo; t].

(** [g_malChannelPlaneRatios]: the rows of the 20 named positions; the
    32 auxiliary positions have all-zero rows, as has every index the
    table does not hold in the model. *)
Definition g_malChannelPlaneRatios : list (list F32.t) :=
  Eval vm_compute in
  [ plane_row (0,1) (0,1) (0,1) (0,1) (0,1) (0,1);          (* NONE *)
    plane_row (0,1) (0,1) (0,1) (0,1) (0,1) (0,1);          (* MONO *)
    plane_row (5,10) (0,1) (5,10) (0,1) (0,1) (0,1);        (* FRONT_LEFT *)
    plane_row (0,1) (5,10) (5,10) (0,1) (0,1) (0,1);        (* FRONT_RIGHT *)
    plane_row (0,1) (0,1) (1,1) (0,1) (0,1) (0,1);          (* FRONT_CENTER *)
    plane_row (0,1) (0,1) (0,1) (0,1) (0,1) (0,1);          (* LFE *)
    plane_row (5,10) (0,1) (0,1) (5,10) (0,1) (0,1);        (* BACK_LEFT *)
    plane_row (0,1) (5,10) (0,1) (5,10) (0,1) (0,1);        (* BACK_RIGHT *)
    plane_row (25,100) (0,1) (75,100) (0,1) (0,1) (0,1);    (* FRONT_LEFT_CENTER *)
    plane_row (0,1) (25,100) (75,100) (0,1) (0,1) (0,1);    (* FRONT_RIGHT_CENTER *)
    plane_row (0,1) (0,1) (0,1) (1,1) (0,1) (0,1);          (* BACK_CENTER *)
    plane_row (1,1) (0,1) (0,1) (0,1) (0,1) (0,1);          (* SIDE_LEFT *)
    plane_row (0,1) (1,1) (0,1) (0,1) (0,1) (0,1);          (* SIDE_RIGHT *)
    plane_row (0,1) (0,1) (0,1) (0,1) (0,1) (1,1);          (* TOP_CENTER *)
    plane_row (33,100) (0,1) (33,100) (0,1) (0,1) (34,100); (* TOP_FRONT_LEFT *)
    plane_row (0,1) (0,1) (5,10) (0,1) (0,1) (5,10);        (* TOP_FRONT_CENTER *)
    plane_row (0,1) (33,100) (33,100) (0,1) (0,1) (34,100); (* TOP_FRONT_RIGHT *)
    plane_row (33,100) (0,1) (0,1) (33,100) (0,1) (34,100); (* TOP_BACK_LEFT *)
    plane_row (0,1) (0,1) (0,1) (5,10) (0,1) (5,10);        (* TOP_BACK_CENTER *)
    plane_row (0,1) (33,100) (0,1) (33,100) (0,1) (34,100)  (* TOP_BACK_RIGHT *)
  ].

Definition plane_ratio (channelPosition : mal_channel) (plane : nat) : F32.t :=
  nth plane (nth (Z.to_nat channelPosition) g_malChannelPlaneRatios []) F32.zero.

Definition mal_calculate_channel_position_planar_weight
    (channelPositionA channelPositionB : mal_channel) : F32.t :=
  let term p := F32.mul (plane_ratio channelPositionA p) (plane_ratio channelPositionB p) in
  F32.add (F32.add (F32.add (F32.add (F32.add (term 0%nat) (term 1%nat)) (term 2%nat))
                            (term 3%nat)) (term 4%nat)) (term 5%nat).

Definition mal_channel_router__calculate_input_channel_planar_weight
    (channelPositionIn channelPositionOut : mal_channel) : F32.t :=
  mal_calculate_channel_position_planar_weight channelPositionIn channelPositionOut.

Definition mal_channel_router__is_spatial_channel_position
    (channelPosition : mal_channel) : bool :=
  if (channelPosition =? MAL_CHANNEL_NONE) || (channelPosition =? MAL_CHANNEL_MONO)
     || (channelPosition =? MAL_CHANNEL_LFE) then false
  else existsb (fun i => negb (F32.eqb (plane_ratio channelPosition i) F32.zero))
               (seq 0 6).

Record mal_channel_router_config (proc : Type) := {
  crc_channelsIn : Z;
  crc_channelsOut : Z;
  crc_channelMapIn : channel_map;
  crc_channelMapOut : channel_map;
  crc_mixingMode : mal_channel_mix_mode;
  crc_noSSE2 : bool;
  crc_noAVX2 : bool;
  crc_noAVX512 : bool;
  crc_noNEON : bool;
  crc_onReadDeinterleaved : option proc
}.
Arguments crc_channelsIn {proc}.
Arguments crc_channelsOut {proc}.
Arguments crc_channelMapIn {proc}.
Arguments crc_channelMapOut {proc}.
Arguments crc_mixingMode {proc}.
Arguments crc_noSSE2 {proc}.
Arguments crc_noAVX2 {proc}.
Arguments crc_noAVX512 {proc}.
Arguments crc_noNEON {proc}.
Arguments crc_onReadDeinterleaved {proc}.

Record mal_channel_router (proc : Type) := {
  cr_config : mal_channel_router_config proc;
  cr_isPassthrough : bool;
  cr_isSimpleShuffle : bool;
  cr_useSSE2 : bool;
  cr_useAVX2 : bool;
  cr_useAVX512 : bool;
  cr_useNEON : bool;
  cr_shuffleTable : list Z;
  cr_weights : list (list F32.t)
}.
Arguments cr_config {proc}.
Arguments cr_isPassthrough {proc}.
Arguments cr_isSimpleShuffle {proc}.
Arguments cr_useSSE2 {proc}.
Arguments cr_useAVX2 {proc}.
Arguments cr_useAVX512 {proc}.
Arguments cr_useNEON {proc}.
Arguments cr_shuffleTable {proc}.
Arguments cr_weights {proc}.

(** [weights[i][j]] and [weights[i][j] = v] on the 32 x 32 matrix. *)
Definition weight_at (w : list (list F32.t)) (i j : nat) : F32.t :=
  nth j (nth i w []) F32.zero.

Definition weight_set (w : list (list F32.t)) (i j : nat) (v : F32.t) : list (list F32.t) :=
  array_set w i (array_set (nth i w []) j v).

Definition zero_weights : list (list F32.t) :=
  repeat (repeat F32.zero (Z.to_nat MAL_MAX_CHANNELS)) (Z.to_nat MAL_MAX_CHANNELS).

Definition zero_shuffle_table : list Z := repeat 0 (Z.to_nat MAL_MAX_CHANNELS).

(** The first output index whose position equals [pos] (the inner loop
    with [break]). *)
Definition find_channel (channels : Z) (m : channel_map) (pos : mal_channel) : option nat :=
  find (fun iChannelOut => map_at m iChannelOut =? pos) (range channels).

Definition is_mixable (pos : mal_channel) : bool :=
  negb (pos =? MAL_CHANNEL_NONE) && negb (pos =? MAL_CHANNEL_MONO)
  && negb (pos =? MAL_CHANNEL_LFE).

Section RouterInit.
Context {proc : Type}.
Variable cfg : mal_channel_router_config proc.

Let channelsIn := crc_channelsIn cfg.
Let channelsOut := crc_channelsOut cfg.
Let mapIn := crc_channelMapIn cfg.
Let mapOut := crc_channelMapOut cfg.

(** The two [channelMap] members of the router's own config are
    distinct arrays, so the address test of [mal_channel_map_equal]
    fails. *)
Definition router_isPassthrough : bool :=
  if channelsIn =? channelsOut then
    mal_channel_map_equal false channelsIn mapIn mapOut
    || (mal_channel_map_blank channelsIn mapIn || mal_channel_map_blank channelsOut mapOut)
  else false.

Definition router_areAllChannelPositionsPresent : bool :=
  forallb (fun iChannelIn =>
             match find_channel channelsOut mapOut (map_at mapIn iChannelIn) with
             | Some _ => true
             | None => false
             end)
          (range channelsIn).

Definition router_isSimpleShuffle : bool :=
  if negb router_isPassthrough then
    if channelsIn =? channelsOut then router_areAllChannelPositionsPresent else false
  else false.

Definition router_shuffleTable : list Z :=
  if router_isSimpleShuffle then
    fold_left
      (fun tbl iChannelIn =>
         match find_channel channelsOut mapOut (map_at mapIn iChannelIn) with
         | Some iChannelOut => array_set tbl iChannelIn (u8 (Z.of_nat iChannelOut))
         | None => tbl
         end)
      (range channelsIn) zero_shuffle_table
  else zero_shuffle_table.

(** A pass over all pairs (input channel, output channel), outer loop
    over [outer], inner loop over [inner]. *)
Definition for_pairs (outer inner : Z) (f : list (list F32.t) -> nat -> nat -> list (list F32.t))
    (w : list (list F32.t)) : list (list F32.t) :=
  fold_left (fun w a => fold_left (fun w b => f w a b) (range inner) w) (range outer) w.

(** Positions present in both maps are mapped 1:1. *)
Definition router_weights_identity (w : list (list F32.t)) : list (list F32.t) :=
  for_pairs channelsIn channelsOut
    (fun w iChannelIn iChannelOut =>
       if map_at mapIn iChannelIn =? map_at mapOut iChannelOut
       then weight_set w iChannelIn iChannelOut (F32.of_Z 1) else w) w.

(** An input mono channel goes to every output except none, mono, LFE. *)
Definition router_weights_mono_in (w : list (list F32.t)) : list (list F32.t) :=
  for_pairs channelsIn channelsOut
    (fun w iChannelIn iChannelOut =>
       if (map_at mapIn iChannelIn =? MAL_CHANNEL_MONO)
          && is_mixable (map_at mapOut iChannelOut)
       then weight_set w iChannelIn iChannelOut (F32.of_Z 1) else w) w.

(** An output mono channel is the average of the mixable inputs. *)
Definition router_weights_mono_out (w : list (list F32.t)) : list (list F32.t) :=
  let len := fold_left
               (fun len iChannelIn =>
                  if is_mixable (map_at mapIn iChannelIn) then u32 (len + 1) else len)
               (range channelsIn) 0 in
  if 0 <? len then
    let monoWeight := F32.div (F32.of_Z 1) (F32.of_Z len) in
    for_pairs channelsOut channelsIn
      (fun w iChannelOut iChannelIn =>
         if (map_at mapOut iChannelOut =? MAL_CHANNEL_MONO)
            && is_mixable (map_at mapIn iChannelIn)
         then weight_set w iChannelIn iChannelOut
                (F32.add (weight_at w iChannelIn iChannelOut) monoWeight)
         else w) w
  else w.

Definition blend_weight (channelPosIn channelPosOut : mal_channel) : F32.t :=
  if mal_channel_mix_mode_eqb (crc_mixingMode cfg) mal_channel_mix_mode_planar_blend
  then mal_channel_router__calculate_input_channel_planar_weight channelPosIn channelPosOut
  else F32.of_Z 0.

(** Unmapped input channels, then unmapped output channels, are
    blended in by spatial locality unless the mode is simple. *)
Definition router_weights_blend (w : list (list F32.t)) : list (list F32.t) :=
  if negb (mal_channel_mix_mode_eqb (crc_mixingMode cfg) mal_channel_mix_mode_simple) then
    let w :=
      for_pairs channelsIn channelsOut
        (fun w iChannelIn iChannelOut =>
           let channelPosIn := map_at mapIn iChannelIn in
           let channelPosOut := map_at mapOut iChannelOut in
           if mal_channel_router__is_spatial_channel_position channelPosIn
              && negb (mal_channel_map_contains_channel_position channelsOut mapOut channelPosIn)
              && mal_channel_router__is_spatial_channel_position channelPosOut
              && F32.eqb (weight_at w iChannelIn iChannelOut) F32.zero
           then weight_set w iChannelIn iChannelOut (blend_weight channelPosIn channelPosOut)
           else w) w in
    for_pairs channelsOut channelsIn
      (fun w iChannelOut iChannelIn =>
         let channelPosIn := map_at mapIn iChannelIn in
         let channelPosOut := map_at mapOut iChannelOut in
         if mal_channel_router__is_spatial_channel_position channelPosOut
            && negb (mal_channel_map_contains_channel_position channelsIn mapIn channelPosOut)
            && mal_channel_router__is_spatial_channel_position channelPosIn
            && F32.eqb (weight_at w iChannelIn iChannelOut) F32.zero
         then weight_set w iChannelIn iChannelOut (blend_weight channelPosIn channelPosOut)
         else w) w
  else w.

Definition router_weights : list (list F32.t) :=
  router_weights_blend
    (router_weights_mono_out
       (router_weights_mono_in
          (router_weights_identity zero_weights))).
End RouterInit.

Definition mal_channel_router_init {proc : Type} (cpu : mal_cpu)
    (pConfig : option (mal_channel_router_config proc))
    : init_result (mal_channel_router proc) :=
  match pConfig with
  | None => Failed MAL_INVALID_ARGS
  | Some cfg =>
      match crc_onReadDeinterleaved cfg with
      | None => Failed MAL_INVALID_ARGS
      | Some _ =>
          if negb (mal_channel_map_valid (crc_channelsIn cfg) (Some (crc_channelMapIn cfg)))
          then Failed MAL_INVALID_ARGS
          else if negb (mal_channel_map_valid (crc_channelsOut cfg) (Some (crc_channelMapOut cfg)))
          then Failed MAL_INVALID_ARGS
          else
            Initialized
              {| cr_config := cfg;
                 cr_isPassthrough := router_isPassthrough cfg;
                 cr_isSimpleShuffle := router_isSimpleShuffle cfg;
                 cr_useSSE2 := mal_has_sse2 cpu && negb (crc_noSSE2 cfg);
                 cr_useAVX2 := mal_has_avx2 cpu && negb (crc_noAVX2 cfg);
                 cr_useAVX512 := mal_has_avx512f cpu && negb (crc_noAVX512 cfg);
                 cr_useNEON := mal_has_neon cpu && negb (crc_noNEON cfg);
                 cr_shuffleTable := router_shuffleTable cfg;
                 cr_weights := router_weights cfg |}
      end
  end.

(** [config.channelMapIn] receives the first [channelsIn] entries of the
    argument, the rest of the zeroed config stays [MAL_CHANNEL_NONE]. *)
Definition copy_channel_map (channels : Z) (m : channel_map) : channel_map :=
  fold_left (fun acc iChannel => array_set acc iChannel (map_at m iChannel))
            (range channels) blank_channel_map.

Definition mal_channel_router_config_init {proc : Type} (channelsIn : Z)
    (channelMapIn : channel_map) (channelsOut : Z) (channelMapOut : channel_map)
    (mixingMode : mal_channel_mix_mode) (onRead : option proc)
    : mal_channel_router_config proc :=
  {| crc_channelsIn := channelsIn;
     crc_channelsOut := channelsOut;
     crc_channelMapIn := copy_channel_map channelsIn channelMapIn;
     crc_channelMapOut := copy_channel_map channelsOut channelMapOut;
     crc_mixingMode := mixingMode;
     crc_noSSE2 := false;
     crc_noAVX2 := false;
     crc_noAVX512 := false;
     crc_noNEON := false;
     crc_onReadDeinterleaved := onRead |}.

(** [mal_split_buffer]: the size in bytes of each of the [splitCount]
    parts of a buffer of [bufferSize] bytes, of which the first
    [unalignedBytes] are skipped to reach the alignment. *)
Definition mal_split_buffer (unalignedBytes bufferSize splitCount alignment : Z) : Z :=
  if (bufferSize =? 0) || (splitCount =? 0) then 0
  else
    let alignment := if alignment =? 0 then 1 else alignment in
    if unalignedBytes <=? bufferSize then
      Z.land ((bufferSize - unalignedBytes) / splitCount) (Z.lnot (alignment - 1))
    else 0.

(** The first [n] cells of a scratch channel after a callback stored
    [l] at its start (cells the callback did not write read as zero). *)
Definition scratch_frames (n : Z) (l : list F32.t) : list F32.t :=
  firstn (Z.to_nat n) (l ++ repeat F32.zero (Z.to_nat n - length l)).

Section RouterRead.
Context {S : Type}.
Variable pRouter : mal_channel_router (read_deinterleaved_proc S).

(** The callback of an initialised router is never [NULL]; for a
    router that was not initialised the model reads nothing. *)
Definition router_onReadDeinterleaved : read_deinterleaved_proc S :=
  match crc_onReadDeinterleaved (cr_config pRouter) with
  | Some f => f
  | None => fun _ st => ((0, []), st)
  end.

(** [mal_channel_router__do_routing]: returns the output buffers after
    [frameCount] frames were written at the cursors [ppSamplesOut]
    from the scratch channels [ppSamplesIn]. The scalar loop and the
    SIMD loops compute, for every cell, the same product and sum.
    [mal_assert] is the C [assert]: the result is [None] when
    [mal_assert(pRouter->isPassthrough == MAL_FALSE)] or, in the
    shuffle branch, [mal_assert(channelsIn == channelsOut)] fails and
    the program is aborted. *)
Definition mal_channel_router__do_routing (frameCount : Z) (out : list buffer)
    (ppSamplesOut : cursors) (ppSamplesIn : deinterleaved_block) : option (list buffer) :=
  let channelsIn := crc_channelsIn (cr_config pRouter) in
  let channelsOut := crc_channelsOut (cr_config pRouter) in
  if cr_isPassthrough pRouter then None
  else if cr_isSimpleShuffle pRouter then
    if negb (channelsIn =? channelsOut) then None
    else
      Some
        (fold_left
           (fun out iChannelIn =>
              let iChannelOut := Z.to_nat (nth iChannelIn (cr_shuffleTable pRouter) 0) in
              array_set out iChannelOut
                (buffer_store (nth iChannelOut out []) (nth iChannelOut ppSamplesOut 0)
                   (scratch_frames frameCount (nth iChannelIn ppSamplesIn []))))
           (range channelsIn) out)
  else
    let cleared :=
      map (fun _ : nat => repeat F32.zero (Z.to_nat frameCount)) (range channelsOut) in
    let mixed :=
      fold_left
        (fun acc iChannelIn =>
           fold_left
             (fun acc iChannelOut =>
                let w := weight_at (cr_weights pRouter) iChannelIn iChannelOut in
                array_set acc iChannelOut
                  (map (fun ox => F32.add (fst ox) (F32.mul (snd ox) w))
                       (combine (nth iChannelOut acc [])
                                (scratch_frames frameCount (nth iChannelIn ppSamplesIn [])))))
             (range channelsOut) acc)
        (range channelsIn) cleared in
    Some (store_block out ppSamplesOut channelsOut mixed).

(** State of the two read loops. *)
Record router_loop := {
  rl_totalFramesRead : Z;
  rl_ppNextSamplesOut : cursors;
  rl_out : list buffer;
  rl_client : S
}.

(** The loop of the passthrough branch for frame counts above
    [0xFFFFFFFF]. *)
Definition router_passthrough_body (frameCount : Z) (s : router_loop)
    : router_loop * bool :=
  let channelsOut := crc_channelsOut (cr_config pRouter) in
  let framesRemaining := frameCount - rl_totalFramesRead s in
  let framesToReadRightNow :=
    if 0xFFFFFFFF <? framesRemaining then 0xFFFFFFFF else framesRemaining in
  let '((n, samples), st) :=
    router_onReadDeinterleaved (u32 framesToReadRightNow) (rl_client s) in
  let out := store_block (rl_out s) (rl_ppNextSamplesOut s) channelsOut samples in
  let framesJustRead := u32 n in
  if framesJustRead =? 0 then
    ({| rl_totalFramesRead := rl_totalFramesRead s;
        rl_ppNextSamplesOut := rl_ppNextSamplesOut s;
        rl_out := out; rl_client := st |}, false)
  else
    ({| rl_totalFramesRead := u64 (rl_totalFramesRead s + framesJustRead);
        rl_ppNextSamplesOut :=
          cursors_advance (rl_ppNextSamplesOut s) channelsOut framesJustRead;
        rl_out := out; rl_client := st |},
     negb (framesJustRead <? framesToReadRightNow)).

(** The loop of the path for a router that is not a passthrough. The
    state is [None] once an assertion of
    [mal_channel_router__do_routing] has failed. *)
Definition router_routing_body (frameCount maxFramesToReadEachIteration : Z)
    (s : router_loop) : option router_loop * bool :=
  let channelsIn := crc_channelsIn (cr_config pRouter) in
  let framesRemaining := frameCount - rl_totalFramesRead s in
  let framesToReadRightNow :=
    if maxFramesToReadEachIteration <? framesRemaining
    then maxFramesToReadEachIteration else framesRemaining in
  let '((n, ppTemp), st) :=
    router_onReadDeinterleaved (u32 framesToReadRightNow) (rl_client s) in
  let framesJustRead := u32 n in
  if framesJustRead =? 0 then
    (Some {| rl_totalFramesRead := rl_totalFramesRead s;
             rl_ppNextSamplesOut := rl_ppNextSamplesOut s;
             rl_out := rl_out s; rl_client := st |}, false)
  else
    match mal_channel_router__do_routing framesJustRead (rl_out s)
            (rl_ppNextSamplesOut s) ppTemp with
    | None => (None, false)
    | Some out =>
        let totalFramesRead := u64 (rl_totalFramesRead s + framesJustRead) in
        (Some {| rl_totalFramesRead := totalFramesRead;
                 rl_ppNextSamplesOut :=
                   if totalFramesRead <? frameCount
                   then cursors_advance (rl_ppNextSamplesOut s) channelsIn framesJustRead
                   else rl_ppNextSamplesOut s;
                 rl_out := out; rl_client := st |},
         negb (framesJustRead <? framesToReadRightNow))
    end.

Definition router_loop_cond (frameCount : Z) (s : router_loop) : bool :=
  rl_totalFramesRead s <? frameCount.

Definition router_passthrough_loop (frameCount : Z) (s : router_loop)
    : router_loop * bool :=
  while_loop (router_loop_cond frameCount) (router_passthrough_body frameCount)
             (Z.to_pos (frameCount + 1)) s.

Definition router_routing_loop (frameCount : Z) (s : router_loop)
    : option router_loop * bool :=
  let maxBytesToReadPerFrameEachIteration :=
    mal_split_buffer 0 (MAL_MAX_CHANNELS * 256 * 4)
      (crc_channelsIn (cr_config pRouter)) MAL_SIMD_ALIGNMENT in
  let maxFramesToReadEachIteration := maxBytesToReadPerFrameEachIteration / 4 in
  while_loop
    (fun s => match s with
              | Some s => router_loop_cond frameCount s
              | None => false
              end)
    (fun s => match s with
              | Some s => router_routing_body frameCount maxFramesToReadEachIteration s
              | None => (None, false)
              end)
    (Z.to_pos (frameCount + 1)) (Some s).

(** [mal_channel_router_read_deinterleaved]: the frame count returned,
    the output buffers and the state of the data source afterwards.
    [frameCount] is a [mal_uint64]. In the passthrough branch the
    block for frame counts above [0xFFFFFFFF] has no [return]:
    control continues into the path for a router that is not a
    passthrough, with the write positions back at the start of the
    output buffers and a fresh frame counter. The result is [None]
    when the call does not return because an assertion of
    [mal_channel_router__do_routing] fails. *)
Definition mal_channel_router_read_deinterleaved (frameCount : Z)
    (ppSamplesOut : list buffer) (pUserData : S) : option ((Z * list buffer) * S) :=
  let start out st :=
    {| rl_totalFramesRead := 0; rl_ppNextSamplesOut := cursors_init;
       rl_out := out; rl_client := st |} in
  if cr_isPassthrough pRouter && (frameCount <=? 0xFFFFFFFF) then
    let '((n, samples), st) := router_onReadDeinterleaved (u32 frameCount) pUserData in
    Some ((u32 n,
           store_block ppSamplesOut cursors_init (crc_channelsOut (cr_config pRouter))
             samples),
          st)
  else
    let s0 :=
      if cr_isPassthrough pRouter
      then fst (router_passthrough_loop frameCount (start ppSamplesOut pUserData))
      else start ppSamplesOut pUserData in
    match fst (router_routing_loop frameCount (start (rl_out s0) (rl_client s0))) with
    | Some s1 => Some ((rl_totalFramesRead s1, rl_out s1), rl_client s1)
    | None => None
    end.
End RouterRead.

(* ------------------------------------------------------------------ *)
(** ** Sample rate converter                                           *)
(* ------------------------------------------------------------------ *)

Record mal_src_config_sinc := {
  windowFunction : mal_src_sinc_window_function;
  windowWidth : Z
}.

Record mal_src_config (proc : Type) := {
  srcc_sampleRateIn : Z;
  srcc_sampleRateOut : Z;
  srcc_channels : Z;
  srcc_algorithm : mal_src_algorithm;
  srcc_neverConsumeEndOfInput : bool;
  srcc_noSSE2 : bool;
  srcc_noAVX2 : bool;
  srcc_noAVX512 : bool;
  srcc_noNEON : bool;
  srcc_onReadDeinterleaved : option proc;
  srcc_sinc : mal_src_config_sinc
}.
Arguments srcc_sampleRateIn {proc}.
Arguments srcc_sampleRateOut {proc}.
Arguments srcc_channels {proc}.
Arguments srcc_algorithm {proc}.
Arguments srcc_neverConsumeEndOfInput {proc}.
Arguments srcc_noSSE2 {proc}.
Arguments srcc_noAVX2 {proc}.
Arguments srcc_noAVX512 {proc}.
Arguments srcc_noNEON {proc}.
Arguments srcc_onReadDeinterleaved {proc}.
Arguments srcc_sinc {proc}.

(** [mal_countof(pSRC->linear.input[0])], [mal_countof(pSRC->sinc.input[0])]
    and [mal_countof(pSRC->sinc.table)]. *)
Definition linear_input_count : Z := MAL_SRC_INPUT_BUFFER_SIZE_IN_SAMPLES.
Definition sinc_input_count : Z :=
  MAL_SRC_SINC_MAX_WINDOW_WIDTH * 2 + MAL_SRC_INPUT_BUFFER_SIZE_IN_SAMPLES.
Definition sinc_table_count : Z :=
  MAL_SRC_SINC_MAX_WINDOW_WIDTH * 1 * MAL_SRC_SINC_LOOKUP_TABLE_RESOLUTION.

(** The members [linear] and [sinc] form a union in C; an object uses
    the member of its algorithm only, and the model keeps both. *)
Record mal_src (proc : Type) := {
  src_linear_input : list (list F32.t);
  src_linear_timeIn : F32.t;
  src_linear_leftoverFrames : Z;
  src_sinc_input : list (list F32.t);
  src_sinc_timeIn : F32.t;
  src_sinc_inputFrameCount : Z;
  src_sinc_windowPosInSamples : Z;
  src_sinc_table : list F32.t;
  src_config : mal_src_config proc;
  src_isEndOfInputLoaded : bool;
  src_useSSE2 : bool;
  src_useAVX2 : bool;
  src_useAVX512 : bool;
  src_useNEON : bool
}.
Arguments src_linear_input {proc}.
Arguments src_linear_timeIn {proc}.
Arguments src_linear_leftoverFrames {proc}.
Arguments src_sinc_input {proc}.
Arguments src_sinc_timeIn {proc}.
Arguments src_sinc_inputFrameCount {proc}.
Arguments src_sinc_windowPosInSamples {proc}.
Arguments src_sinc_table {proc}.
Arguments src_config {proc}.
Arguments src_isEndOfInputLoaded {proc}.
Arguments src_useSSE2 {proc}.
Arguments src_useAVX2 {proc}.
Arguments src_useAVX512 {proc}.
Arguments src_useNEON {proc}.

Definition zero_linear_input : list (list F32.t) :=
  Eval vm_compute in
  repeat (repeat F32.zero (Z.to_nat linear_input_count)) (Z.to_nat MAL_MAX_CHANNELS).

Definition zero_sinc_input : list (list F32.t) :=
  Eval vm_compute in
  repeat (repeat F32.zero (Z.to_nat sinc_input_count)) (Z.to_nat MAL_MAX_CHANNELS).

Definition zero_sinc_table : list F32.t :=
  Eval vm_compute in repeat F32.zero (Z.to_nat sinc_table_count).

(** [MAL_PI_D], the double nearest to pi. *)
Definition MAL_PI_D : F64.t := S754_finite false 7074237752028440 (-51).

Definition mal_src__build_sinc_table__sinc (libm : mal_libm) (table : list F32.t)
    : list F32.t :=
  fold_left
    (fun table i =>
       let x := F64.div (F64.mul (F64.of_Z (Z.of_nat i)) MAL_PI_D)
                        (F64.of_Z MAL_SRC_SINC_LOOKUP_TABLE_RESOLUTION) in
       array_set table i (F64.to_f32 (F64.div (c_sin libm x) x)))
    (seq 1 (Z.to_nat sinc_table_count - 1))
    (array_set table 0%nat (F32.of_Z 1)).

Definition mal_src__build_sinc_table__rectangular := mal_src__build_sinc_table__sinc.

Definition mal_src__build_sinc_table__hann (libm : mal_libm) (table : list F32.t)
    : list F32.t :=
  fold_left
    (fun table i =>
       let x := F64.of_f32 (nth i table F32.zero) in
       let N := F64.of_Z (MAL_SRC_SINC_MAX_WINDOW_WIDTH * 2) in
       let n := F64.add (F64.div (F64.of_Z (Z.of_nat i))
                                 (F64.of_Z MAL_SRC_SINC_LOOKUP_TABLE_RESOLUTION))
                        (F64.of_Z MAL_SRC_SINC_MAX_WINDOW_WIDTH) in
       let w := F64.mul (F64.of_ratio 5 10)
                  (F64.sub (F64.of_Z 1)
                     (c_cos libm (F64.div (F64.mul (F64.mul (F64.of_Z 2) MAL_PI_D) n) N))) in
       array_set table i (F64.to_f32 (F64.mul x w)))
    (range sinc_table_count)
    (mal_src__build_sinc_table__sinc libm table).

(** The window width as [mal_src_init] leaves it in the object. *)
Definition clamp_window_width (w : Z) : Z :=
  let w := if w =? 0 then MAL_SRC_SINC_DEFAULT_WINDOW_WIDTH else w in
  let w := if w <? MAL_SRC_SINC_MIN_WINDOW_WIDTH then MAL_SRC_SINC_MIN_WINDOW_WIDTH else w in
  let w := if MAL_SRC_SINC_MAX_WINDOW_WIDTH <? w then MAL_SRC_SINC_MAX_WINDOW_WIDTH else w in
  w.

Definition with_window_width {proc} (cfg : mal_src_config proc) (w : Z)
    : mal_src_config proc :=
  {| srcc_sampleRateIn := srcc_sampleRateIn cfg;
     srcc_sampleRateOut := srcc_sampleRateOut cfg;
     srcc_channels := srcc_channels cfg;
     srcc_algorithm := srcc_algorithm cfg;
     srcc_neverConsumeEndOfInput := srcc_neverConsumeEndOfInput cfg;
     srcc_noSSE2 := srcc_noSSE2 cfg;
     srcc_noAVX2 := srcc_noAVX2 cfg;
     srcc_noAVX512 := srcc_noAVX512 cfg;
     srcc_noNEON := srcc_noNEON cfg;
     srcc_onReadDeinterleaved := srcc_onReadDeinterleaved cfg;
     srcc_sinc := {| windowFunction := windowFunction (srcc_sinc cfg); windowWidth := w |} |}.

(** The object [mal_src_init] builds: zeroed, except for the config,
    the SIMD switches and the lookup table. *)
Definition mal_src_object {proc : Type} (cpu : mal_cpu) (config : mal_src_config proc)
    (table : list F32.t) : mal_src proc :=
  {| src_linear_input := zero_linear_input;
     src_linear_timeIn := F32.zero;
     src_linear_leftoverFrames := 0;
     src_sinc_input := zero_sinc_input;
     src_sinc_timeIn := F32.zero;
     src_sinc_inputFrameCount := 0;
     src_sinc_windowPosInSamples := 0;
     src_sinc_table := table;
     src_config := config;
     src_isEndOfInputLoaded := false;
     src_useSSE2 := mal_has_sse2 cpu && negb (srcc_noSSE2 config);
     src_useAVX2 := mal_has_avx2 cpu && negb (srcc_noAVX2 config);
     src_useAVX512 := mal_has_avx512f cpu && negb (srcc_noAVX512 config);
     src_useNEON := mal_has_neon cpu && negb (srcc_noNEON config) |}.

Definition mal_src_init {proc : Type} (cpu : mal_cpu) (libm : mal_libm)
    (pConfig : option (mal_src_config proc)) : init_result (mal_src proc) :=
  match pConfig with
  | None => Failed MAL_INVALID_ARGS
  | Some cfg =>
      match srcc_onReadDeinterleaved cfg with
      | None => Failed MAL_INVALID_ARGS
      | Some _ =>
          if (srcc_channels cfg =? 0) || (MAL_MAX_CHANNELS <? srcc_channels cfg)
          then Failed MAL_INVALID_ARGS
          else
            match srcc_algorithm cfg with
            | mal_src_algorithm_sinc =>
                let config :=
                  with_window_width cfg (clamp_window_width (windowWidth (srcc_sinc cfg))) in
                match windowFunction (srcc_sinc cfg) with
                | mal_src_sinc_window_function_hann =>
                    Initialized
                      (mal_src_object cpu config
                         (mal_src__build_sinc_table__hann libm zero_sinc_table))
                | mal_src_sinc_window_function_rectangular =>
                    Initialized
                      (mal_src_object cpu config
                         (mal_src__build_sinc_table__rectangular libm zero_sinc_table))
                | mal_src_sinc_window_function_other _ => Failed MAL_INVALID_ARGS
                end
            | _ => Initialized (mal_src_object cpu cfg zero_sinc_table)
            end
      end
  end.

Definition with_sample_rates {proc} (cfg : mal_src_config proc) (sampleRateIn sampleRateOut : Z)
    : mal_src_config proc :=
  {| srcc_sampleRateIn := sampleRateIn;
     srcc_sampleRateOut := sampleRateOut;
     srcc_channels := srcc_channels cfg;
     srcc_algorithm := srcc_algorithm cfg;
     srcc_neverConsumeEndOfInput := srcc_neverConsumeEndOfInput cfg;
     srcc_noSSE2 := srcc_noSSE2 cfg;
     srcc_noAVX2 := srcc_noAVX2 cfg;
     srcc_noAVX512 := srcc_noAVX512 cfg;
     srcc_noNEON := srcc_noNEON cfg;
     srcc_onReadDeinterleaved := srcc_onReadDeinterleaved cfg;
     srcc_sinc := srcc_sinc cfg |}.

Definition with_config {proc} (pSRC : mal_src proc) (config : mal_src_config proc)
    : mal_src proc :=
  {| src_linear_input := src_linear_input pSRC;
     src_linear_timeIn := src_linear_timeIn pSRC;
     src_linear_leftoverFrames := src_linear_leftoverFrames pSRC;
     src_sinc_input := src_sinc_input pSRC;
     src_sinc_timeIn := src_sinc_timeIn pSRC;
     src_sinc_inputFrameCount := src_sinc_inputFrameCount pSRC;
     src_sinc_windowPosInSamples := src_sinc_windowPosInSamples pSRC;
     src_sinc_table := src_sinc_table pSRC;
     src_config := config;
     src_isEndOfInputLoaded := src_isEndOfInputLoaded pSRC;
     src_useSSE2 := src_useSSE2 pSRC;
     src_useAVX2 := src_useAVX2 pSRC;
     src_useAVX512 := src_useAVX512 pSRC;
     src_useNEON := src_useNEON pSRC |}.

(** The setters return the result code and the object as they leave
    it; the sample rates are [mal_uint32] arguments. *)
Definition mal_src_set_input_sample_rate {proc} (pSRC : mal_src proc) (sampleRateIn : Z)
    : mal_result * mal_src proc :=
  if sampleRateIn =? 0 then (MAL_INVALID_ARGS, pSRC)
  else (MAL_SUCCESS,
        with_config pSRC
          (with_sample_rates (src_config pSRC) sampleRateIn
             (srcc_sampleRateOut (src_config pSRC)))).

Definition mal_src_set_output_sample_rate {proc} (pSRC : mal_src proc) (sampleRateOut : Z)
    : mal_result * mal_src proc :=
  if sampleRateOut =? 0 then (MAL_INVALID_ARGS, pSRC)
  else (MAL_SUCCESS,
        with_config pSRC
          (with_sample_rates (src_config pSRC)
             (srcc_sampleRateIn (src_config pSRC)) sampleRateOut)).

Definition mal_src_set_sample_rate {proc} (pSRC : mal_src proc)
    (sampleRateIn sampleRateOut : Z) : mal_result * mal_src proc :=
  if (sampleRateIn =? 0) || (sampleRateOut =? 0) then (MAL_INVALID_ARGS, pSRC)
  else (MAL_SUCCESS,
        with_config pSRC (with_sample_rates (src_config pSRC) sampleRateIn sampleRateOut)).

Definition mal_src_config_init_new {proc : Type} : mal_src_config proc :=
  {| srcc_sampleRateIn := 0;
     srcc_sampleRateOut := 0;
     srcc_channels := 0;
     srcc_algorithm := mal_src_algorithm_sinc;
     srcc_neverConsumeEndOfInput := false;
     srcc_noSSE2 := false;
     srcc_noAVX2 := false;
     srcc_noAVX512 := false;
     srcc_noNEON := false;
     srcc_onReadDeinterleaved := None;
     srcc_sinc := {| windowFunction := mal_src_sinc_window_function_hann; windowWidth := 0 |} |}.

Definition mal_src_config_init {proc : Type} (sampleRateIn sampleRateOut channels : Z)
    (onReadDeinterleaved : option proc) : mal_src_config proc :=
  {| srcc_sampleRateIn := sampleRateIn;
     srcc_sampleRateOut := sampleRateOut;
     srcc_channels := channels;
     srcc_algorithm := mal_src_algorithm_sinc;
     srcc_neverConsumeEndOfInput := false;
     srcc_noSSE2 := false;
     srcc_noAVX2 := false;
     srcc_noAVX512 := false;
     srcc_noNEON := false;
     srcc_onReadDeinterleaved := onReadDeinterleaved;
     srcc_sinc := {| windowFunction := mal_src_sinc_window_function_hann; windowWidth := 0 |} |}.

(** [for (c = 0; c < channels; ++c) memcpy(cache[c] + off, samples[c])]:
    a callback stores the samples of each channel into the channel's
    row of the input cache. *)
Definition cache_store (cache : list (list F32.t)) (channels off : Z)
    (samples : deinterleaved_block) : list (list F32.t) :=
  fold_left
    (fun cache iChannel =>
       array_set cache iChannel
         (array_blit (nth iChannel cache []) (Z.to_nat off) (nth iChannel samples [])))
    (range channels) cache.

Definition cache_load (row : list F32.t) (i : Z) : F32.t :=
  if i <? 0 then F32.zero else nth (Z.to_nat i) row F32.zero.

Section SrcRead.
Context {S : Type}.

Definition src_onReadDeinterleaved (pSRC : mal_src (read_deinterleaved_proc S))
    : read_deinterleaved_proc S :=
  match srcc_onReadDeinterleaved (src_config pSRC) with
  | Some f => f
  | None => fun _ st => ((0, []), st)
  end.

(** State of a read loop of the converter. *)
Record src_loop := {
  sl_pSRC : mal_src (read_deinterleaved_proc S);
  sl_totalFramesRead : Z;
  sl_ppNextSamplesOut : cursors;
  sl_out : list buffer;
  sl_client : S
}.

Definition src_loop_cond (frameCount : Z) (s : src_loop) : bool :=
  sl_totalFramesRead s <? frameCount.

Definition src_loop_start (pSRC : mal_src (read_deinterleaved_proc S))
    (ppSamplesOut : list buffer) (pUserData : S) : src_loop :=
  {| sl_pSRC := pSRC; sl_totalFramesRead := 0; sl_ppNextSamplesOut := cursors_init;
     sl_out := ppSamplesOut; sl_client := pUserData |}.

(** *** [mal_src_read_deinterleaved__passthrough] *)

Definition src_passthrough_body (frameCount : Z) (s : src_loop) : src_loop * bool :=
  let pSRC := sl_pSRC s in
  let channels := srcc_channels (src_config pSRC) in
  let framesRemaining := frameCount - sl_totalFramesRead s in
  let framesToReadRightNow :=
    if 0xFFFFFFFF <? framesRemaining then 0xFFFFFFFF else framesRemaining in
  let '((n, samples), st) :=
    src_onReadDeinterleaved pSRC (u32 framesToReadRightNow) (sl_client s) in
  let out := store_block (sl_out s) (sl_ppNextSamplesOut s) channels samples in
  let framesJustRead := u32 n in
  if framesJustRead =? 0 then
    ({| sl_pSRC := pSRC; sl_totalFramesRead := sl_totalFramesRead s;
        sl_ppNextSamplesOut := sl_ppNextSamplesOut s; sl_out := out; sl_client := st |},
     false)
  else
    ({| sl_pSRC := pSRC;
        sl_totalFramesRead := u64 (sl_totalFramesRead s + framesJustRead);
        sl_ppNextSamplesOut :=
          cursors_advance (sl_ppNextSamplesOut s) channels framesJustRead;
        sl_out := out; sl_client := st |},
     negb (framesJustRead <? framesToReadRightNow)).

Definition mal_src_read_deinterleaved__passthrough
    (pSRC : mal_src (read_deinterleaved_proc S)) (frameCount : Z)
    (ppSamplesOut : list buffer) (pUserData : S) : (Z * src_loop) * bool :=
  if frameCount <=? 0xFFFFFFFF then
    let '((n, samples), st) := src_onReadDeinterleaved pSRC (u32 frameCount) pUserData in
    ((n,
      {| sl_pSRC := pSRC; sl_totalFramesRead := n; sl_ppNextSamplesOut := cursors_init;
         sl_out := store_block ppSamplesOut cursors_init
                     (srcc_channels (src_config pSRC)) samples;
         sl_client := st |}), false)
  else
    let '(s, exhausted) :=
      while_loop (src_loop_cond frameCount) (src_passthrough_body frameCount)
                 (Z.to_pos (frameCount + 1)) (src_loop_start pSRC ppSamplesOut pUserData) in
    ((sl_totalFramesRead s, s), exhausted).

(** *** [mal_src_read_deinterleaved__linear] *)

(** One interpolated output sample at input time [t]. *)
Definition linear_sample (row : list F32.t) (t : F32.t) : F32.t :=
  let iPrevSample := F32.floor t in
  let iNextSample := F32.add iPrevSample (F32.of_Z 1) in
  let alpha := F32.sub t iPrevSample in
  let prevSample := cache_load row (u32 (F32.to_Z iPrevSample)) in
  let nextSample := cache_load row (u32 (F32.to_Z iNextSample)) in
  mal_mix_f32_fast prevSample nextSample alpha.

(** The loop that writes output frames in groups of four. *)
Fixpoint linear_groups (n : nat) (row : list F32.t) (factor t0 t1 t2 t3 : F32.t)
    : list F32.t :=
  match n with
  | O => []
  | Datatypes.S n' =>
      let step := F32.mul factor (F32.of_Z 4) in
      linear_sample row t0 :: linear_sample row t1
        :: linear_sample row t2 :: linear_sample row t3
        :: linear_groups n' row factor (F32.add t0 step) (F32.add t1 step)
             (F32.add t2 step) (F32.add t3 step)
  end.

(** The loop that writes the remaining output frames. *)
Fixpoint linear_rest (n : nat) (row : list F32.t) (factor t : F32.t) : list F32.t :=
  match n with
  | O => []
  | Datatypes.S n' => linear_sample row t :: linear_rest n' row factor (F32.add t factor)
  end.

Definition linear_channel (row : list F32.t) (factor timeIn : F32.t)
    (maxOutputFramesToRead : Z) : list F32.t :=
  let maxOutputFramesToRead4 := maxOutputFramesToRead / 4 in
  let t0 := F32.add timeIn (F32.mul factor (F32.of_Z 0)) in
  let t1 := F32.add timeIn (F32.mul factor (F32.of_Z 1)) in
  let t2 := F32.add timeIn (F32.mul factor (F32.of_Z 2)) in
  let t3 := F32.add timeIn (F32.mul factor (F32.of_Z 3)) in
  let t := F32.add timeIn
             (F32.mul (F32.mul factor (F32.of_Z maxOutputFramesToRead4)) (F32.of_Z 4)) in
  linear_groups (Z.to_nat maxOutputFramesToRead4) row factor t0 t1 t2 t3
  ++ linear_rest (Z.to_nat (maxOutputFramesToRead - maxOutputFramesToRead4 * 4))
                 row factor t.

(** Moves the [leftoverFrames] frames that follow the consumed ones
    to the start of the row. *)
Definition linear_keep_leftover (row : list F32.t) (framesReadFromClient leftoverFrames : Z)
    : list F32.t :=
  fold_left
    (fun row iFrame =>
       array_set row iFrame
         (cache_load row (framesReadFromClient - leftoverFrames + Z.of_nat iFrame)))
    (range leftoverFrames) row.

Definition with_linear (pSRC : mal_src (read_deinterleaved_proc S))
    (input : list (list F32.t)) (timeIn : F32.t) (leftoverFrames : Z)
    : mal_src (read_deinterleaved_proc S) :=
  {| src_linear_input := input;
     src_linear_timeIn := timeIn;
     src_linear_leftoverFrames := leftoverFrames;
     src_sinc_input := src_sinc_input pSRC;
     src_sinc_timeIn := src_sinc_timeIn pSRC;
     src_sinc_inputFrameCount := src_sinc_inputFrameCount pSRC;
     src_sinc_windowPosInSamples := src_sinc_windowPosInSamples pSRC;
     src_sinc_table := src_sinc_table pSRC;
     src_config := src_config pSRC;
     src_isEndOfInputLoaded := src_isEndOfInputLoaded pSRC;
     src_useSSE2 := src_useSSE2 pSRC;
     src_useAVX2 := src_useAVX2 pSRC;
     src_useAVX512 := src_useAVX512 pSRC;
     src_useNEON := src_useNEON pSRC |}.

(** Read Input Data: the number of frames to have in the cache. *)
Definition linear_framesToReadFromClient (tBeg : F32.t) (framesToRead : Z)
    (factor : F32.t) : Z :=
  let maxFrameCountPerChunkIn := linear_input_count in
  let tEnd := F32.add tBeg (F32.mul (F32.of_Z framesToRead) factor) in
  let framesToReadFromClient := u32 (u32 (F32.to_Z tEnd) + 1 + 1) in
  if maxFrameCountPerChunkIn <=? framesToReadFromClient
  then maxFrameCountPerChunkIn else framesToReadFromClient.

(** Read Input Data: the client fills the cache behind the leftover
    frames. Returns [framesReadFromClient] (the leftover frames
    included), the cache and the state of the source. *)
Definition linear_read_input (pSRC : mal_src (read_deinterleaved_proc S))
    (framesToReadFromClient : Z) (pUserData : S) : (Z * list (list F32.t)) * S :=
  let channels := srcc_channels (src_config pSRC) in
  let leftoverFrames := src_linear_leftoverFrames pSRC in
  let '((framesReadFromClient, input), st) :=
    if leftoverFrames <? framesToReadFromClient then
      let '((n, samples), st) :=
        src_onReadDeinterleaved pSRC (u32 (framesToReadFromClient - leftoverFrames))
                                pUserData in
      ((u32 n, cache_store (src_linear_input pSRC) channels leftoverFrames samples), st)
    else ((0, src_linear_input pSRC), pUserData) in
  ((u32 (framesReadFromClient + leftoverFrames), input), st).

(** Write Output Data: the output frames the cached input allows; the
    last input sample is kept back for interpolation. *)
Definition linear_availableOutputFrames (framesReadFromClient : Z) (tBeg factor : F32.t)
    : Z :=
  let tAvailable :=
    F32.sub (F32.sub (F32.of_Z framesReadFromClient) tBeg) (F32.of_Z 1) in
  let maxOutputFramesToRead := u32 (F32.to_Z (F32.div tAvailable factor)) in
  if maxOutputFramesToRead =? 0 then 1 else maxOutputFramesToRead.

Definition linear_maxOutputFramesToRead (framesReadFromClient : Z) (tBeg factor : F32.t)
    (framesToRead : Z) : Z :=
  let maxOutputFramesToRead := linear_availableOutputFrames framesReadFromClient tBeg factor in
  if framesToRead <? maxOutputFramesToRead then u32 framesToRead
  else maxOutputFramesToRead.

(** Write Output Data and Residual: the output frames are written, the
    time and the leftover frames are updated. *)
Definition linear_write_output (s : src_loop) (input : list (list F32.t))
    (framesReadFromClient maxOutputFramesToRead : Z) (factor : F32.t) (st : S)
    : src_loop :=
  let pSRC := sl_pSRC s in
  let channels := srcc_channels (src_config pSRC) in
  let tBeg := src_linear_timeIn pSRC in
  let produced :=
    map (fun iChannel =>
           linear_channel (nth iChannel input []) factor tBeg maxOutputFramesToRead)
        (range channels) in
  let out := store_block (sl_out s) (sl_ppNextSamplesOut s) channels produced in
  (* Residual *)
  let tNext := F32.add tBeg (F32.mul (F32.of_Z maxOutputFramesToRead) factor) in
  let iNextFrame := u32 (F32.to_Z (F32.floor tNext)) in
  let leftoverFrames := u32 (framesReadFromClient - iNextFrame) in
  let timeIn := F32.sub tNext (F32.of_Z iNextFrame) in
  let input :=
    fold_left
      (fun input iChannel =>
         array_set input iChannel
           (linear_keep_leftover (nth iChannel input []) framesReadFromClient
                                 leftoverFrames))
      (range channels) input in
  {| sl_pSRC := with_linear pSRC input timeIn leftoverFrames;
     sl_totalFramesRead := u64 (sl_totalFramesRead s + maxOutputFramesToRead);
     sl_ppNextSamplesOut :=
       cursors_advance (sl_ppNextSamplesOut s) channels maxOutputFramesToRead;
     sl_out := out; sl_client := st |}.

(** One trip of the read loop once [framesToRead] is known. The loop
    is left when fewer than two input frames are at hand, and after the
    trip in which the client delivered less than it was asked for. *)
Definition src_linear_chunk (framesToRead : Z) (factor : F32.t) (s : src_loop)
    : src_loop * bool :=
  let pSRC := sl_pSRC s in
  let tBeg := src_linear_timeIn pSRC in
  let framesToReadFromClient := linear_framesToReadFromClient tBeg framesToRead factor in
  let '((framesReadFromClient, input), st) :=
    linear_read_input pSRC framesToReadFromClient (sl_client s) in
  if framesReadFromClient <? 2 then
    ({| sl_pSRC := with_linear pSRC input tBeg (src_linear_leftoverFrames pSRC);
        sl_totalFramesRead := sl_totalFramesRead s;
        sl_ppNextSamplesOut := sl_ppNextSamplesOut s;
        sl_out := sl_out s; sl_client := st |}, false)
  else
    (linear_write_output s input framesReadFromClient
       (linear_maxOutputFramesToRead framesReadFromClient tBeg factor framesToRead)
       factor st,
     negb (framesReadFromClient <? framesToReadFromClient)).

(** At most 16384 output frames are produced per trip, to keep the
    sample positions within the precision of a float. *)
Definition src_linear_body (frameCount : Z) (factor : F32.t) (s : src_loop)
    : src_loop * bool :=
  let framesRemaining := frameCount - sl_totalFramesRead s in
  let framesToRead := if 16384 <? framesRemaining then 16384 else framesRemaining in
  src_linear_chunk framesToRead factor s.

(** Returns the frame count, the final loop state (converter, output
    buffers, data source) and whether the trip bound of the loop ran
    out ([false]: the loop ended by itself). *)
Definition mal_src_read_deinterleaved__linear
    (pSRC : mal_src (read_deinterleaved_proc S)) (frameCount : Z)
    (ppSamplesOut : list buffer) (pUserData : S) : (Z * src_loop) * bool :=
  let factor :=
    F32.div (F32.of_Z (srcc_sampleRateIn (src_config pSRC)))
            (F32.of_Z (srcc_sampleRateOut (src_config pSRC))) in
  let '(s, exhausted) :=
    while_loop (src_loop_cond frameCount) (src_linear_body frameCount factor)
               (Z.to_pos (frameCount + 1)) (src_loop_start pSRC ppSamplesOut pUserData) in
  ((sl_totalFramesRead s, s), exhausted).
(** *** [mal_src_read_deinterleaved__sinc] *)

(** [pSRC->sinc.table[i]]; [None] when [i] is not an index of the
    table. *)
Definition sinc_table_load (table : list F32.t) (i : Z) : option F32.t :=
  if (0 <=? i) && (i <? sinc_table_count) then nth_error table (Z.to_nat i) else None.

(** The index [ixabs] that [mal_src_sinc__interpolation_factor]
    computes from the distance [x]; the function reads the table at
    [ixabs] and at [ixabs + 1]. *)
Definition sinc_table_index (x : F32.t) : Z :=
  let xabs := F32.abs x in
  let xabs := F32.mul xabs (F32.of_Z MAL_SRC_SINC_LOOKUP_TABLE_RESOLUTION) in
  s32 (F32.to_Z xabs).

Definition mal_src_sinc__interpolation_factor (table : list F32.t) (x : F32.t)
    : option F32.t :=
  let xabs := F32.abs x in
  let xabs := F32.mul xabs (F32.of_Z MAL_SRC_SINC_LOOKUP_TABLE_RESOLUTION) in
  let ixabs := s32 (F32.to_Z xabs) in
  let a := F32.sub xabs (F32.of_Z ixabs) in
  match sinc_table_load table ixabs, sinc_table_load table (ixabs + 1) with
  | Some lo, Some hi => Some (mal_mix_f32_fast lo hi a)
  | _, _ => None
  end.

(** [iWindowF]: the tap positions relative to the centre of the
    window; the array is zeroed beyond the [windowWidth2] taps. *)
Definition sinc_iWindowF (windowWidth : Z) (i : Z) : F32.t :=
  if (0 <=? i) && (i <? windowWidth * 2) then F32.of_Z (i - windowWidth) else F32.zero.

(** [windowSamples]: the first is always zero, the others are loaded
    from the cache; the array is zeroed beyond the taps. *)
Definition sinc_windowSamples (row : list F32.t) (windowWidth iTimeIn : Z) (i : Z) : F32.t :=
  if (1 <=? i) && (i <? windowWidth * 2) then cache_load row (u32 (iTimeIn + i))
  else F32.zero.

Definition windowWidthSIMD (pSRC : mal_src (read_deinterleaved_proc S)) (windowWidth : Z) : Z :=
  if src_useNEON pSRC then Z.land (windowWidth + 1) (Z.lnot 1)
  else if src_useAVX512 pSRC then Z.land (windowWidth + 7) (Z.lnot 7)
  else if src_useAVX2 pSRC then Z.land (windowWidth + 3) (Z.lnot 3)
  else if src_useSSE2 pSRC then Z.land (windowWidth + 1) (Z.lnot 1)
  else windowWidth.

(** The accumulation of a SIMD loop: [lanes] running sums over
    [groups] groups of consecutive taps. *)
Definition sinc_simd_lanes (lanes groups : Z) (table : list F32.t)
    (windowSamples iWindowF : Z -> F32.t) (t : F32.t) : option (list F32.t) :=
  fold_left
    (fun (acc : option (list F32.t)) (g : nat) =>
       fold_left
         (fun (acc : option (list F32.t)) (l : nat) =>
            match acc with
            | None => None
            | Some r =>
                let i := Z.of_nat g * lanes + Z.of_nat l in
                match mal_src_sinc__interpolation_factor table (F32.sub t (iWindowF i)) with
                | None => None
                | Some a =>
                    Some (array_set r l
                            (F32.add (nth l r F32.zero) (F32.mul (windowSamples i) a)))
                end
            end)
         (range lanes) acc)
    (range groups) (Some (repeat F32.zero (Z.to_nat lanes))).

(** The scalar loop over the taps [iWindow, windowWidth2). *)
Definition sinc_scalar_taps (iWindow windowWidth2 : Z) (table : list F32.t)
    (windowSamples iWindowF : Z -> F32.t) (t : F32.t) (sampleOut : F32.t) : option F32.t :=
  fold_left
    (fun (acc : option F32.t) (k : nat) =>
       match acc with
       | None => None
       | Some sampleOut =>
           let i := iWindow + Z.of_nat k in
           let s := windowSamples i in
           let w := iWindowF i in
           match mal_src_sinc__interpolation_factor table (F32.sub t w) with
           | None => None
           | Some a => Some (F32.add sampleOut (F32.mul s a))
           end
       end)
    (range (windowWidth2 - iWindow)) (Some sampleOut).

(** One output sample at input time [timeIn]; [None] when a lookup
    leaves the table. *)
Definition sinc_sample (pSRC : mal_src (read_deinterleaved_proc S)) (row : list F32.t)
    (timeIn : F32.t) : option F32.t :=
  let W := s32 (windowWidth (srcc_sinc (src_config pSRC))) in
  let windowWidth2 := W * 2 in
  let windowWidthSIMD2 := windowWidthSIMD pSRC W * 2 in
  let table := src_sinc_table pSRC in
  let iTimeInF := F32.floor timeIn in
  let iTimeIn := u32 (F32.to_Z iTimeInF) in
  let windowSamples := sinc_windowSamples row W iTimeIn in
  let iWindowF := sinc_iWindowF W in
  let simd :=
    if src_useAVX2 pSRC || src_useAVX512 pSRC then
      let windowWidth8 := Z.shiftr windowWidthSIMD2 3 in
      match sinc_simd_lanes 8 windowWidth8 table windowSamples iWindowF
              (F32.sub timeIn iTimeInF) with
      | None => None
      | Some r =>
          let r_ l := nth l r F32.zero in
          let x := F32.add (F32.add (F32.add (r_ 0%nat) (r_ 1%nat)) (F32.add (r_ 2%nat) (r_ 3%nat)))
                           (F32.add (F32.add (r_ 4%nat) (r_ 5%nat)) (F32.add (r_ 6%nat) (r_ 7%nat))) in
          Some (F32.add F32.zero x, windowWidth8 * 8)
      end
    else if src_useSSE2 pSRC || src_useNEON pSRC then
      let windowWidth4 := Z.shiftr windowWidthSIMD2 2 in
      match sinc_simd_lanes 4 windowWidth4 table windowSamples iWindowF
              (F32.sub timeIn iTimeInF) with
      | None => None
      | Some r =>
          let r_ l := nth l r F32.zero in
          Some (F32.add (F32.add (F32.add (F32.add F32.zero (r_ 0%nat)) (r_ 1%nat)) (r_ 2%nat))
                        (r_ 3%nat),
                windowWidth4 * 4)
      end
    else Some (F32.zero, 1) in
  match simd with
  | None => None
  | Some (sampleOut, iWindow) =>
      let t := F32.sub timeIn (F32.of_Z iTimeIn) in
      sinc_scalar_taps iWindow windowWidth2 table windowSamples iWindowF t sampleOut
  end.

(** The output samples of one channel in one trip of the read loop. *)
Fixpoint sinc_channel (n : nat) (pSRC : mal_src (read_deinterleaved_proc S))
    (row : list F32.t) (factor timeIn : F32.t) : option (list F32.t) :=
  match n with
  | O => Some []
  | Datatypes.S n' =>
      match sinc_sample pSRC row timeIn with
      | None => None
      | Some x =>
          match sinc_channel n' pSRC row factor (F32.add timeIn factor) with
          | None => None
          | Some xs => Some (x :: xs)
          end
      end
  end.

Fixpoint sinc_channels (chans : list nat) (n : nat)
    (pSRC : mal_src (read_deinterleaved_proc S)) (factor timeIn : F32.t)
    : option deinterleaved_block :=
  match chans with
  | [] => Some []
  | iChannel :: rest =>
      match sinc_channel n pSRC (nth iChannel (src_sinc_input pSRC) []) factor timeIn with
      | None => None
      | Some xs =>
          match sinc_channels rest n pSRC factor timeIn with
          | None => None
          | Some xss => Some (xs :: xss)
          end
      end
  end.

Definition with_sinc (pSRC : mal_src (read_deinterleaved_proc S))
    (input : list (list F32.t)) (timeIn : F32.t) (inputFrameCount windowPosInSamples : Z)
    (isEndOfInputLoaded : bool) : mal_src (read_deinterleaved_proc S) :=
  {| src_linear_input := src_linear_input pSRC;
     src_linear_timeIn := src_linear_timeIn pSRC;
     src_linear_leftoverFrames := src_linear_leftoverFrames pSRC;
     src_sinc_input := input;
     src_sinc_timeIn := timeIn;
     src_sinc_inputFrameCount := inputFrameCount;
     src_sinc_windowPosInSamples := windowPosInSamples;
     src_sinc_table := src_sinc_table pSRC;
     src_config := src_config pSRC;
     src_isEndOfInputLoaded := isEndOfInputLoaded;
     src_useSSE2 := src_useSSE2 pSRC;
     src_useAVX2 := src_useAVX2 pSRC;
     src_useAVX512 := src_useAVX512 pSRC;
     src_useNEON := src_useNEON pSRC |}.

(** One trip of the read loop; [None] when a table lookup left the
    table (the behaviour of the C program is undefined from there). *)
Definition src_sinc_step (frameCount : Z) (factor inverseFactor : F32.t) (s : src_loop)
    : option (src_loop * bool) :=
  let pSRC := sl_pSRC s in
  let cfg := src_config pSRC in
  let channels := srcc_channels cfg in
  let W := windowWidth (srcc_sinc cfg) in
  let maxInputSamplesAvailableInCache :=
    u32 (sinc_input_count - W * 2 - src_sinc_windowPosInSamples pSRC) in
  let maxInputSamplesAvailableInCache :=
    if src_sinc_inputFrameCount pSRC <? maxInputSamplesAvailableInCache
    then src_sinc_inputFrameCount pSRC else maxInputSamplesAvailableInCache in
  let maxInputSamplesAvailableInCache :=
    if srcc_neverConsumeEndOfInput cfg then
      if W <=? maxInputSamplesAvailableInCache
      then maxInputSamplesAvailableInCache - W else 0
    else maxInputSamplesAvailableInCache in
  let timeInBeg := src_sinc_timeIn pSRC in
  let timeInEnd :=
    F32.of_Z (u32 (src_sinc_windowPosInSamples pSRC + maxInputSamplesAvailableInCache)) in
  let maxOutputFramesToRead :=
    u64 (F32.to_Z (F32.mul (F32.sub timeInEnd timeInBeg) inverseFactor)) in
  let outputFramesRemaining := frameCount - sl_totalFramesRead s in
  let outputFramesToRead :=
    if maxOutputFramesToRead <? outputFramesRemaining
    then maxOutputFramesToRead else outputFramesRemaining in
  match sinc_channels (range channels) (Z.to_nat outputFramesToRead) pSRC factor timeInBeg with
  | None => None
  | Some produced =>
      let out := store_block (sl_out s) (sl_ppNextSamplesOut s) channels produced in
      let ppNextSamplesOut :=
        cursors_advance (sl_ppNextSamplesOut s) channels outputFramesToRead in
      let totalOutputFramesRead := u64 (sl_totalFramesRead s + outputFramesToRead) in
      let prevWindowPosInSamples := src_sinc_windowPosInSamples pSRC in
      let timeIn := F32.add timeInBeg (F32.mul (F32.of_Z outputFramesToRead) factor) in
      let windowPosInSamples := u32 (F32.to_Z timeIn) in
      let inputFrameCount :=
        u32 (src_sinc_inputFrameCount pSRC
             - u32 (windowPosInSamples - prevWindowPosInSamples)) in
      let availableOutputFrames :=
        u32 (F32.to_Z (F32.mul (F32.sub timeInEnd timeIn) inverseFactor)) in
      let '(input, timeIn, windowPosInSamples) :=
        if availableOutputFrames =? 0 then
          (fold_left
             (fun input iChannel =>
                let row := nth iChannel input [] in
                array_set input iChannel
                  (array_blit row 0%nat (skipn (Z.to_nat windowPosInSamples) row)))
             (range channels) (src_sinc_input pSRC),
           F32.sub timeIn (F32.floor timeIn), 0)
        else (src_sinc_input pSRC, timeIn, windowPosInSamples) in
      let finish pSRC' st go :=
        Some ({| sl_pSRC := pSRC'; sl_totalFramesRead := totalOutputFramesRead;
                 sl_ppNextSamplesOut := ppNextSamplesOut; sl_out := out;
                 sl_client := st |}, go) in
      if src_isEndOfInputLoaded pSRC then
        finish (with_sinc pSRC input timeIn inputFrameCount windowPosInSamples false)
               (sl_client s) false
      else if (inputFrameCount <=? W) || (availableOutputFrames =? 0) then
        let framesToReadFromClient := u32 (sinc_input_count - (W + inputFrameCount)) in
        let '((framesReadFromClient, input), st) :=
          if 0 <? framesToReadFromClient then
            let '((n, samples), st) :=
              src_onReadDeinterleaved pSRC framesToReadFromClient (sl_client s) in
            ((u32 n, cache_store input channels (W + inputFrameCount) samples), st)
          else ((0, input), sl_client s) in
        let isEndOfInputLoaded := negb (framesReadFromClient =? framesToReadFromClient) in
        let zero_tail inputFrameCount input :=
          let leftoverFrames := u32 (sinc_input_count - (W + inputFrameCount)) in
          cache_store input channels (W + inputFrameCount)
            (map (fun _ : nat => repeat F32.zero (Z.to_nat leftoverFrames)) (range channels)) in
        if negb (framesReadFromClient =? 0) then
          let inputFrameCount := u32 (inputFrameCount + framesReadFromClient) in
          finish (with_sinc pSRC (zero_tail inputFrameCount input) timeIn inputFrameCount
                            windowPosInSamples isEndOfInputLoaded) st true
        else
          let scaled := F32.mul (F32.of_Z inputFrameCount) inverseFactor in
          let stop :=
            if srcc_neverConsumeEndOfInput cfg then F32.leb scaled (F32.of_Z W)
            else F32.ltb scaled (F32.of_Z 1) in
          if stop then
            finish (with_sinc pSRC input timeIn inputFrameCount windowPosInSamples
                              isEndOfInputLoaded) st false
          else
            finish (with_sinc pSRC (zero_tail inputFrameCount input) timeIn inputFrameCount
                              windowPosInSamples isEndOfInputLoaded) st true
      else
        finish (with_sinc pSRC input timeIn inputFrameCount windowPosInSamples false)
               (sl_client s) true
  end.

Definition src_sinc_cond (frameCount : Z) (s : option src_loop) : bool :=
  match s with
  | Some s => sl_totalFramesRead s <? frameCount
  | None => false
  end.

Definition src_sinc_body (frameCount : Z) (factor inverseFactor : F32.t)
    (s : option src_loop) : option src_loop * bool :=
  match s with
  | None => (None, false)
  | Some s =>
      match src_sinc_step frameCount factor inverseFactor s with
      | None => (None, false)
      | Some (s', go) => (Some s', go)
      end
  end.

(** A trip of the loop may produce no output frame (it loads input
    instead), so the number of trips is an explicit bound [trips].
    The result is [None] when a table lookup left the table; else the
    frame count, the final state and whether the trips ran out. *)
Definition mal_src_read_deinterleaved__sinc (trips : positive)
    (pSRC : mal_src (read_deinterleaved_proc S)) (frameCount : Z)
    (ppSamplesOut : list buffer) (pUserData : S) : option ((Z * src_loop) * bool) :=
  let factor :=
    F32.div (F32.of_Z (srcc_sampleRateIn (src_config pSRC)))
            (F32.of_Z (srcc_sampleRateOut (src_config pSRC))) in
  let inverseFactor := F32.div (F32.of_Z 1) factor in
  match while_loop (src_sinc_cond frameCount) (src_sinc_body frameCount factor inverseFactor)
                   trips (Some (src_loop_start pSRC ppSamplesOut pUserData)) with
  | (Some s, exhausted) => Some ((sl_totalFramesRead s, s), exhausted)
  | (None, _) => None
  end.
End SrcRead.

(* ------------------------------------------------------------------ *)
(** ** DSP supervisor                                                  *)
(* ------------------------------------------------------------------ *)

(** The static callback functions the supervisor installs in its
    stages; the stages of a [mal_dsp] store them by name. *)
Inductive mal_dsp_callback :=
| mal_dsp__pre_format_converter_on_read
| mal_dsp__post_format_converter_on_read
| mal_dsp__post_format_converter_on_read_deinterleaved
| mal_dsp__src_on_read_deinterleaved
| mal_dsp__channel_router_on_read_deinterleaved.

Record mal_dsp_config (cproc : Type) := {
  dspc_formatIn : mal_format;
  dspc_channelsIn : Z;
  dspc_sampleRateIn : Z;
  dspc_channelMapIn : channel_map;
  dspc_formatOut : mal_format;
  dspc_channelsOut : Z;
  dspc_sampleRateOut : Z;
  dspc_channelMapOut : channel_map;
  dspc_channelMixMode : mal_channel_mix_mode;
  dspc_ditherMode : mal_dither_mode;
  dspc_srcAlgorithm : mal_src_algorithm;
  dspc_allowDynamicSampleRate : mal_bool32;
  dspc_neverConsumeEndOfInput : bool;
  dspc_noSSE2 : bool;
  dspc_noAVX2 : bool;
  dspc_noAVX512 : bool;
  dspc_noNEON : bool;
  dspc_onRead : option cproc;
  dspc_sinc : mal_src_config_sinc
}.
Arguments dspc_formatIn {cproc}.
Arguments dspc_channelsIn {cproc}.
Arguments dspc_sampleRateIn {cproc}.
Arguments dspc_channelMapIn {cproc}.
Arguments dspc_formatOut {cproc}.
Arguments dspc_channelsOut {cproc}.
Arguments dspc_sampleRateOut {cproc}.
Arguments dspc_channelMapOut {cproc}.
Arguments dspc_channelMixMode {cproc}.
Arguments dspc_ditherMode {cproc}.
Arguments dspc_srcAlgorithm {cproc}.
Arguments dspc_allowDynamicSampleRate {cproc}.
Arguments dspc_neverConsumeEndOfInput {cproc}.
Arguments dspc_noSSE2 {cproc}.
Arguments dspc_noAVX2 {cproc}.
Arguments dspc_noAVX512 {cproc}.
Arguments dspc_noNEON {cproc}.
Arguments dspc_onRead {cproc}.
Arguments dspc_sinc {cproc}.

Record mal_dsp (cproc : Type) := {
  dsp_onRead : option cproc;
  dsp_formatConverterIn : mal_format_converter mal_dsp_callback mal_dsp_callback;
  dsp_formatConverterOut : mal_format_converter mal_dsp_callback mal_dsp_callback;
  dsp_channelRouter : mal_channel_router mal_dsp_callback;
  dsp_src : mal_src mal_dsp_callback;
  isDynamicSampleRateAllowed : bool;
  isPreFormatConversionRequired : bool;
  isPostFormatConversionRequired : bool;
  isChannelRoutingRequired : bool;
  isSRCRequired : bool;
  isChannelRoutingAtStart : bool;
  isPassthrough : bool
}.
Arguments dsp_onRead {cproc}.
Arguments dsp_formatConverterIn {cproc}.
Arguments dsp_formatConverterOut {cproc}.
Arguments dsp_channelRouter {cproc}.
Arguments dsp_src {cproc}.
Arguments isDynamicSampleRateAllowed {cproc}.
Arguments isPreFormatConversionRequired {cproc}.
Arguments isPostFormatConversionRequired {cproc}.
Arguments isChannelRoutingRequired {cproc}.
Arguments isSRCRequired {cproc}.
Arguments isChannelRoutingAtStart {cproc}.
Arguments isPassthrough {cproc}.

Section DspInit.
Context {cproc : Type}.
Variable cpu : mal_cpu.
Variable libm : mal_libm.
Variable pConfig : mal_dsp_config cproc.

(** First we need to determine what's required and what's not. The
    two channel maps are distinct members of the config, so the
    address test of [mal_channel_map_equal] fails. *)
Definition dsp_isSRCRequired : bool :=
  negb (dspc_sampleRateIn pConfig =? dspc_sampleRateOut pConfig)
  || negb (dspc_allowDynamicSampleRate pConfig =? 0).

Definition dsp_isChannelRoutingRequired : bool :=
  negb (dspc_channelsIn pConfig =? dspc_channelsOut pConfig)
  || negb (mal_channel_map_equal false (dspc_channelsIn pConfig)
             (dspc_channelMapIn pConfig) (dspc_channelMapOut pConfig)).

Definition dsp_isPreFormatConversionRequired : bool :=
  if negb dsp_isSRCRequired && negb dsp_isChannelRoutingRequired then false else true.

Definition dsp_isPostFormatConversionRequired : bool :=
  if negb dsp_isSRCRequired && negb dsp_isChannelRoutingRequired
  then negb (mal_format_eqb (dspc_formatIn pConfig) (dspc_formatOut pConfig))
  else true.

Definition dsp_isPassthrough : bool :=
  negb dsp_isPreFormatConversionRequired && negb dsp_isPostFormatConversionRequired
  && negb dsp_isChannelRoutingRequired && negb dsp_isSRCRequired.

Definition dsp_isChannelRoutingAtStart : bool :=
  dspc_channelsOut pConfig <? dspc_channelsIn pConfig.

Definition preFormatConverterConfig
    : mal_format_converter_config mal_dsp_callback mal_dsp_callback :=
  let c := mal_format_converter_config_init (dspc_formatIn pConfig) mal_format_f32
             (dspc_channelsIn pConfig) (Some mal_dsp__pre_format_converter_on_read) in
  {| fcc_formatIn := fcc_formatIn c;
     fcc_formatOut := fcc_formatOut c;
     fcc_channels := fcc_channels c;
     fcc_streamFormatIn := fcc_streamFormatIn c;
     fcc_streamFormatOut := fcc_streamFormatOut c;
     fcc_ditherMode := dspc_ditherMode pConfig;
     fcc_noSSE2 := dspc_noSSE2 pConfig;
     fcc_noAVX2 := dspc_noAVX2 pConfig;
     fcc_noAVX512 := dspc_noAVX512 pConfig;
     fcc_noNEON := dspc_noNEON pConfig;
     fcc_onRead := fcc_onRead c;
     fcc_onReadDeinterleaved := fcc_onReadDeinterleaved c |}.

Definition postFormatConverterConfig
    : mal_format_converter_config mal_dsp_callback mal_dsp_callback :=
  {| fcc_formatIn :=
       if dsp_isPreFormatConversionRequired then mal_format_f32 else dspc_formatIn pConfig;
     fcc_formatOut := dspc_formatOut pConfig;
     fcc_channels := dspc_channelsOut pConfig;
     fcc_streamFormatIn := mal_stream_format_pcm;
     fcc_streamFormatOut := mal_stream_format_pcm;
     fcc_ditherMode := dspc_ditherMode pConfig;
     fcc_noSSE2 := dspc_noSSE2 pConfig;
     fcc_noAVX2 := dspc_noAVX2 pConfig;
     fcc_noAVX512 := dspc_noAVX512 pConfig;
     fcc_noNEON := dspc_noNEON pConfig;
     fcc_onRead :=
       if dsp_isPreFormatConversionRequired then None
       else Some mal_dsp__post_format_converter_on_read;
     fcc_onReadDeinterleaved :=
       if dsp_isPreFormatConversionRequired
       then Some mal_dsp__post_format_converter_on_read_deinterleaved
       else None |}.

Definition srcConfig : mal_src_config mal_dsp_callback :=
  let c := mal_src_config_init (dspc_sampleRateIn pConfig) (dspc_sampleRateOut pConfig)
             (if dspc_channelsIn pConfig <? dspc_channelsOut pConfig
              then dspc_channelsIn pConfig else dspc_channelsOut pConfig)
             (Some mal_dsp__src_on_read_deinterleaved) in
  {| srcc_sampleRateIn := srcc_sampleRateIn c;
     srcc_sampleRateOut := srcc_sampleRateOut c;
     srcc_channels := srcc_channels c;
     srcc_algorithm := dspc_srcAlgorithm pConfig;
     srcc_neverConsumeEndOfInput := dspc_neverConsumeEndOfInput pConfig;
     srcc_noSSE2 := dspc_noSSE2 pConfig;
     srcc_noAVX2 := dspc_noAVX2 pConfig;
     srcc_noAVX512 := dspc_noAVX512 pConfig;
     srcc_noNEON := dspc_noNEON pConfig;
     srcc_onReadDeinterleaved := srcc_onReadDeinterleaved c;
     srcc_sinc := dspc_sinc pConfig |}.

Definition routerConfig : mal_channel_router_config mal_dsp_callback :=
  let c := mal_channel_router_config_init (dspc_channelsIn pConfig)
             (dspc_channelMapIn pConfig) (dspc_channelsOut pConfig)
             (dspc_channelMapOut pConfig) (dspc_channelMixMode pConfig)
             (Some mal_dsp__channel_router_on_read_deinterleaved) in
  {| crc_channelsIn := crc_channelsIn c;
     crc_channelsOut := crc_channelsOut c;
     crc_channelMapIn := crc_channelMapIn c;
     crc_channelMapOut := crc_channelMapOut c;
     crc_mixingMode := crc_mixingMode c;
     crc_noSSE2 := dspc_noSSE2 pConfig;
     crc_noAVX2 := dspc_noAVX2 pConfig;
     crc_noAVX512 := dspc_noAVX512 pConfig;
     crc_noNEON := dspc_noNEON pConfig;
     crc_onReadDeinterleaved := crc_onReadDeinterleaved c |}.

(** Every stage is initialised, whether it is used or not; the first
    stage that fails makes the whole initialisation fail.
    [isDynamicSampleRateAllowed] is a bit-field of one bit and keeps
    the lowest bit of the 32-bit [allowDynamicSampleRate], whereas
    [isSRCRequired] tests the whole value for non-zero. *)
Definition mal_dsp_init : init_result (mal_dsp cproc) :=
  match mal_format_converter_init cpu (Some preFormatConverterConfig) with
  | Failed result => Failed result
  | Initialized formatConverterIn =>
      match mal_format_converter_init cpu (Some postFormatConverterConfig) with
      | Failed result => Failed result
      | Initialized formatConverterOut =>
          match mal_src_init cpu libm (Some srcConfig) with
          | Failed result => Failed result
          | Initialized src =>
              match mal_channel_router_init cpu (Some routerConfig) with
              | Failed result => Failed result
              | Initialized channelRouter =>
                  Initialized
                    {| dsp_onRead := dspc_onRead pConfig;
                       dsp_formatConverterIn := formatConverterIn;
                       dsp_formatConverterOut := formatConverterOut;
                       dsp_channelRouter := channelRouter;
                       dsp_src := src;
                       isDynamicSampleRateAllowed :=
                         Z.odd (dspc_allowDynamicSampleRate pConfig);
                       isPreFormatConversionRequired := dsp_isPreFormatConversionRequired;
                       isPostFormatConversionRequired := dsp_isPostFormatConversionRequired;
                       isChannelRoutingRequired := dsp_isChannelRoutingRequired;
                       isSRCRequired := dsp_isSRCRequired;
                       isChannelRoutingAtStart := dsp_isChannelRoutingAtStart;
                       isPassthrough := dsp_isPassthrough |}
              end
          end
      end
  end.
End DspInit.

(** *** The pull graph *)

(** The readers of the graph: the client's callback [pDSP->onRead] and
    the read functions of the four stages. *)
Inductive mal_dsp_stage :=
| stage_client
| stage_pre_format_converter
| stage_channel_router
| stage_src
| stage_post_format_converter.

(** The reader each callback of the supervisor calls. *)
Definition mal_dsp_callback_reads {cproc} (pDSP : mal_dsp cproc) (cb : mal_dsp_callback)
    : mal_dsp_stage :=
  match cb with
  | mal_dsp__pre_format_converter_on_read => stage_client
  | mal_dsp__post_format_converter_on_read => stage_client
  | mal_dsp__post_format_converter_on_read_deinterleaved =>
      if negb (isChannelRoutingAtStart pDSP) then stage_channel_router
      else if isSRCRequired pDSP then stage_src
      else stage_channel_router
  | mal_dsp__src_on_read_deinterleaved =>
      if isChannelRoutingAtStart pDSP then stage_channel_router
      else stage_pre_format_converter
  | mal_dsp__channel_router_on_read_deinterleaved =>
      if isChannelRoutingAtStart pDSP then stage_pre_format_converter
      else if isSRCRequired pDSP then stage_src
      else stage_pre_format_converter
  end.

(** The callback the read function of a format converter calls: the
    interleaved one when it is set, else the deinterleaved one. *)
Definition format_converter_callback
    (c : mal_format_converter mal_dsp_callback mal_dsp_callback) : option mal_dsp_callback :=
  match fcc_onRead (fc_config c) with
  | Some cb => Some cb
  | None => fcc_onReadDeinterleaved (fc_config c)
  end.

(** The callback through which a stage obtains its input. *)
Definition stage_callback {cproc} (pDSP : mal_dsp cproc) (st : mal_dsp_stage)
    : option mal_dsp_callback :=
  match st with
  | stage_client => None
  | stage_pre_format_converter => format_converter_callback (dsp_formatConverterIn pDSP)
  | stage_post_format_converter => format_converter_callback (dsp_formatConverterOut pDSP)
  | stage_src => srcc_onReadDeinterleaved (src_config (dsp_src pDSP))
  | stage_channel_router => crc_onReadDeinterleaved (cr_config (dsp_channelRouter pDSP))
  end.

(** The reader a stage pulls its input from. *)
Definition pulls_from {cproc} (pDSP : mal_dsp cproc) (st : mal_dsp_stage)
    : option mal_dsp_stage :=
  option_map (mal_dsp_callback_reads pDSP) (stage_callback pDSP st).

(** The reader [mal_dsp_read] calls: the client directly on the fast
    path, else the last stage of the pipeline. *)
Definition mal_dsp_read_entry {cproc} (pDSP : mal_dsp cproc) : mal_dsp_stage :=
  if isPassthrough pDSP then stage_client else stage_post_format_converter.

(** The chain of readers a call of [mal_dsp_read] runs through, the
    consumer's end first. *)
Fixpoint pull_chain_from {cproc} (hops : nat) (pDSP : mal_dsp cproc) (st : mal_dsp_stage)
    : list mal_dsp_stage :=
  match hops with
  | O => [st]
  | Datatypes.S hops' =>
      match pulls_from pDSP st with
      | Some st' => st :: pull_chain_from hops' pDSP st'
      | None => [st]
      end
  end.

Definition pull_chain {cproc} (pDSP : mal_dsp cproc) : list mal_dsp_stage :=
  pull_chain_from 5 pDSP (mal_dsp_read_entry pDSP).

Definition mal_dsp_config_init_new {cproc : Type} : mal_dsp_config cproc :=
  {| dspc_formatIn := mal_format_unknown;
     dspc_channelsIn := 0;
     dspc_sampleRateIn := 0;
     dspc_channelMapIn := blank_channel_map;
     dspc_formatOut := mal_format_unknown;
     dspc_channelsOut := 0;
     dspc_sampleRateOut := 0;
     dspc_channelMapOut := blank_channel_map;
     dspc_channelMixMode := mal_channel_mix_mode_planar_blend;
     dspc_ditherMode := mal_dither_mode_none;
     dspc_srcAlgorithm := mal_src_algorithm_sinc;
     dspc_allowDynamicSampleRate := MAL_FALSE;
     dspc_neverConsumeEndOfInput := false;
     dspc_noSSE2 := false;
     dspc_noAVX2 := false;
     dspc_noAVX512 := false;
     dspc_noNEON := false;
     dspc_onRead := None;
     dspc_sinc := {| windowFunction := mal_src_sinc_window_function_hann; windowWidth := 0 |} |}.

(* ------------------------------------------------------------------ *)
(** ** PCM sample conversion                                           *)
(* ------------------------------------------------------------------ *)

(** Two's complement [mal_int8] and [mal_int16], unsigned [mal_uint16]. *)
Definition s8  (z : Z) : Z := (z + 2 ^ 7) mod 2 ^ 8 - 2 ^ 7.
Definition s16 (z : Z) : Z := (z + 2 ^ 15) mod 2 ^ 16 - 2 ^ 15.
Definition u16 (z : Z) : Z := z mod 2 ^ 16.

(** The values a buffer of each integer sample type holds. *)
Definition is_u8 (x : Z) : bool := (0 <=? x) && (x <? 2 ^ 8).
Definition is_s16 (x : Z) : bool := (- 2 ^ 15 <=? x) && (x <? 2 ^ 15).
Definition is_s32 (x : Z) : bool := (- 2 ^ 31 <=? x) && (x <? 2 ^ 31).

(** The conversion routines take [(dst, src, count, ditherMode)]. In
    the model [src] is the list of the cells of the source buffer (a
    cell past its end, undefined in C, reads as 0), and the result is
    the list of the cells written to [dst], in index order. Samples of
    the format s24 are three bytes each, least significant byte first.
    Shifts of signed values are the arithmetic ones of the supported
    compilers. *)
Definition cell (src : list Z) (i : nat) : Z := nth i src 0.

(** [mal_rand_range_s32] and [mal_dither_s32], threading [g_malLCG]. *)
Definition mal_rand_range_s32 (lo hi : Z) (g_malLCG : Z) : Z * Z :=
  let '(x, g) := mal_rand_f64 g_malLCG in
  (s32 (lo + s32 (SFtrunc (F64.mul x (F64.of_Z (s32 (hi - lo)))))), g).

Definition mal_dither_s32 (ditherMode : mal_dither_mode) (ditherMin ditherMax : Z)
    (g_malLCG : Z) : Z * Z :=
  match ditherMode with
  | mal_dither_mode_rectangle => mal_rand_range_s32 ditherMin ditherMax g_malLCG
  | mal_dither_mode_triangle =>
      let '(a, g1) := mal_rand_range_s32 ditherMin 0 g_malLCG in
      let '(b, g2) := mal_rand_range_s32 0 ditherMax g1 in
      (s32 (a + b), g2)
  | mal_dither_mode_none => (0, g_malLCG)
  end.

(** A loop [for (i = 0; i < count; i += 1)] whose body draws from the
    random number generator: the cells written, and the generator
    state afterwards. *)
Definition for_each_sample {B : Type} (count : Z) (body : nat -> Z -> B * Z)
    (g_malLCG : Z) : list B * Z :=
  fold_left
    (fun (acc : list B * Z) (i : nat) =>
       let '(dst, g) := acc in
       let '(y, g') := body i g in
       (dst ++ [y], g'))
    (range count) ([], g_malLCG).

(** *** From u8 *)

Definition mal_pcm_u8_to_u8 (src : list Z) (count : Z) : list Z :=
  map (fun i => cell src i) (range count).

Definition mal_pcm_u8_to_s16__reference (src : list Z) (count : Z) : list Z :=
  map (fun i =>
         let x := s16 (cell src i) in
         let x := s16 (x - 128) in
         let x := s16 (Z.shiftl x 8) in
         x)
      (range count).

Definition mal_pcm_u8_to_s24__reference (src : list Z) (count : Z) : list Z :=
  flat_map (fun i =>
              let x := s16 (cell src i) in
              let x := s16 (x - 128) in
              [0; 0; u8 (s8 x)])
           (range count).

Definition mal_pcm_u8_to_s32__reference (src : list Z) (count : Z) : list Z :=
  map (fun i =>
         let x := s32 (cell src i) in
         let x := s32 (x - 128) in
         let x := s32 (Z.shiftl x 24) in
         x)
      (range count).

(** The literal [0.00784313725490196078f] is the binary32 number
    [8421505 * 2^-30]. *)
Definition u8_to_f32_scale : F32.t := F32.of_dyadic 8421505 (-30).

Definition mal_pcm_u8_to_f32__reference (src : list Z) (count : Z) : list F32.t :=
  map (fun i =>
         let x := F32.of_Z (cell src i) in
         let x := F32.mul x u8_to_f32_scale in
         let x := F32.sub x (F32.of_Z 1) in
         x)
      (range count).

(** *** From s16 *)

(** The body shared by the two loops of [mal_pcm_s16_to_u8__reference]. *)
Definition s16_to_u8_cell (x : Z) : Z :=
  let x := s16 (Z.shiftr x 8) in
  let x := s16 (x + 128) in
  u8 x.

Definition mal_pcm_s16_to_u8__reference (src : list Z) (count : Z)
    (ditherMode : mal_dither_mode) (g_malLCG : Z) : list Z * Z :=
  match ditherMode with
  | mal_dither_mode_none =>
      (map (fun i => s16_to_u8_cell (s16 (cell src i))) (range count), g_malLCG)
  | _ =>
      for_each_sample count
        (fun i g =>
           let x := s16 (cell src i) in
           let '(dither, g') := mal_dither_s32 ditherMode (-0x80) 0x7F g in
           let x := if s32 (x + dither) <=? 0x7FFF then s16 (s32 (x + dither)) else 0x7FFF in
           (s16_to_u8_cell x, g'))
        g_malLCG
  end.

Definition mal_pcm_s16_to_s16 (src : list Z) (count : Z) : list Z :=
  map (fun i => cell src i) (range count).

Definition mal_pcm_s16_to_s24__reference (src : list Z) (count : Z) : list Z :=
  flat_map (fun i =>
              [0; u8 (Z.land (cell src i) 0xFF); u8 (Z.shiftr (cell src i) 8)])
           (range count).

Definition mal_pcm_s16_to_s32__reference (src : list Z) (count : Z) : list Z :=
  map (fun i => s32 (Z.shiftl (cell src i) 16)) (range count).

Definition mal_pcm_s16_to_f32__reference (src : list Z) (count : Z) : list F32.t :=
  map (fun i =>
         let x := F32.of_Z (cell src i) in
         let x := F32.mul x (F32.of_dyadic 1 (-15)) in
         x)
      (range count).

(** *** From s24 *)

(** The 32-bit value the three bytes of sample [i] are widened to:
    [(mal_int32)((b0 << 8) | (b1 << 16) | (b2 << 24))]. *)
Definition s24_widen (src : list Z) (i : nat) : Z :=
  s32 (Z.lor (Z.lor (u32 (Z.shiftl (cell src (i * 3 + 0)) 8))
                    (u32 (Z.shiftl (cell src (i * 3 + 1)) 16)))
             (u32 (Z.shiftl (cell src (i * 3 + 2)) 24))).

(** [x = x + dither] unless the sum exceeds [0x7FFFFFFF]. *)
Definition dither_s32_sample (x dither : Z) : Z :=
  if x + dither <=? 0x7FFFFFFF then s32 (x + dither) else 0x7FFFFFFF.

Definition mal_pcm_s24_to_u8__reference (src : list Z) (count : Z)
    (ditherMode : mal_dither_mode) (g_malLCG : Z) : list Z * Z :=
  match ditherMode with
  | mal_dither_mode_none =>
      (map (fun i =>
              let x := s8 (s8 (cell src (i * 3 + 2)) + 128) in
              u8 x)
           (range count), g_malLCG)
  | _ =>
      for_each_sample count
        (fun i g =>
           let x := s24_widen src i in
           let '(dither, g') := mal_dither_s32 ditherMode (-0x800000) 0x7FFFFF g in
           let x := dither_s32_sample x dither in
           let x := Z.shiftr x 24 in
           let x := s32 (x + 128) in
           (u8 x, g'))
        g_malLCG
  end.

Definition mal_pcm_s24_to_s16__reference (src : list Z) (count : Z)
    (ditherMode : mal_dither_mode) (g_malLCG : Z) : list Z * Z :=
  match ditherMode with
  | mal_dither_mode_none =>
      (map (fun i =>
              let dst_lo := u16 (cell src (i * 3 + 1)) in
              let dst_hi := u16 (Z.shiftl (u16 (cell src (i * 3 + 2))) 8) in
              s16 (Z.lor (s16 dst_lo) dst_hi))
           (range count), g_malLCG)
  | _ =>
      for_each_sample count
        (fun i g =>
           let x := s24_widen src i in
           let '(dither, g') := mal_dither_s32 ditherMode (-0x8000) 0x7FFF g in
           let x := dither_s32_sample x dither in
           let x := Z.shiftr x 16 in
           (s16 x, g'))
        g_malLCG
  end.

Definition mal_pcm_s24_to_s24 (src : list Z) (count : Z) : list Z :=
  map (fun i => cell src i) (range (count * 3)).

Definition mal_pcm_s24_to_s32__reference (src : list Z) (count : Z) : list Z :=
  map (fun i => s24_widen src i) (range count).

Definition mal_pcm_s24_to_f32__reference (src : list Z) (count : Z) : list F32.t :=
  map (fun i =>
         let x := F32.of_Z (Z.shiftr (s24_widen src i) 8) in
         let x := F32.mul x (F32.of_dyadic 1 (-23)) in
         x)
      (range count).

(** *** From s32 *)

Definition mal_pcm_s32_to_u8__reference (src : list Z) (count : Z)
    (ditherMode : mal_dither_mode) (g_malLCG : Z) : list Z * Z :=
  match ditherMode with
  | mal_dither_mode_none =>
      (map (fun i =>
              let x := cell src i in
              let x := Z.shiftr x 24 in
              let x := s32 (x + 128) in
              u8 x)
           (range count), g_malLCG)
  | _ =>
      for_each_sample count
        (fun i g =>
           let x := cell src i in
           let '(dither, g') := mal_dither_s32 ditherMode (-0x800000) 0x7FFFFF g in
           let x := dither_s32_sample x dither in
           let x := Z.shiftr x 24 in
           let x := s32 (x + 128) in
           (u8 x, g'))
        g_malLCG
  end.

Definition mal_pcm_s32_to_s16__reference (src : list Z) (count : Z)
    (ditherMode : mal_dither_mode) (g_malLCG : Z) : list Z * Z :=
  match ditherMode with
  | mal_dither_mode_none =>
      (map (fun i =>
              let x := cell src i in
              let x := Z.shiftr x 16 in
              s16 x)
           (range count), g_malLCG)
  | _ =>
      for_each_sample count
        (fun i g =>
           let x := cell src i in
           let '(dither, g') := mal_dither_s32 ditherMode (-0x8000) 0x7FFF g in
           let x := dither_s32_sample x dither in
           let x := Z.shiftr x 16 in
           (s16 x, g'))
        g_malLCG
  end.

Definition mal_pcm_s32_to_s24__reference (src : list Z) (count : Z) : list Z :=
  flat_map (fun i =>
              let x := u32 (cell src i) in
              [u8 (Z.shiftr (Z.land x 0x0000FF00) 8);
               u8 (Z.shiftr (Z.land x 0x00FF0000) 16);
               u8 (Z.shiftr (Z.land x 0xFF000000) 24)])
           (range count).

Definition mal_pcm_s32_to_s32 (src : list Z) (count : Z) : list Z :=
  map (fun i => cell src i) (range count).

Definition mal_pcm_s32_to_f32__reference (src : list Z) (count : Z) : list F32.t :=
  map (fun i =>
         let x := F64.of_Z (cell src i) in
         let x := F64.div x (F64.of_Z 2147483648) in
         F64.to_f32 x)
      (range count).

(** *** From f32 *)

(** [((x < -1) ? -1 : ((x > 1) ? 1 : x))], on [float] and on [double]. *)
Definition clip_f32 (x : F32.t) : F32.t :=
  if F32.ltb x (F32.of_Z (-1)) then F32.of_Z (-1)
  else if F32.gtb x (F32.of_Z 1) then F32.of_Z 1 else x.

(** [(double)x] for a [float] that is compared afterwards: the same
    number with the mantissa of a binary64. *)
Definition double_of_float (x : F32.t) : F64.t :=
  match x with
  | S754_finite s m e =>
      binary_normalize F64.prec F64.emax (if s then Zneg m else Zpos m) e s
  | _ => x
  end.

Definition clip_f64 (x : F64.t) : F64.t :=
  if SFltb x (F64.of_Z (-1)) then F64.of_Z (-1)
  else if SFltb (F64.of_Z 1) x then F64.of_Z 1 else x.

(** The dither range of [mal_pcm_f32_to_s16]. *)
Definition f32_to_s16_ditherMin (ditherMode : mal_dither_mode) : F32.t :=
  match ditherMode with
  | mal_dither_mode_none => F32.of_Z 0
  | _ => F32.div (F32.of_Z 1) (F32.of_Z (-32768))
  end.

Definition f32_to_s16_ditherMax (ditherMode : mal_dither_mode) : F32.t :=
  match ditherMode with
  | mal_dither_mode_none => F32.of_Z 0
  | _ => F32.div (F32.of_Z 1) (F32.of_Z 32767)
  end.

(** Clip, scale by 32767 and cast to [mal_int16]. *)
Definition f32_to_s16_cell (x : F32.t) : Z :=
  let x := clip_f32 x in
  let x := F32.mul x (F32.of_Z 32767) in
  s16 (F32.to_Z x).

Definition mal_pcm_f32_to_s16__reference (src : list F32.t) (count : Z)
    (ditherMode : mal_dither_mode) (g_malLCG : Z) : list Z * Z :=
  let ditherMin := f32_to_s16_ditherMin ditherMode in
  let ditherMax := f32_to_s16_ditherMax ditherMode in
  for_each_sample count
    (fun i g =>
       let x := nth i src F32.zero in
       let '(d, g') := mal_dither_f32 ditherMode ditherMin ditherMax g in
       let x := F32.add x d in
       (f32_to_s16_cell x, g'))
    g_malLCG.

(** The unrolled loop of [mal_pcm_f32_to_s16__optimized]: [i4] counts
    the groups of four samples, the four dither values are drawn first. *)
Definition f32_to_s16_group (src : list F32.t) (ditherMode : mal_dither_mode)
    (acc : list Z * Z) (i4 : nat) : list Z * Z :=
  let ditherMin := f32_to_s16_ditherMin ditherMode in
  let ditherMax := f32_to_s16_ditherMax ditherMode in
  let '(dst, g) := acc in
  let i := (i4 * 4)%nat in
  let '(d0, g) := mal_dither_f32 ditherMode ditherMin ditherMax g in
  let '(d1, g) := mal_dither_f32 ditherMode ditherMin ditherMax g in
  let '(d2, g) := mal_dither_f32 ditherMode ditherMin ditherMax g in
  let '(d3, g) := mal_dither_f32 ditherMode ditherMin ditherMax g in
  let x0 := nth (i + 0) src F32.zero in
  let x1 := nth (i + 1) src F32.zero in
  let x2 := nth (i + 2) src F32.zero in
  let x3 := nth (i + 3) src F32.zero in
  let x0 := F32.add x0 d0 in
  let x1 := F32.add x1 d1 in
  let x2 := F32.add x2 d2 in
  let x3 := F32.add x3 d3 in
  (dst ++ [f32_to_s16_cell x0; f32_to_s16_cell x1; f32_to_s16_cell x2; f32_to_s16_cell x3],
   g).

Definition mal_pcm_f32_to_s16__optimized (src : list F32.t) (count : Z)
    (ditherMode : mal_dither_mode) (g_malLCG : Z) : list Z * Z :=
  let ditherMin := f32_to_s16_ditherMin ditherMode in
  let ditherMax := f32_to_s16_ditherMax ditherMode in
  let count4 := Z.shiftr count 2 in
  let unrolled := fold_left (f32_to_s16_group src ditherMode) (range count4) ([], g_malLCG) in
  fold_left
    (fun (acc : list Z * Z) (k : nat) =>
       let '(dst, g) := acc in
       let i := (Z.to_nat (count4 * 4) + k)%nat in
       let x := nth i src F32.zero in
       let '(d, g') := mal_dither_f32 ditherMode ditherMin ditherMax g in
       let x := F32.add x d in
       (dst ++ [f32_to_s16_cell x], g'))
    (range (count - count4 * 4)) unrolled.

Definition mal_pcm_f32_to_s16 := mal_pcm_f32_to_s16__optimized.

Definition mal_pcm_f32_to_s24__reference (src : list F32.t) (count : Z) : list Z :=
  flat_map (fun i =>
              let x := nth i src F32.zero in
              let x := clip_f32 x in
              let x := F32.mul x (F32.of_Z 8388607) in
              let r := s32 (F32.to_Z x) in
              [u8 (Z.shiftr (Z.land r 0x0000FF) 0);
               u8 (Z.shiftr (Z.land r 0x00FF00) 8);
               u8 (Z.shiftr (Z.land r 0xFF0000) 16)])
           (range count).

Definition mal_pcm_f32_to_s32__reference (src : list F32.t) (count : Z) : list Z :=
  map (fun i =>
         let x := double_of_float (nth i src F32.zero) in
         let x := clip_f64 x in
         let x := F64.mul x (F64.of_Z 2147483647) in
         s32 (SFtrunc x))
      (range count).

Definition mal_pcm_f32_to_f32 (src : list F32.t) (count : Z) : list F32.t :=
  map (fun i => nth i src F32.zero) (range count).

(* ------------------------------------------------------------------ *)
(** ** Interleaving and deinterleaving                                 *)
(* ------------------------------------------------------------------ *)

(** [mal_pcm_interleave_u8__reference] and its siblings for s16, s32
    and f32, which differ in the type of the cells only:
    [dst[iFrame*channels + iChannel] = src[iChannel][iFrame]]. [dst]
    is the caller's buffer, returned with the cells stored; [d] is what
    a cell past the end of a source channel (undefined in C) reads as. *)
Definition mal_pcm_interleave__reference {A : Type} (d : A) (dst : list A)
    (src : list (list A)) (frameCount channels : Z) : list A :=
  fold_left
    (fun dst iFrame =>
       fold_left
         (fun dst iChannel =>
            array_set dst (iFrame * Z.to_nat channels + iChannel)
              (nth iFrame (nth iChannel src []) d))
         (range channels) dst)
    (range frameCount) dst.

(** [mal_pcm_deinterleave_u8__reference] and its siblings:
    [dst[iChannel][iFrame] = src[iFrame*channels + iChannel]]. *)
Definition mal_pcm_deinterleave__reference {A : Type} (d : A) (dst : list (list A))
    (src : list A) (frameCount channels : Z) : list (list A) :=
  fold_left
    (fun dst iFrame =>
       fold_left
         (fun dst iChannel =>
            array_set dst iChannel
              (array_set (nth iChannel dst []) iFrame
                 (nth (iFrame * Z.to_nat channels + iChannel) src d)))
         (range channels) dst)
    (range frameCount) dst.

(** [mal_pcm_interleave_u8__optimized]: one channel is copied as a
    block, two channels have a loop of their own. *)
Definition mal_pcm_interleave_u8__optimized (dst : list Z) (src : list (list Z))
    (frameCount channels : Z) : list Z :=
  if channels =? 1 then
    array_blit dst 0 (firstn (Z.to_nat frameCount) (nth 0 src []))
  else if channels =? 2 then
    fold_left
      (fun dst iFrame =>
         let dst := array_set dst (iFrame * 2 + 0) (nth iFrame (nth 0 src []) 0) in
         array_set dst (iFrame * 2 + 1) (nth iFrame (nth 1 src []) 0))
      (range frameCount) dst
  else
    fold_left
      (fun dst iFrame =>
         fold_left
           (fun dst iChannel =>
              array_set dst (iFrame * Z.to_nat channels + iChannel)
                (nth iFrame (nth iChannel src []) 0))
           (range channels) dst)
      (range frameCount) dst.

Definition mal_pcm_interleave_u8 := mal_pcm_interleave_u8__optimized.

(** Buffers of the right shape: [channels] channels of [frameCount]
    cells each. *)
Definition is_deinterleaved {A : Type} (frameCount channels : Z) (b : list (list A)) : Prop :=
  length b = Z.to_nat channels /\ Forall (fun row => length row = Z.to_nat frameCount) b.

(* ------------------------------------------------------------------ *)
(** ** Standard channel maps                                           *)
(* ------------------------------------------------------------------ *)

Inductive mal_standard_channel_map :=
| mal_standard_channel_map_microsoft
| mal_standard_channel_map_alsa
| mal_standard_channel_map_rfc3551
| mal_standard_channel_map_flac
| mal_standard_channel_map_vorbis
| mal_standard_channel_map_sound4
| mal_standard_channel_map_sndio.

Definition mal_standard_channel_map_default : mal_standard_channel_map :=
  mal_standard_channel_map_microsoft.

Definition MAL_CHANNEL_LEFT : mal_channel := MAL_CHANNEL_FRONT_LEFT.
Definition MAL_CHANNEL_RIGHT : mal_channel := MAL_CHANNEL_FRONT_RIGHT.

(** [channelMap[0] = p0; channelMap[1] = p1; ...] *)
Definition assign_positions (channelMap : channel_map) (positions : list mal_channel)
    : channel_map :=
  fold_left (fun m ip => array_set m (fst ip) (snd ip))
            (combine (seq 0 (length positions)) positions) channelMap.

(** The loop [for (iChannel = first; iChannel < MAL_MAX_CHANNELS; ++iChannel)
    channelMap[iChannel] = (mal_channel)(MAL_CHANNEL_AUX_0 + (iChannel-first))]. *)
Definition assign_remainder (channelMap : channel_map) (first : nat) : channel_map :=
  fold_left (fun m iChannel =>
               array_set m iChannel (u8 (MAL_CHANNEL_AUX_0 + Z.of_nat (iChannel - first))))
            (seq first (Z.to_nat MAL_MAX_CHANNELS - first)) channelMap.

Definition mal_get_standard_channel_map_microsoft (channels : Z) (channelMap : channel_map)
    : channel_map :=
  let channelMap :=
    match channels with
    | 1 => assign_positions channelMap [MAL_CHANNEL_MONO]
    | 2 => assign_positions channelMap [MAL_CHANNEL_FRONT_LEFT; MAL_CHANNEL_FRONT_RIGHT]
    | 3 => assign_positions channelMap
             [MAL_CHANNEL_FRONT_LEFT; MAL_CHANNEL_FRONT_RIGHT; MAL_CHANNEL_FRONT_CENTER]
    | 4 => assign_positions channelMap
             [MAL_CHANNEL_FRONT_LEFT; MAL_CHANNEL_FRONT_RIGHT; MAL_CHANNEL_FRONT_CENTER;
              MAL_CHANNEL_BACK_CENTER]
    | 5 => assign_positions channelMap
             [MAL_CHANNEL_FRONT_LEFT; MAL_CHANNEL_FRONT_RIGHT; MAL_CHANNEL_FRONT_CENTER;
              MAL_CHANNEL_BACK_LEFT; MAL_CHANNEL_BACK_RIGHT]
    | 6 => assign_positions channelMap
             [MAL_CHANNEL_FRONT_LEFT; MAL_CHANNEL_FRONT_RIGHT; MAL_CHANNEL_FRONT_CENTER;
              MAL_CHANNEL_LFE; MAL_CHANNEL_SIDE_LEFT; MAL_CHANNEL_SIDE_RIGHT]
    | 7 => assign_positions channelMap
             [MAL_CHANNEL_FRONT_LEFT; MAL_CHANNEL_FRONT_RIGHT; MAL_CHANNEL_FRONT_CENTER;
              MAL_CHANNEL_LFE; MAL_CHANNEL_BACK_CENTER; MAL_CHANNEL_SIDE_LEFT;
              MAL_CHANNEL_SIDE_RIGHT]
    | _ => assign_positions channelMap
             [MAL_CHANNEL_FRONT_LEFT; MAL_CHANNEL_FRONT_RIGHT; MAL_CHANNEL_FRONT_CENTER;
              MAL_CHANNEL_LFE; MAL_CHANNEL_BACK_LEFT; MAL_CHANNEL_BACK_RIGHT;
              MAL_CHANNEL_SIDE_LEFT; MAL_CHANNEL_SIDE_RIGHT]
    end in
  if 8 <? channels then assign_remainder channelMap 8 else channelMap.

Definition mal_get_standard_channel_map_alsa (channels : Z) (channelMap : channel_map)
    : channel_map :=
  let channelMap :=
    match channels with
    | 1 => assign_positions channelMap [MAL_CHANNEL_MONO]
    | 2 => assign_positions channelMap [MAL_CHANNEL_LEFT; MAL_CHANNEL_RIGHT]
    | 3 => assign_positions channelMap
             [MAL_CHANNEL_FRONT_LEFT; MAL_CHANNEL_FRONT_RIGHT; MAL_CHANNEL_FRONT_CENTER]
    | 4 => assign_positions channelMap
             [MAL_CHANNEL_FRONT_LEFT; MAL_CHANNEL_FRONT_RIGHT; MAL_CHANNEL_BACK_LEFT;
              MAL_CHANNEL_BACK_RIGHT]
    | 5 => assign_positions channelMap
             [MAL_CHANNEL_FRONT_LEFT; MAL_CHANNEL_FRONT_RIGHT; MAL_CHANNEL_BACK_LEFT;
              MAL_CHANNEL_BACK_RIGHT; MAL_CHANNEL_FRONT_CENTER]
    | 6 => assign_positions channelMap
             [MAL_CHANNEL_FRONT_LEFT; MAL_CHANNEL_FRONT_RIGHT; MAL_CHANNEL_BACK_LEFT;
              MAL_CHANNEL_BACK_RIGHT; MAL_CHANNEL_FRONT_CENTER; MAL_CHANNEL_LFE]
    | 7 => assign_positions channelMap
             [MAL_CHANNEL_FRONT_LEFT; MAL_CHANNEL_FRONT_RIGHT; MAL_CHANNEL_BACK_LEFT;
              MAL_CHANNEL_BACK_RIGHT; MAL_CHANNEL_FRONT_CENTER; MAL_CHANNEL_LFE;
              MAL_CHANNEL_BACK_CENTER]
    | _ => assign_positions channelMap
             [MAL_CHANNEL_FRONT_LEFT; MAL_CHANNEL_FRONT_RIGHT; MAL_CHANNEL_BACK_LEFT;
              MAL_CHANNEL_BACK_RIGHT; MAL_CHANNEL_FRONT_CENTER; MAL_CHANNEL_LFE;
              MAL_CHANNEL_SIDE_LEFT; MAL_CHANNEL_SIDE_RIGHT]
    end in
  if 8 <? channels then assign_remainder channelMap 8 else channelMap.

(** The switch of the RFC 3551 map has no case for more than six
    channels and no default; the remainder, for more than eight
    channels, starts at entry 6. *)
Definition mal_get_standard_channel_map_rfc3551 (channels : Z) (channelMap : channel_map)
    : channel_map :=
  let channelMap :=
    match channels with
    | 1 => assign_positions channelMap [MAL_CHANNEL_MONO]
    | 2 => assign_positions channelMap [MAL_CHANNEL_LEFT; MAL_CHANNEL_RIGHT]
    | 3 => assign_positions channelMap
             [MAL_CHANNEL_FRONT_LEFT; MAL_CHANNEL_FRONT_RIGHT; MAL_CHANNEL_FRONT_CENTER]
    | 4 => assign_positions channelMap
             [MAL_CHANNEL_FRONT_LEFT; MAL_CHANNEL_FRONT_CENTER; MAL_CHANNEL_FRONT_RIGHT;
              MAL_CHANNEL_BACK_CENTER]
    | 5 => assign_positions channelMap
             [MAL_CHANNEL_FRONT_LEFT; MAL_CHANNEL_FRONT_RIGHT; MAL_CHANNEL_FRONT_CENTER;
              MAL_CHANNEL_BACK_LEFT; MAL_CHANNEL_BACK_RIGHT]
    | 6 => assign_positions channelMap
             [MAL_CHANNEL_FRONT_LEFT; MAL_CHANNEL_SIDE_LEFT; MAL_CHANNEL_FRONT_CENTER;
              MAL_CHANNEL_FRONT_RIGHT; MAL_CHANNEL_SIDE_RIGHT; MAL_CHANNEL_BACK_CENTER]
    | _ => channelMap
    end in
  if 8 <? channels then assign_remainder channelMap 6 else channelMap.

Definition mal_get_standard_channel_map_flac (channels : Z) (channelMap : channel_map)
    : channel_map :=
  let channelMap :=
    match channels with
    | 1 => assign_positions channelMap [MAL_CHANNEL_MONO]
    | 2 => assign_positions channelMap [MAL_CHANNEL_LEFT; MAL_CHANNEL_RIGHT]
    | 3 => assign_positions channelMap
             [MAL_CHANNEL_FRONT_LEFT; MAL_CHANNEL_FRONT_RIGHT; MAL_CHANNEL_FRONT_CENTER]
    | 4 => assign_positions channelMap
             [MAL_CHANNEL_FRONT_LEFT; MAL_CHANNEL_FRONT_RIGHT; MAL_CHANNEL_BACK_LEFT;
              MAL_CHANNEL_BACK_RIGHT]
    | 5 => assign_positions channelMap
             [MAL_CHANNEL_FRONT_LEFT; MAL_CHANNEL_FRONT_RIGHT; MAL_CHANNEL_FRONT_CENTER;
              MAL_CHANNEL_BACK_LEFT; MAL_CHANNEL_BACK_RIGHT]
    | 6 => assign_positions channelMap
             [MAL_CHANNEL_FRONT_LEFT; MAL_CHANNEL_FRONT_RIGHT; MAL_CHANNEL_FRONT_CENTER;
              MAL_CHANNEL_LFE; MAL_CHANNEL_BACK_LEFT; MAL_CHANNEL_BACK_RIGHT]
    | 7 => assign_positions channelMap
             [MAL_CHANNEL_FRONT_LEFT; MAL_CHANNEL_FRONT_RIGHT; MAL_CHANNEL_FRONT_CENTER;
              MAL_CHANNEL_LFE; MAL_CHANNEL_BACK_CENTER; MAL_CHANNEL_SIDE_LEFT;
              MAL_CHANNEL_SIDE_RIGHT]
    | _ => assign_positions channelMap
             [MAL_CHANNEL_FRONT_LEFT; MAL_CHANNEL_FRONT_RIGHT; MAL_CHANNEL_FRONT_CENTER;
              MAL_CHANNEL_LFE; MAL_CHANNEL_BACK_LEFT; MAL_CHANNEL_BACK_RIGHT;
              MAL_CHANNEL_SIDE_LEFT; MAL_CHANNEL_SIDE_RIGHT]
    end in
  if 8 <? channels then assign_remainder channelMap 8 else channelMap.

Definition mal_get_standard_channel_map_vorbis (channels : Z) (channelMap : channel_map)
    : channel_map :=
  let channelMap :=
    match channels with
    | 1 => assign_positions channelMap [MAL_CHANNEL_MONO]
    | 2 => assign_positions channelMap [MAL_CHANNEL_LEFT; MAL_CHANNEL_RIGHT]
    | 3 => assign_positions channelMap
             [MAL_CHANNEL_FRONT_LEFT; MAL_CHANNEL_FRONT_CENTER; MAL_CHANNEL_FRONT_RIGHT]
    | 4 => assign_positions channelMap
             [MAL_CHANNEL_FRONT_LEFT; MAL_CHANNEL_FRONT_RIGHT; MAL_CHANNEL_BACK_LEFT;
              MAL_CHANNEL_BACK_RIGHT]
    | 5 => assign_positions channelMap
             [MAL_CHANNEL_FRONT_LEFT; MAL_CHANNEL_FRONT_CENTER; MAL_CHANNEL_FRONT_RIGHT;
              MAL_CHANNEL_BACK_LEFT; MAL_CHANNEL_BACK_RIGHT]
    | 6 => assign_positions channelMap
             [MAL_CHANNEL_FRONT_LEFT; MAL_CHANNEL_FRONT_CENTER; MAL_CHANNEL_FRONT_RIGHT;
              MAL_CHANNEL_BACK_LEFT; MAL_CHANNEL_BACK_RIGHT; MAL_CHANNEL_LFE]
    | 7 => assign_positions channelMap
             [MAL_CHANNEL_FRONT_LEFT; MAL_CHANNEL_FRONT_CENTER; MAL_CHANNEL_FRONT_RIGHT;
              MAL_CHANNEL_SIDE_LEFT; MAL_CHANNEL_SIDE_RIGHT; MAL_CHANNEL_BACK_CENTER;
              MAL_CHANNEL_LFE]
    | _ => assign_positions channelMap
             [MAL_CHANNEL_FRONT_LEFT; MAL_CHANNEL_FRONT_CENTER; MAL_CHANNEL_FRONT_RIGHT;
              MAL_CHANNEL_SIDE_LEFT; MAL_CHANNEL_SIDE_RIGHT; MAL_CHANNEL_BACK_LEFT;
              MAL_CHANNEL_BACK_RIGHT; MAL_CHANNEL_LFE]
    end in
  if 8 <? channels then assign_remainder channelMap 8 else channelMap.

Definition mal_get_standard_channel_map_sound4 (channels : Z) (channelMap : channel_map)
    : channel_map :=
  let channelMap :=
    match channels with
    | 1 => assign_positions channelMap [MAL_CHANNEL_MONO]
    | 2 => assign_positions channelMap [MAL_CHANNEL_LEFT; MAL_CHANNEL_RIGHT]
    | 3 => assign_positions channelMap
             [MAL_CHANNEL_FRONT_LEFT; MAL_CHANNEL_FRONT_RIGHT; MAL_CHANNEL_BACK_CENTER]
    | 4 => assign_positions channelMap
             [MAL_CHANNEL_FRONT_LEFT; MAL_CHANNEL_FRONT_RIGHT; MAL_CHANNEL_BACK_LEFT;
              MAL_CHANNEL_BACK_RIGHT]
    | 5 => assign_positions channelMap
             [MAL_CHANNEL_FRONT_LEFT; MAL_CHANNEL_FRONT_RIGHT; MAL_CHANNEL_BACK_LEFT;
              MAL_CHANNEL_BACK_RIGHT; MAL_CHANNEL_FRONT_CENTER]
    | 6 => assign_positions channelMap
             [MAL_CHANNEL_FRONT_LEFT; MAL_CHANNEL_FRONT_RIGHT; MAL_CHANNEL_BACK_LEFT;
              MAL_CHANNEL_BACK_RIGHT; MAL_CHANNEL_FRONT_CENTER; MAL_CHANNEL_LFE]
    | 7 => assign_positions channelMap
             [MAL_CHANNEL_FRONT_LEFT; MAL_CHANNEL_FRONT_RIGHT; MAL_CHANNEL_BACK_LEFT;
              MAL_CHANNEL_BACK_RIGHT; MAL_CHANNEL_FRONT_CENTER; MAL_CHANNEL_BACK_CENTER;
              MAL_CHANNEL_LFE]
    | _ => assign_positions channelMap
             [MAL_CHANNEL_FRONT_LEFT; MAL_CHANNEL_FRONT_RIGHT; MAL_CHANNEL_BACK_LEFT;
              MAL_CHANNEL_BACK_RIGHT; MAL_CHANNEL_FRONT_CENTER; MAL_CHANNEL_LFE;
              MAL_CHANNEL_SIDE_LEFT; MAL_CHANNEL_SIDE_RIGHT]
    end in
  if 8 <? channels then assign_remainder channelMap 8 else channelMap.

(** The sndio map has six named entries at most; its remainder starts
    at entry 6 for more than six channels. *)
Definition mal_get_standard_channel_map_sndio (channels : Z) (channelMap : channel_map)
    : channel_map :=
  let channelMap :=
    match channels with
    | 1 => assign_positions channelMap [MAL_CHANNEL_MONO]
    | 2 => assign_positions channelMap [MAL_CHANNEL_LEFT; MAL_CHANNEL_RIGHT]
    | 3 => assign_positions channelMap
             [MAL_CHANNEL_FRONT_LEFT; MAL_CHANNEL_FRONT_RIGHT; MAL_CHANNEL_FRONT_CENTER]
    | 4 => assign_positions channelMap
             [MAL_CHANNEL_FRONT_LEFT; MAL_CHANNEL_FRONT_RIGHT; MAL_CHANNEL_BACK_LEFT;
              MAL_CHANNEL_BACK_RIGHT]
    | 5 => assign_positions channelMap
             [MAL_CHANNEL_FRONT_LEFT; MAL_CHANNEL_FRONT_RIGHT; MAL_CHANNEL_BACK_LEFT;
              MAL_CHANNEL_BACK_RIGHT; MAL_CHANNEL_FRONT_CENTER]
    | _ => assign_positions channelMap
             [MAL_CHANNEL_FRONT_LEFT; MAL_CHANNEL_FRONT_RIGHT; MAL_CHANNEL_BACK_LEFT;
              MAL_CHANNEL_BACK_RIGHT; MAL_CHANNEL_FRONT_CENTER; MAL_CHANNEL_LFE]
    end in
  if 6 <? channels then assign_remainder channelMap 6 else channelMap.

Definition mal_get_standard_channel_map (standardChannelMap : mal_standard_channel_map)
    (channels : Z) (channelMap : channel_map) : channel_map :=
  match standardChannelMap with
  | mal_standard_channel_map_alsa => mal_get_standard_channel_map_alsa channels channelMap
  | mal_standard_channel_map_rfc3551 =>
      mal_get_standard_channel_map_rfc3551 channels channelMap
  | mal_standard_channel_map_flac => mal_get_standard_channel_map_flac channels channelMap
  | mal_standard_channel_map_vorbis => mal_get_standard_channel_map_vorbis channels channelMap
  | mal_standard_channel_map_sound4 => mal_get_standard_channel_map_sound4 channels channelMap
  | mal_standard_channel_map_sndio => mal_get_standard_channel_map_sndio channels channelMap
  | mal_standard_channel_map_microsoft =>
      mal_get_standard_channel_map_microsoft channels channelMap
  end.

(** [mal_channel_map_copy]: nothing is copied for zero channels. *)
Definition mal_channel_map_copy (pOut pIn : channel_map) (channels : Z) : channel_map :=
  if 0 <? channels then array_blit pOut 0 (firstn (Z.to_nat channels) pIn) else pOut.

(** Whether the first [channels] entries of a map are pairwise
    different positions, none of them [MAL_CHANNEL_NONE]. *)
Definition positions_distinct (channels : Z) (channelMap : channel_map) : bool :=
  forallb (fun i =>
             negb (map_at channelMap i =? MAL_CHANNEL_NONE)
             && forallb (fun j => (i =? j)%nat || negb (map_at channelMap i =? map_at channelMap j))
                        (range channels))
          (range channels).

(** Whether a standard map defines all entries of a given channel
    count: the RFC 3551 map does so up to six channels only. *)
Definition standard_map_defined (standardChannelMap : mal_standard_channel_map)
    (channels : Z) : bool :=
  match standardChannelMap with
  | mal_standard_channel_map_rfc3551 => channels <=? 6
  | _ => true
  end.

(* ------------------------------------------------------------------ *)
(** ** [mal_src_read_deinterleaved]                                    *)
(* ------------------------------------------------------------------ *)

(** The entry point of the converter: nothing is read for a frame
    count of zero; else the algorithm of the config selects the read
    function. [trips] bounds the loop of the sinc reader, whose result
    is [None] when a table lookup left the table. *)
Definition mal_src_read_deinterleaved {S : Type} (trips : positive)
    (pSRC : mal_src (read_deinterleaved_proc S)) (frameCount : Z)
    (ppSamplesOut : list buffer) (pUserData : S)
    : option ((Z * src_loop) * bool) :=
  if frameCount =? 0 then Some ((0, src_loop_start pSRC ppSamplesOut pUserData), false)
  else
    match srcc_algorithm (src_config pSRC) with
    | mal_src_algorithm_none =>
        Some (mal_src_read_deinterleaved__passthrough pSRC frameCount ppSamplesOut pUserData)
    | mal_src_algorithm_linear =>
        Some (mal_src_read_deinterleaved__linear pSRC frameCount ppSamplesOut pUserData)
    | mal_src_algorithm_sinc =>
        mal_src_read_deinterleaved__sinc trips pSRC frameCount ppSamplesOut pUserData
    end.

(* ------------------------------------------------------------------ *)
(** ** DSP supervisor: changing the sample rates                       *)
(* ------------------------------------------------------------------ *)

Definition with_src {cproc} (pDSP : mal_dsp cproc) (src : mal_src mal_dsp_callback)
    : mal_dsp cproc :=
  {| dsp_onRead := dsp_onRead pDSP;
     dsp_formatConverterIn := dsp_formatConverterIn pDSP;
     dsp_formatConverterOut := dsp_formatConverterOut pDSP;
     dsp_channelRouter := dsp_channelRouter pDSP;
     dsp_src := src;
     isDynamicSampleRateAllowed := isDynamicSampleRateAllowed pDSP;
     isPreFormatConversionRequired := isPreFormatConversionRequired pDSP;
     isPostFormatConversionRequired := isPostFormatConversionRequired pDSP;
     isChannelRoutingRequired := isChannelRoutingRequired pDSP;
     isSRCRequired := isSRCRequired pDSP;
     isChannelRoutingAtStart := isChannelRoutingAtStart pDSP;
     isPassthrough := isPassthrough pDSP |}.

(** [mal_dsp_refresh_sample_rate] sets the rates of the SRC stage to
    the rates its config holds, ignores the results and reports
    success. *)
Definition mal_dsp_refresh_sample_rate {cproc} (pDSP : mal_dsp cproc)
    : mal_result * mal_dsp cproc :=
  let src := snd (mal_src_set_input_sample_rate (dsp_src pDSP)
                    (srcc_sampleRateIn (src_config (dsp_src pDSP)))) in
  let src := snd (mal_src_set_output_sample_rate src
                    (srcc_sampleRateOut (src_config src))) in
  (MAL_SUCCESS, with_src pDSP src).

Definition mal_dsp_set_input_sample_rate {cproc} (pDSP : mal_dsp cproc) (sampleRateIn : Z)
    : mal_result * mal_dsp cproc :=
  if sampleRateIn =? 0 then (MAL_INVALID_ARGS, pDSP)
  else if negb (isDynamicSampleRateAllowed pDSP) then (MAL_INVALID_OPERATION, pDSP)
  else
    mal_dsp_refresh_sample_rate
      (with_src pDSP
         (with_config (dsp_src pDSP)
            (with_sample_rates (src_config (dsp_src pDSP)) sampleRateIn
               (srcc_sampleRateOut (src_config (dsp_src pDSP)))))).

Definition mal_dsp_set_output_sample_rate {cproc} (pDSP : mal_dsp cproc) (sampleRateOut : Z)
    : mal_result * mal_dsp cproc :=
  if sampleRateOut =? 0 then (MAL_INVALID_ARGS, pDSP)
  else if negb (isDynamicSampleRateAllowed pDSP) then (MAL_INVALID_OPERATION, pDSP)
  else
    mal_dsp_refresh_sample_rate
      (with_src pDSP
         (with_config (dsp_src pDSP)
            (with_sample_rates (src_config (dsp_src pDSP))
               (srcc_sampleRateIn (src_config (dsp_src pDSP))) sampleRateOut))).

Definition mal_dsp_set_sample_rate {cproc} (pDSP : mal_dsp cproc)
    (sampleRateIn sampleRateOut : Z) : mal_result * mal_dsp cproc :=
  if (sampleRateIn =? 0) || (sampleRateOut =? 0) then (MAL_INVALID_ARGS, pDSP)
  else if negb (isDynamicSampleRateAllowed pDSP) then (MAL_INVALID_OPERATION, pDSP)
  else
    mal_dsp_refresh_sample_rate
      (with_src pDSP
         (with_config (dsp_src pDSP)
            (with_sample_rates (src_config (dsp_src pDSP)) sampleRateIn sampleRateOut))).

(* ------------------------------------------------------------------ *)
(** ** Splitting a scratch buffer                                      *)
(* ------------------------------------------------------------------ *)

(** [mal_split_buffer] with its pointers, on a 64-bit target: [pBuffer]
    is the address of the buffer (0 for [NULL]); [size_t] and
    [mal_uintptr] are 64 bits wide. The two out-parameters are [None]
    when the caller passes [NULL]; the result gives their contents on
    return. ([mal_split_buffer] above is the split size alone, for a
    given distance to the first aligned address.) *)
Definition mal_split_buffer_at (pBuffer bufferSize splitCount alignment : Z)
    (ppBuffersOut : option (list Z)) (pSplitSizeOut : option Z)
    : option (list Z) * option Z :=
  let pSplitSizeOut := option_map (fun _ : Z => 0) pSplitSizeOut in
  if (pBuffer =? 0) || (bufferSize =? 0) || (splitCount =? 0) then
    (ppBuffersOut, pSplitSizeOut)
  else
    let alignment := if alignment =? 0 then 1 else alignment in
    let pBufferUnaligned := pBuffer in
    let pBufferAligned :=
      Z.land (u64 (pBufferUnaligned + (alignment - 1)))
             (u64 (Z.lnot (u64 (alignment - 1)))) in
    let unalignedBytes := u64 (pBufferAligned - pBufferUnaligned) in
    let splitSize :=
      if unalignedBytes <=? bufferSize then
        let splitSize := (bufferSize - unalignedBytes) / splitCount in
        Z.land splitSize (u64 (Z.lnot (u64 (alignment - 1))))
      else 0 in
    (option_map
       (fun out =>
          fold_left (fun out i => array_set out i (u64 (pBufferAligned + u64 (splitSize * Z.of_nat i))))
                    (range splitCount) out)
       ppBuffersOut,
     option_map (fun _ : Z => splitSize) pSplitSizeOut).

(* ------------------------------------------------------------------ *)
(** ** Data sources and configurations used in the statements          *)
(* ------------------------------------------------------------------ *)

(** A data source that supplies the frames of a finite recording and
    then reports the end of the input: the state is what is left of
    each channel, and a request is served as far as frames are left. *)
Definition recording := list (list F32.t).

Definition recording_proc : read_deinterleaved_proc recording :=
  fun frameCount st =>
    let avail := Z.of_nat (length (nth 0%nat st [])) in
    let n := if frameCount <? avail then frameCount else avail in
    ((n, map (firstn (Z.to_nat n)) st), map (skipn (Z.to_nat n)) st).

(** A source that hands out at most [chunk] frames per call, as a
    device or a decoder with a fixed block size does. *)
Definition chunked_proc (chunk : Z) : read_deinterleaved_proc recording :=
  fun frameCount st =>
    recording_proc (if chunk <? frameCount then chunk else frameCount) st.

(** A machine without SIMD support and one with SSE2 only. *)
Definition cpu_scalar : mal_cpu :=
  {| mal_has_sse2 := false; mal_has_avx2 := false;
     mal_has_avx512f := false; mal_has_neon := false |}.

Definition cpu_sse2 : mal_cpu :=
  {| mal_has_sse2 := true; mal_has_avx2 := false;
     mal_has_avx512f := false; mal_has_neon := false |}.

(** The channel map of [channels] entries [m], padded with
    [MAL_CHANNEL_NONE] to the size of the array. *)
Definition channel_map_of (m : list mal_channel) : channel_map :=
  m ++ repeat MAL_CHANNEL_NONE (Z.to_nat MAL_MAX_CHANNELS - length m).

(** Linear converter, one channel. *)
Definition linear_mono_config (sampleRateIn sampleRateOut : Z)
    : mal_src_config (read_deinterleaved_proc recording) :=
  {| srcc_sampleRateIn := sampleRateIn;
     srcc_sampleRateOut := sampleRateOut;
     srcc_channels := 1;
     srcc_algorithm := mal_src_algorithm_linear;
     srcc_neverConsumeEndOfInput := false;
     srcc_noSSE2 := false;
     srcc_noAVX2 := false;
     srcc_noAVX512 := false;
     srcc_noNEON := false;
     srcc_onReadDeinterleaved := Some recording_proc;
     srcc_sinc := {| windowFunction := mal_src_sinc_window_function_hann;
                     windowWidth := 0 |} |}.

(** Sinc converter, one channel, with the given window width. *)
Definition sinc_mono_config (width sampleRateIn sampleRateOut : Z)
    : mal_src_config (read_deinterleaved_proc recording) :=
  {| srcc_sampleRateIn := sampleRateIn;
     srcc_sampleRateOut := sampleRateOut;
     srcc_channels := 1;
     srcc_algorithm := mal_src_algorithm_sinc;
     srcc_neverConsumeEndOfInput := false;
     srcc_noSSE2 := false;
     srcc_noAVX2 := false;
     srcc_noAVX512 := false;
     srcc_noNEON := false;
     srcc_onReadDeinterleaved := Some recording_proc;
     srcc_sinc := {| windowFunction := mal_src_sinc_window_function_hann;
                     windowWidth := width |} |}.

(** The samples 0, 1, ..., n-1 on one channel. *)
Definition ramp (n : nat) : recording := [map (fun k => F32.of_Z (Z.of_nat k)) (seq 0 n)].

(** Router from a map to the same map in simple mixing mode. *)
Definition same_map_router_config {proc : Type} (channels : Z) (m : channel_map)
    (onRead : proc) : mal_channel_router_config proc :=
  mal_channel_router_config_init channels m channels m mal_channel_mix_mode_simple
    (Some onRead).

(** A supervisor config for 16-bit stereo at both ends. *)
Definition stereo_s16_config (channelsIn channelsOut sampleRateIn sampleRateOut : Z)
    : mal_dsp_config unit :=
  {| dspc_formatIn := mal_format_s16;
     dspc_channelsIn := channelsIn;
     dspc_sampleRateIn := sampleRateIn;
     dspc_channelMapIn := channel_map_of [MAL_CHANNEL_FRONT_LEFT; MAL_CHANNEL_FRONT_RIGHT];
     dspc_formatOut := mal_format_s16;
     dspc_channelsOut := channelsOut;
     dspc_sampleRateOut := sampleRateOut;
     dspc_channelMapOut := channel_map_of [MAL_CHANNEL_FRONT_LEFT; MAL_CHANNEL_FRONT_RIGHT];
     dspc_channelMixMode := mal_channel_mix_mode_planar_blend;
     dspc_ditherMode := mal_dither_mode_none;
     dspc_srcAlgorithm := mal_src_algorithm_linear;
     dspc_allowDynamicSampleRate := MAL_FALSE;
     dspc_neverConsumeEndOfInput := false;
     dspc_noSSE2 := false;
     dspc_noAVX2 := false;
     dspc_noAVX512 := false;
     dspc_noNEON := false;
     dspc_onRead := Some tt;
     dspc_sinc := {| windowFunction := mal_src_sinc_window_function_hann;
                     windowWidth := 0 |} |}.

(** The integers [lo], [lo + 1], ..., [lo + n - 1]. *)
Fixpoint zrange (n : nat) (lo : Z) : list Z :=
  match n with
  | O => []
  | Datatypes.S n' => lo :: zrange n' (lo + 1)
  end.

(** The linear converter of the 48000 to 24000 scenario as
    [mal_src_init] leaves it, and the cache after the client has stored
    the eight samples of the ramp. *)
Definition halving_src (cpu : mal_cpu) : mal_src (read_deinterleaved_proc recording) :=
  mal_src_object cpu (linear_mono_config 48000 24000) zero_sinc_table.

Definition halving_cache : list (list F32.t) :=
  cache_store zero_linear_input 1 0 (ramp 8).

(** The state of the read loop after the first and after the second
    read of the scenario. *)
Definition halving_first (cpu : mal_cpu) : @src_loop recording :=
  linear_write_output (src_loop_start (halving_src cpu) [[]] (ramp 8))
    halving_cache 8 3 (F32.of_Z 2) [[]].

Definition halving_second (cpu : mal_cpu) : @src_loop recording :=
  linear_write_output
    (src_loop_start (sl_pSRC (halving_first cpu)) [[]] (sl_client (halving_first cpu)))
    (src_linear_input (sl_pSRC (halving_first cpu))) 2 1 (F32.of_Z 2) [[]].

(** A mono router from the map [MONO] to itself, and a stereo router
    from [FRONT_LEFT, FRONT_RIGHT] to itself, in simple mixing mode. *)
Definition mono_router_config (onRead : read_deinterleaved_proc recording)
    : mal_channel_router_config (read_deinterleaved_proc recording) :=
  same_map_router_config 1 (channel_map_of [MAL_CHANNEL_MONO]) onRead.

Definition stereo_router_config (onRead : read_deinterleaved_proc recording)
    : mal_channel_router_config (read_deinterleaved_proc recording) :=
  same_map_router_config 2
    (channel_map_of [MAL_CHANNEL_FRONT_LEFT; MAL_CHANNEL_FRONT_RIGHT]) onRead.

(** Four stereo frames: left 0, 1, 2, 3 and right 10, 11, 12, 13. *)
Definition stereo_frames : recording :=
  [map F32.of_Z [0; 1; 2; 3]; map F32.of_Z [10; 11; 12; 13]].

(** The sinc converter with the library's defaults (window width 0,
    which [mal_src_init] turns into 32; hann window), 44100 to 48000. *)
Definition default_sinc_config : mal_src_config (read_deinterleaved_proc recording) :=
  sinc_mono_config 0 44100 48000.

(** A stand-in for the C library in closed statements whose truth
    does not depend on the values of [sin] and [cos]. *)
Definition libm_flat : mal_libm :=
  {| c_sin := fun _ => S754_zero false; c_cos := fun _ => S754_zero false |}.

(** A stereo map that names the front left position twice. *)
Definition duplicate_map : channel_map :=
  channel_map_of [MAL_CHANNEL_FRONT_LEFT; MAL_CHANNEL_FRONT_LEFT].

Definition known_window_function (f : mal_src_sinc_window_function) : Prop :=
  f = mal_src_sinc_window_function_hann \/ f = mal_src_sinc_window_function_rectangular.

(* ------------------------------------------------------------------ *)
(** ** Sample data and further configurations used in the statements   *)
(* ------------------------------------------------------------------ *)

(** The number of cells of a buffer, as the [count] argument of the
    conversion routines. *)
Definition sample_count {A : Type} (src : list A) : Z := Z.of_nat (length src).

(** A few samples of each integer format. *)
Definition some_u8_samples : list Z := [0; 1; 47; 48; 127; 128; 200; 255].
Definition some_s16_samples : list Z := [-32768; -32767; -256; -1; 0; 1; 255; 256; 32767].
Definition some_s24_samples : list Z := [0; 0; 128; 1; 2; 3; 255; 255; 127; 255; 255; 255].
Definition some_s32_samples : list Z :=
  [-2147483648; -65536; -257; -1; 0; 1; 255; 65535; 16777216; 2147483647].

(** What a u8 sample becomes on the way to f32 and back. *)
Definition u8_through_f32 (b : Z) : Z :=
  fst (mal_pcm_f32_to_u8__sample mal_dither_mode_none (F32.of_Z 0) (F32.of_Z 0)
         (F32.sub (F32.mul (F32.of_Z b) u8_to_f32_scale) (F32.of_Z 1)) 0).

(** What an s16 sample becomes on the way to f32 and back. *)
Definition s16_through_f32 (x : Z) : Z :=
  f32_to_s16_cell (F32.add (F32.mul (F32.of_Z x) (F32.of_dyadic 1 (-15))) (F32.of_Z 0)).

(** The f32 value of a u8 sample. *)
Definition u8_as_f32 (b : Z) : F32.t :=
  nth 0 (mal_pcm_u8_to_f32__reference [b] 1) F32.zero.

(** Six f32 samples, two of them beyond full scale. *)
Definition some_f32_samples : list F32.t :=
  [F32.of_ratio 1 2; F32.of_ratio (-1) 3; F32.of_Z 2; F32.of_Z (-3); F32.of_Z 0;
   F32.of_ratio 9 10].

(** Three f32 samples at or beyond positive full scale. *)
Definition loud_f32_samples : list F32.t :=
  [F32.of_Z 1; F32.of_ratio 3 2; S754_infinity false].

(** Three stereo frames, deinterleaved and interleaved, and buffers to
    receive them. *)
Definition stereo_rows : list (list Z) := [[1; 2; 3]; [10; 20; 30]].
Definition stereo_interleaved : list Z := [1; 10; 2; 20; 3; 30].
Definition six_cells : list Z := [0; 0; 0; 0; 0; 0].
Definition two_rows : list (list Z) := [[0; 0; 0]; [0; 0; 0]].

(** A mono converter that copies its input (algorithm none). *)
Definition passthrough_mono_config : mal_src_config (read_deinterleaved_proc recording) :=
  {| srcc_sampleRateIn := 48000;
     srcc_sampleRateOut := 48000;
     srcc_channels := 1;
     srcc_algorithm := mal_src_algorithm_none;
     srcc_neverConsumeEndOfInput := false;
     srcc_noSSE2 := false;
     srcc_noAVX2 := false;
     srcc_noAVX512 := false;
     srcc_noNEON := false;
     srcc_onReadDeinterleaved := Some recording_proc;
     srcc_sinc := {| windowFunction := mal_src_sinc_window_function_hann;
                     windowWidth := 0 |} |}.

Definition passthrough_mono_src : mal_src (read_deinterleaved_proc recording) :=
  mal_src_object cpu_scalar passthrough_mono_config zero_sinc_table.

(** A supervisor config for 16-bit stereo at 44100 Hz on both ends
    that allows the rates to be changed later. *)
Definition dynamic_rate_config : mal_dsp_config unit :=
  {| dspc_formatIn := mal_format_s16;
     dspc_channelsIn := 2;
     dspc_sampleRateIn := 44100;
     dspc_channelMapIn := channel_map_of [MAL_CHANNEL_FRONT_LEFT; MAL_CHANNEL_FRONT_RIGHT];
     dspc_formatOut := mal_format_s16;
     dspc_channelsOut := 2;
     dspc_sampleRateOut := 44100;
     dspc_channelMapOut := channel_map_of [MAL_CHANNEL_FRONT_LEFT; MAL_CHANNEL_FRONT_RIGHT];
     dspc_channelMixMode := mal_channel_mix_mode_planar_blend;
     dspc_ditherMode := mal_dither_mode_none;
     dspc_srcAlgorithm := mal_src_algorithm_linear;
     dspc_allowDynamicSampleRate := MAL_TRUE;
     dspc_neverConsumeEndOfInput := false;
     dspc_noSSE2 := false;
     dspc_noAVX2 := false;
     dspc_noAVX512 := false;
     dspc_noNEON := false;
     dspc_onRead := None;
     dspc_sinc := {| windowFunction := mal_src_sinc_window_function_hann; windowWidth := 0 |} |}.

(** A supervisor config that only converts the sample format. *)
Definition format_only_config : mal_dsp_config unit :=
  {| dspc_formatIn := mal_format_s16;
     dspc_channelsIn := 2;
     dspc_sampleRateIn := 44100;
     dspc_channelMapIn := channel_map_of [MAL_CHANNEL_FRONT_LEFT; MAL_CHANNEL_FRONT_RIGHT];
     dspc_formatOut := mal_format_f32;
     dspc_channelsOut := 2;
     dspc_sampleRateOut := 44100;
     dspc_channelMapOut := channel_map_of [MAL_CHANNEL_FRONT_LEFT; MAL_CHANNEL_FRONT_RIGHT];
     dspc_channelMixMode := mal_channel_mix_mode_planar_blend;
     dspc_ditherMode := mal_dither_mode_none;
     dspc_srcAlgorithm := mal_src_algorithm_linear;
     dspc_allowDynamicSampleRate := MAL_FALSE;
     dspc_neverConsumeEndOfInput := false;
     dspc_noSSE2 := false;
     dspc_noAVX2 := false;
     dspc_noAVX512 := false;
     dspc_noNEON := false;
     dspc_onRead := None;
     dspc_sinc := {| windowFunction := mal_src_sinc_window_function_hann; windowWidth := 0 |} |}.

(** A router config that swaps left and right. *)
Definition swapped_stereo_config : mal_channel_router_config nat :=
  mal_channel_router_config_init 2
    (channel_map_of [MAL_CHANNEL_FRONT_LEFT; MAL_CHANNEL_FRONT_RIGHT]) 2
    (channel_map_of [MAL_CHANNEL_FRONT_RIGHT; MAL_CHANNEL_FRONT_LEFT])
    mal_channel_mix_mode_planar_blend (Some 0%nat).

(* ================================================================== *)
(** * Properties                                                       *)
(* ================================================================== *)

(* ------------------------------------------------------------------ *)
(** ** Loops over index ranges                                         *)
(* ------------------------------------------------------------------ *)

Lemma in_range : forall n i, In i (range n) <-> (i < Z.to_nat n)%nat.
Proof.
  intros n i. unfold range. rewrite in_seq. lia.
Qed.

Lemma existsb_range : forall (f : nat -> bool) n,
  existsb f (range n) = true <-> exists i, (i < Z.to_nat n)%nat /\ f i = true.
Proof.
  intros f n. rewrite existsb_exists. split; intros [i [H1 H2]]; exists i.
  - apply in_range in H1. auto.
  - rewrite in_range. auto.
Qed.

Lemma forallb_range : forall (f : nat -> bool) n,
  forallb f (range n) = true <-> forall i, (i < Z.to_nat n)%nat -> f i = true.
Proof.
  intros f n. rewrite forallb_forall. split; intros H i Hi; apply H.
  - apply in_range. exact Hi.
  - apply in_range in Hi. exact Hi.
Qed.

Lemma existsb_range_false : forall (f : nat -> bool) n,
  existsb f (range n) = false <-> forall i, (i < Z.to_nat n)%nat -> f i = false.
Proof.
  intros f n. split.
  - intros H i Hi. destruct (f i) eqn:E; [|reflexivity].
    assert (existsb f (range n) = true) by (apply existsb_range; eauto).
    congruence.
  - intros H. destruct (existsb f (range n)) eqn:E; [|reflexivity].
    apply existsb_range in E. destruct E as [i [Hi Hf]].
    rewrite H in Hf by exact Hi. discriminate.
Qed.

(* ------------------------------------------------------------------ *)
(** ** Channel map validation                                          *)
(* ------------------------------------------------------------------ *)

(** What [mal_channel_map_valid] accepts: a nonzero channel count and,
    with more than one channel, no mono position. *)
Lemma mal_channel_map_valid_iff : forall channels m,
  mal_channel_map_valid channels (Some m) = true <->
  channels <> 0 /\
  (1 < channels ->
   forall i, (i < Z.to_nat channels)%nat -> map_at m i <> MAL_CHANNEL_MONO).
Proof.
  intros channels m. unfold mal_channel_map_valid.
  destruct (channels =? 0) eqn:E0.
  - apply Z.eqb_eq in E0. split; [discriminate | intros [H _]; contradiction].
  - apply Z.eqb_neq in E0.
    destruct (1 <? channels) eqn:E1.
    + apply Z.ltb_lt in E1. rewrite negb_true_iff, existsb_range_false.
      split.
      * intros H. split; [exact E0|]. intros _ i Hi.
        specialize (H i Hi). apply Z.eqb_neq in H. exact H.
      * intros [_ H] i Hi. apply Z.eqb_neq. apply H; assumption.
    + apply Z.ltb_ge in E1. split; [|reflexivity].
      intros _. split; [exact E0|]. intros H. lia.
Qed.

Lemma mal_channel_map_valid_null : forall channels,
  mal_channel_map_valid channels None = false.
Proof. reflexivity. Qed.

(** C9, counterexample: a map of two channels that repeats a position
    which is not [MAL_CHANNEL_NONE] passes validation, and a router whose
    input and output maps are that map is initialised with success. *)
Lemma duplicate_position_is_accepted :
  map_at duplicate_map 0 = map_at duplicate_map 1 /\
  map_at duplicate_map 0 <> MAL_CHANNEL_NONE /\
  mal_channel_map_valid 2 (Some duplicate_map) = true /\
  result_code
    (mal_channel_router_init cpu_scalar
       (Some (mal_channel_router_config_init 2 duplicate_map 2 duplicate_map
                mal_channel_mix_mode_simple (Some recording_proc)))) = MAL_SUCCESS.
Proof.
  repeat split; try reflexivity. discriminate.
Qed.

(** C9, amended: [mal_channel_router_init] returns [MAL_INVALID_ARGS]
    for every config whose input or output channel map fails
    [mal_channel_map_valid]; validation accepts a map exactly when the
    channel count is nonzero and, for more than one channel, no position
    is [MAL_CHANNEL_MONO]. Repeated positions are not looked for. *)
Theorem channel_router_init_rejects_invalid_maps :
  forall (proc : Type) (cpu : mal_cpu) (cfg : mal_channel_router_config proc),
    (mal_channel_map_valid (crc_channelsIn cfg) (Some (crc_channelMapIn cfg)) = false \/
     mal_channel_map_valid (crc_channelsOut cfg) (Some (crc_channelMapOut cfg)) = false ->
     mal_channel_router_init cpu (Some cfg) = Failed MAL_INVALID_ARGS) /\
    (forall channels m,
       mal_channel_map_valid channels (Some m) = true <->
       channels <> 0 /\
       (1 < channels ->
        forall i, (i < Z.to_nat channels)%nat -> map_at m i <> MAL_CHANNEL_MONO)).
Proof.
  intros proc cpu cfg. split; [|apply mal_channel_map_valid_iff].
  intros H. unfold mal_channel_router_init.
  destruct (crc_onReadDeinterleaved cfg); [|reflexivity].
  destruct (mal_channel_map_valid (crc_channelsIn cfg) (Some (crc_channelMapIn cfg)));
    [|reflexivity].
  destruct H as [H|H]; [discriminate|]. rewrite H. reflexivity.
Qed.

(** A stereo map with a mono position is rejected by the router. *)
Lemma channel_router_init_rejects_invalid_maps_witness :
  mal_channel_map_valid 2
    (Some (channel_map_of [MAL_CHANNEL_MONO; MAL_CHANNEL_FRONT_RIGHT])) = false /\
  mal_channel_router_init cpu_scalar
    (Some (mal_channel_router_config_init 2
             (channel_map_of [MAL_CHANNEL_MONO; MAL_CHANNEL_FRONT_RIGHT]) 2
             (channel_map_of [MAL_CHANNEL_MONO; MAL_CHANNEL_FRONT_RIGHT])
             mal_channel_mix_mode_simple (Some recording_proc)))
  = Failed MAL_INVALID_ARGS.
Proof.
  split; [reflexivity|].
  apply (proj1 (channel_router_init_rejects_invalid_maps _ cpu_scalar _)).
  left. reflexivity.
Defined.

(* ------------------------------------------------------------------ *)
(** ** Format converter initialisation                                 *)
(* ------------------------------------------------------------------ *)

(** C8, counterexample: the zeroed config (unknown formats, no channel,
    no callback) is accepted. *)
Lemma format_converter_init_accepts_blank_config :
  fcc_formatIn (@mal_format_converter_config_init_new unit unit) = mal_format_unknown /\
  fcc_channels (@mal_format_converter_config_init_new unit unit) = 0 /\
  fcc_onRead (@mal_format_converter_config_init_new unit unit) = None /\
  fcc_onReadDeinterleaved (@mal_format_converter_config_init_new unit unit) = None /\
  result_code
    (mal_format_converter_init cpu_scalar
       (Some (@mal_format_converter_config_init_new unit unit))) = MAL_SUCCESS.
Proof. repeat split. Qed.

(** C8, amended: [mal_format_converter_init] checks nothing in a
    config: it succeeds for every config, whatever the formats, the
    channel count and the callbacks, and stores the config as it is; it
    fails, with [MAL_INVALID_ARGS], only for a null config pointer. *)
Theorem format_converter_init_validates_nothing :
  forall (rproc dproc : Type) (cpu : mal_cpu),
    (forall cfg : mal_format_converter_config rproc dproc,
       exists c, mal_format_converter_init cpu (Some cfg) = Initialized c /\
                 fc_config c = cfg) /\
    @mal_format_converter_init rproc dproc cpu None = Failed MAL_INVALID_ARGS.
Proof.
  intros rproc dproc cpu. split; [|reflexivity].
  intros cfg. unfold mal_format_converter_init. eexists. split; reflexivity.
Qed.

(* ------------------------------------------------------------------ *)
(** ** Sample rate converter initialisation and rate changes           *)
(* ------------------------------------------------------------------ *)

(** What [mal_src_init] checks: the callback, the channel count and,
    for the sinc algorithm, the window function. *)
Lemma mal_src_init_success_iff :
  forall (proc : Type) (cpu : mal_cpu) (libm : mal_libm) (cfg : mal_src_config proc),
    result_code (mal_src_init cpu libm (Some cfg)) = MAL_SUCCESS <->
    srcc_onReadDeinterleaved cfg <> None /\
    srcc_channels cfg <> 0 /\ srcc_channels cfg <= MAL_MAX_CHANNELS /\
    (srcc_algorithm cfg = mal_src_algorithm_sinc ->
     known_window_function (windowFunction (srcc_sinc cfg))).
Proof.
  intros proc cpu libm cfg. unfold mal_src_init, known_window_function, MAL_MAX_CHANNELS.
  destruct (srcc_onReadDeinterleaved cfg) as [f|].
  2:{ cbn. split; [discriminate|]. intros [H _]. congruence. }
  destruct ((srcc_channels cfg =? 0) || (32 <? srcc_channels cfg)) eqn:Ec.
  - cbn. split; [discriminate|]. intros [_ [Hc0 [Hc _]]].
    apply orb_true_iff in Ec. destruct Ec as [Ec|Ec].
    + apply Z.eqb_eq in Ec. contradiction.
    + apply Z.ltb_lt in Ec. lia.
  - apply orb_false_iff in Ec. destruct Ec as [Ec1 Ec2].
    apply Z.eqb_neq in Ec1. apply Z.ltb_ge in Ec2.
    destruct (srcc_algorithm cfg) eqn:Ea.
    + destruct (windowFunction (srcc_sinc cfg)) eqn:Ew; cbn.
      * split; [|reflexivity]. intros _. repeat split; auto. discriminate.
      * split; [|reflexivity]. intros _. repeat split; auto. discriminate.
      * split; [discriminate|]. intros [_ [_ [_ H]]].
        destruct (H eq_refl); discriminate.
    + cbn. split; [|reflexivity]. intros _. repeat split; auto; discriminate.
    + cbn. split; [|reflexivity]. intros _. repeat split; auto; discriminate.
Qed.

(** C6, counterexample: a linear converter whose two rates are zero is
    initialised with success. *)
Lemma src_init_accepts_zero_rates :
  srcc_sampleRateIn (linear_mono_config 0 0) = 0 /\
  srcc_sampleRateOut (linear_mono_config 0 0) = 0 /\
  result_code (mal_src_init cpu_scalar libm_flat (Some (linear_mono_config 0 0)))
  = MAL_SUCCESS.
Proof. repeat split. Qed.

(** C6, amended: [mal_src_init] does not examine the sample rates. It
    succeeds exactly when the callback is set, the channel count is
    between 1 and 32 and, for the sinc algorithm, the window function is
    hann or rectangular; a rate of zero is accepted.
    [mal_src_set_sample_rate] with a zero input or output rate returns
    [MAL_INVALID_ARGS] and leaves the converter, and so the rates it
    stores, unchanged. *)
Theorem src_rates_checked_by_setter_only :
  forall (proc : Type) (cpu : mal_cpu) (libm : mal_libm)
         (cfg : mal_src_config proc) (pSRC : mal_src proc) (sampleRateIn sampleRateOut : Z),
    (result_code (mal_src_init cpu libm (Some cfg)) = MAL_SUCCESS <->
     srcc_onReadDeinterleaved cfg <> None /\
     srcc_channels cfg <> 0 /\ srcc_channels cfg <= MAL_MAX_CHANNELS /\
     (srcc_algorithm cfg = mal_src_algorithm_sinc ->
      known_window_function (windowFunction (srcc_sinc cfg)))) /\
    (forall rIn rOut,
       result_code (mal_src_init cpu libm (Some (with_sample_rates cfg rIn rOut)))
       = result_code (mal_src_init cpu libm (Some cfg))) /\
    (sampleRateIn = 0 \/ sampleRateOut = 0 ->
     mal_src_set_sample_rate pSRC sampleRateIn sampleRateOut = (MAL_INVALID_ARGS, pSRC)).
Proof.
  intros proc cpu libm cfg pSRC sampleRateIn sampleRateOut.
  split; [apply mal_src_init_success_iff|]. split.
  - intros rIn rOut. unfold mal_src_init. cbn.
    destruct (srcc_onReadDeinterleaved cfg); [|reflexivity].
    destruct ((srcc_channels cfg =? 0) || (MAL_MAX_CHANNELS <? srcc_channels cfg));
      [reflexivity|].
    destruct (srcc_algorithm cfg); try reflexivity.
    destruct (windowFunction (srcc_sinc cfg)); reflexivity.
  - intros H. unfold mal_src_set_sample_rate.
    destruct H as [H|H]; subst.
    + reflexivity.
    + rewrite Z.eqb_refl, orb_true_r. reflexivity.
Qed.

(** A converter initialised for 48000 to 24000 keeps its rates when
    asked for a zero output rate. *)
Lemma src_rates_checked_by_setter_only_witness :
  (48000 = 0 \/ 0 = 0) /\
  mal_src_set_sample_rate
    (mal_src_object cpu_scalar (linear_mono_config 48000 24000) zero_sinc_table) 48000 0
  = (MAL_INVALID_ARGS,
     mal_src_object cpu_scalar (linear_mono_config 48000 24000) zero_sinc_table).
Proof.
  split; [right; reflexivity|].
  apply (proj2 (proj2 (src_rates_checked_by_setter_only _ cpu_scalar libm_flat
                         (linear_mono_config 48000 24000)
                         (mal_src_object cpu_scalar (linear_mono_config 48000 24000)
                            zero_sinc_table) 48000 0))).
  right. reflexivity.
Defined.


Lemma clamp_window_width_inside : forall w,
  MAL_SRC_SINC_MIN_WINDOW_WIDTH <= w <= MAL_SRC_SINC_MAX_WINDOW_WIDTH ->
  clamp_window_width w = w.
Proof.
  intros w. unfold clamp_window_width, MAL_SRC_SINC_MIN_WINDOW_WIDTH,
    MAL_SRC_SINC_MAX_WINDOW_WIDTH, MAL_SRC_SINC_DEFAULT_WINDOW_WIDTH.
  intros H.
  destruct (w =? 0) eqn:E0; [apply Z.eqb_eq in E0; lia|].
  destruct (w <? 2) eqn:E1; [apply Z.ltb_lt in E1; lia|].
  destruct (32 <? w) eqn:E2; [apply Z.ltb_lt in E2; lia|].
  reflexivity.
Qed.




(* ------------------------------------------------------------------ *)
(** ** Conversion of f32 samples to u8                                 *)
(* ------------------------------------------------------------------ *)

(** C5, counterexample: without dither the sample 0.0 becomes 127, not
    128. *)
Lemma f32_to_u8_of_zero_is_not_128 :
  fst (mal_pcm_f32_to_u8__reference [F32.of_Z 0] mal_dither_mode_none 0) = [127] /\
  fst (mal_pcm_f32_to_u8__reference [F32.of_Z 0] mal_dither_mode_none 0) <> [128].
Proof.
  split; [vm_compute; reflexivity | vm_compute; discriminate].
Qed.

(** C5, amended: with dither mode none, converting a single f32 sample
    to u8 yields 255 for +1.0, 0 for -1.0 and 127 for 0.0 (the scaled
    value 127.5 is truncated); the state of the random number generator
    is left as it was. *)
Theorem f32_to_u8_end_points :
  forall g_malLCG : Z,
    mal_pcm_f32_to_u8__reference [F32.of_Z 1] mal_dither_mode_none g_malLCG
    = ([255], g_malLCG) /\
    mal_pcm_f32_to_u8__reference [F32.of_Z (-1)] mal_dither_mode_none g_malLCG
    = ([0], g_malLCG) /\
    mal_pcm_f32_to_u8__reference [F32.of_Z 0] mal_dither_mode_none g_malLCG
    = ([127], g_malLCG).
Proof.
  intros g. repeat split; vm_compute; reflexivity.
Qed.

(* ------------------------------------------------------------------ *)
(** ** DSP supervisor: what a successful initialisation fixes          *)
(* ------------------------------------------------------------------ *)

Lemma mal_format_eqb_eq : forall a b, mal_format_eqb a b = true <-> a = b.
Proof.
  intros a b. split.
  - destruct a, b; cbn; intros H; try reflexivity; discriminate.
  - intros ->. destruct b; reflexivity.
Qed.

(** [mal_src_init] keeps the callback of the config. *)
Lemma mal_src_init_keeps_callback :
  forall (proc : Type) cpu libm (cfg : mal_src_config proc) pSRC,
    mal_src_init cpu libm (Some cfg) = Initialized pSRC ->
    srcc_onReadDeinterleaved (src_config pSRC) = srcc_onReadDeinterleaved cfg.
Proof.
  intros proc cpu libm cfg pSRC. unfold mal_src_init.
  destruct (srcc_onReadDeinterleaved cfg) eqn:Ecb; [|discriminate].
  destruct ((srcc_channels cfg =? 0) || (MAL_MAX_CHANNELS <? srcc_channels cfg));
    [discriminate|].
  destruct (srcc_algorithm cfg).
  - destruct (windowFunction (srcc_sinc cfg)); intros H; inversion H; subst; cbn;
      try exact Ecb.
  - intros H; inversion H; subst; cbn. exact Ecb.
  - intros H; inversion H; subst; cbn. exact Ecb.
Qed.

Lemma mal_channel_router_init_keeps_config :
  forall (proc : Type) cpu (cfg : mal_channel_router_config proc) pRouter,
    mal_channel_router_init cpu (Some cfg) = Initialized pRouter ->
    cr_config pRouter = cfg /\
    cr_isPassthrough pRouter = router_isPassthrough cfg /\
    mal_channel_map_valid (crc_channelsIn cfg) (Some (crc_channelMapIn cfg)) = true /\
    mal_channel_map_valid (crc_channelsOut cfg) (Some (crc_channelMapOut cfg)) = true.
Proof.
  intros proc cpu cfg pRouter. unfold mal_channel_router_init.
  destruct (crc_onReadDeinterleaved cfg); [|discriminate].
  destruct (mal_channel_map_valid (crc_channelsIn cfg) (Some (crc_channelMapIn cfg)));
    [|discriminate].
  destruct (mal_channel_map_valid (crc_channelsOut cfg) (Some (crc_channelMapOut cfg)));
    [|discriminate].
  cbn. intros H; inversion H; subst; cbn. auto.
Qed.

(** What is known of a supervisor that was initialised with success. *)
Lemma mal_dsp_init_inversion :
  forall (cproc : Type) cpu libm (cfg : mal_dsp_config cproc) pDSP,
    mal_dsp_init cpu libm cfg = Initialized pDSP ->
    isPassthrough pDSP = dsp_isPassthrough cfg /\
    isSRCRequired pDSP = dsp_isSRCRequired cfg /\
    isChannelRoutingRequired pDSP = dsp_isChannelRoutingRequired cfg /\
    isPreFormatConversionRequired pDSP = dsp_isPreFormatConversionRequired cfg /\
    isChannelRoutingAtStart pDSP = dsp_isChannelRoutingAtStart cfg /\
    fc_config (dsp_formatConverterIn pDSP) = preFormatConverterConfig cfg /\
    fc_config (dsp_formatConverterOut pDSP) = postFormatConverterConfig cfg /\
    srcc_onReadDeinterleaved (src_config (dsp_src pDSP))
    = Some mal_dsp__src_on_read_deinterleaved /\
    cr_config (dsp_channelRouter pDSP) = routerConfig cfg /\
    result_code (mal_src_init cpu libm (Some (srcConfig cfg))) = MAL_SUCCESS.
Proof.
  intros cproc cpu libm cfg pDSP. unfold mal_dsp_init.
  destruct (mal_format_converter_init cpu (Some (preFormatConverterConfig cfg)))
    as [fcIn|] eqn:E1; [|discriminate].
  destruct (mal_format_converter_init cpu (Some (postFormatConverterConfig cfg)))
    as [fcOut|] eqn:E2; [|discriminate].
  destruct (mal_src_init cpu libm (Some (srcConfig cfg))) as [src|] eqn:E3; [|discriminate].
  destruct (mal_channel_router_init cpu (Some (routerConfig cfg)))
    as [router|] eqn:E4; [|discriminate].
  intros H; inversion H; subst; cbn.
  apply mal_src_init_keeps_callback in E3.
  apply mal_channel_router_init_keeps_config in E4. destruct E4 as [E4 _].
  unfold mal_format_converter_init in E1, E2. inversion E1; inversion E2; subst; cbn.
  repeat split; auto.
Qed.

(** Element-wise equality of the channels in use, as
    [mal_channel_map_equal] tests it for distinct arrays. *)
Lemma mal_channel_map_equal_iff : forall channels a b,
  mal_channel_map_equal false channels a b = true <->
  channels <> 0 /\ channels <= MAL_MAX_CHANNELS /\
  forall i, (i < Z.to_nat channels)%nat -> map_at a i = map_at b i.
Proof.
  intros channels a b. unfold mal_channel_map_equal.
  destruct (channels =? 0) eqn:E0; cbn.
  - apply Z.eqb_eq in E0. split; [discriminate | intros [H _]; contradiction].
  - apply Z.eqb_neq in E0. destruct (MAL_MAX_CHANNELS <? channels) eqn:E1.
    + apply Z.ltb_lt in E1. split; [discriminate | intros [_ [H _]]; lia].
    + apply Z.ltb_ge in E1. rewrite forallb_range. split.
      * intros H. repeat split; auto. intros i Hi. apply Z.eqb_eq. auto.
      * intros [_ [_ H]] i Hi. apply Z.eqb_eq. auto.
Qed.

(** The address test makes the comparison fail when both arguments are
    the same array. *)
Lemma mal_channel_map_equal_same_array : forall channels a,
  mal_channel_map_equal true channels a a = false.
Proof. reflexivity. Qed.

(** C1: after a successful [mal_dsp_init] the passthrough flag is set
    if and only if the formats are equal, the channel counts are equal,
    the two channel maps agree on every channel in use, the sample rates
    are equal and dynamic sample rate changes are not allowed. *)
Theorem dsp_passthrough_iff :
  forall (cproc : Type) (cpu : mal_cpu) (libm : mal_libm)
         (cfg : mal_dsp_config cproc) (pDSP : mal_dsp cproc),
    mal_dsp_init cpu libm cfg = Initialized pDSP ->
    (isPassthrough pDSP = true <->
     dspc_formatIn cfg = dspc_formatOut cfg /\
     dspc_channelsIn cfg = dspc_channelsOut cfg /\
     (forall i, (i < Z.to_nat (dspc_channelsIn cfg))%nat ->
        map_at (dspc_channelMapIn cfg) i = map_at (dspc_channelMapOut cfg) i) /\
     dspc_sampleRateIn cfg = dspc_sampleRateOut cfg /\
     dspc_allowDynamicSampleRate cfg = MAL_FALSE).
Proof.
  intros cproc cpu libm cfg pDSP Hinit.
  destruct (mal_dsp_init_inversion _ _ _ _ _ Hinit) as [Hp [_ [_ [_ [_ [_ [_ [_ [_ Hsrc]]]]]]]]].
  rewrite Hp. clear Hp.
  apply mal_src_init_success_iff in Hsrc. destruct Hsrc as [_ [Hc0 [Hc32 _]]].
  cbn in Hc0, Hc32.
  unfold dsp_isPassthrough, dsp_isPreFormatConversionRequired,
    dsp_isPostFormatConversionRequired, dsp_isSRCRequired, dsp_isChannelRoutingRequired.
  destruct (dspc_sampleRateIn cfg =? dspc_sampleRateOut cfg) eqn:Er.
  2:{ cbn. apply Z.eqb_neq in Er. split; [discriminate|]. intros [_ [_ [_ [H _]]]].
      contradiction. }
  apply Z.eqb_eq in Er.
  unfold MAL_FALSE.
  destruct (dspc_allowDynamicSampleRate cfg =? 0) eqn:Ed.
  2:{ cbn. apply Z.eqb_neq in Ed. split; [discriminate|]. intros [_ [_ [_ [_ H]]]].
      contradiction. }
  apply Z.eqb_eq in Ed.
  destruct (dspc_channelsIn cfg =? dspc_channelsOut cfg) eqn:Ec.
  2:{ cbn. apply Z.eqb_neq in Ec. split; [discriminate|]. intros [_ [H _]].
      contradiction. }
  apply Z.eqb_eq in Ec.
  destruct (mal_channel_map_equal false (dspc_channelsIn cfg) (dspc_channelMapIn cfg)
              (dspc_channelMapOut cfg)) eqn:Em.
  - apply mal_channel_map_equal_iff in Em. destruct Em as [_ [_ Hm]].
    cbn. destruct (mal_format_eqb (dspc_formatIn cfg) (dspc_formatOut cfg)) eqn:Ef; cbn.
    + apply mal_format_eqb_eq in Ef. split; [|reflexivity]. intros _. auto.
    + split; [discriminate|]. intros [H _]. apply mal_format_eqb_eq in H. congruence.
  - cbn. split; [discriminate|]. intros [_ [_ [Hm _]]].
    assert (Ht : mal_channel_map_equal false (dspc_channelsIn cfg) (dspc_channelMapIn cfg)
                   (dspc_channelMapOut cfg) = true).
    { apply mal_channel_map_equal_iff. rewrite <- Ec in Hc0, Hc32.
      rewrite Z.ltb_irrefl in Hc0, Hc32. auto. }
    congruence.
Qed.

(** Stereo, 16 bit, 48000 Hz at both ends: a passthrough. *)
Lemma dsp_passthrough_iff_witness :
  exists pDSP,
    mal_dsp_init cpu_scalar libm_flat (stereo_s16_config 2 2 48000 48000) = Initialized pDSP /\
    isPassthrough pDSP = true /\
    (isPassthrough pDSP = true <->
     dspc_formatIn (stereo_s16_config 2 2 48000 48000)
     = dspc_formatOut (stereo_s16_config 2 2 48000 48000) /\
     dspc_channelsIn (stereo_s16_config 2 2 48000 48000)
     = dspc_channelsOut (stereo_s16_config 2 2 48000 48000) /\
     (forall i, (i < Z.to_nat (dspc_channelsIn (stereo_s16_config 2 2 48000 48000)))%nat ->
        map_at (dspc_channelMapIn (stereo_s16_config 2 2 48000 48000)) i
        = map_at (dspc_channelMapOut (stereo_s16_config 2 2 48000 48000)) i) /\
     dspc_sampleRateIn (stereo_s16_config 2 2 48000 48000)
     = dspc_sampleRateOut (stereo_s16_config 2 2 48000 48000) /\
     dspc_allowDynamicSampleRate (stereo_s16_config 2 2 48000 48000) = MAL_FALSE).
Proof.
  eexists. split; [reflexivity|]. split; [reflexivity|].
  apply (dsp_passthrough_iff unit cpu_scalar libm_flat (stereo_s16_config 2 2 48000 48000)).
  reflexivity.
Defined.

(* ------------------------------------------------------------------ *)
(** ** DSP supervisor: the order of the router and the SRC             *)
(* ------------------------------------------------------------------ *)

(** The callbacks of an initialised supervisor, stage by stage. *)
Lemma mal_dsp_init_callbacks :
  forall (cproc : Type) cpu libm (cfg : mal_dsp_config cproc) pDSP,
    mal_dsp_init cpu libm cfg = Initialized pDSP ->
    stage_callback pDSP stage_src = Some mal_dsp__src_on_read_deinterleaved /\
    stage_callback pDSP stage_channel_router
    = Some mal_dsp__channel_router_on_read_deinterleaved /\
    stage_callback pDSP stage_pre_format_converter
    = Some mal_dsp__pre_format_converter_on_read /\
    stage_callback pDSP stage_post_format_converter
    = Some (if isPreFormatConversionRequired pDSP
            then mal_dsp__post_format_converter_on_read_deinterleaved
            else mal_dsp__post_format_converter_on_read).
Proof.
  intros cproc cpu libm cfg pDSP Hinit.
  destruct (mal_dsp_init_inversion _ _ _ _ _ Hinit)
    as [_ [_ [_ [Hpre [_ [HfcIn [HfcOut [Hsrc [Hrouter _]]]]]]]]].
  unfold stage_callback, format_converter_callback.
  rewrite Hsrc, Hrouter, HfcIn, HfcOut, Hpre. cbn.
  repeat split; try reflexivity.
  destruct (dsp_isPreFormatConversionRequired cfg); reflexivity.
Qed.

Lemma pull_chain_step : forall (cproc : Type) (pDSP : mal_dsp cproc) hops st st',
  pulls_from pDSP st = Some st' ->
  pull_chain_from (Datatypes.S hops) pDSP st = st :: pull_chain_from hops pDSP st'.
Proof. intros cproc pDSP hops st st' H. cbn [pull_chain_from]. rewrite H. reflexivity. Qed.

Lemma pull_chain_stop : forall (cproc : Type) (pDSP : mal_dsp cproc) hops st,
  pulls_from pDSP st = None ->
  pull_chain_from hops pDSP st = [st].
Proof.
  intros cproc pDSP hops st H. destruct hops; cbn [pull_chain_from]; [reflexivity|].
  rewrite H. reflexivity.
Qed.

(** The edges of the pull graph of an initialised supervisor. *)
Lemma mal_dsp_init_edges :
  forall (cproc : Type) cpu libm (cfg : mal_dsp_config cproc) pDSP,
    mal_dsp_init cpu libm cfg = Initialized pDSP ->
    pulls_from pDSP stage_client = None /\
    pulls_from pDSP stage_pre_format_converter = Some stage_client /\
    pulls_from pDSP stage_src
    = Some (if isChannelRoutingAtStart pDSP then stage_channel_router
            else stage_pre_format_converter) /\
    pulls_from pDSP stage_channel_router
    = Some (if isChannelRoutingAtStart pDSP then stage_pre_format_converter
            else if isSRCRequired pDSP then stage_src else stage_pre_format_converter) /\
    (isPreFormatConversionRequired pDSP = true ->
     pulls_from pDSP stage_post_format_converter
     = Some (if negb (isChannelRoutingAtStart pDSP) then stage_channel_router
             else if isSRCRequired pDSP then stage_src else stage_channel_router)).
Proof.
  intros cproc cpu libm cfg pDSP Hinit.
  destruct (mal_dsp_init_callbacks _ _ _ _ _ Hinit) as [Hs [Hr [Hpre Hpost]]].
  unfold pulls_from. rewrite Hs, Hr, Hpre, Hpost.
  repeat split; try reflexivity.
  intros Hp. rewrite Hp. reflexivity.
Qed.

(** C2: a supervisor initialised from a config with fewer output than
    input channels has the channel router in front of the SRC: the SRC
    pulls from the router, which pulls from the pre-format converter.
    With at least as many output as input channels the router comes
    after the SRC: the SRC pulls from the pre-format converter, and the
    router pulls from the SRC whenever the SRC stage is in use (else,
    the SRC being skipped, from the pre-format converter). The chains of
    readers behind [mal_dsp_read] are listed from the consumer's end. *)
Theorem dsp_router_src_order :
  forall (cproc : Type) (cpu : mal_cpu) (libm : mal_libm)
         (cfg : mal_dsp_config cproc) (pDSP : mal_dsp cproc),
    mal_dsp_init cpu libm cfg = Initialized pDSP ->
    (dspc_channelsOut cfg < dspc_channelsIn cfg ->
     isChannelRoutingAtStart pDSP = true /\
     pulls_from pDSP stage_src = Some stage_channel_router /\
     pulls_from pDSP stage_channel_router = Some stage_pre_format_converter /\
     pull_chain pDSP
     = if isSRCRequired pDSP
       then [stage_post_format_converter; stage_src; stage_channel_router;
             stage_pre_format_converter; stage_client]
       else [stage_post_format_converter; stage_channel_router;
             stage_pre_format_converter; stage_client]) /\
    (dspc_channelsIn cfg <= dspc_channelsOut cfg ->
     isChannelRoutingAtStart pDSP = false /\
     pulls_from pDSP stage_src = Some stage_pre_format_converter /\
     pulls_from pDSP stage_channel_router
     = Some (if isSRCRequired pDSP then stage_src else stage_pre_format_converter) /\
     (isSRCRequired pDSP = true ->
      pull_chain pDSP
      = [stage_post_format_converter; stage_channel_router; stage_src;
         stage_pre_format_converter; stage_client])).
Proof.
  intros cproc cpu libm cfg pDSP Hinit.
  destruct (mal_dsp_init_edges _ _ _ _ _ Hinit) as [Hc [Hpre [Hs [Hr Hpost]]]].
  destruct (mal_dsp_init_inversion _ _ _ _ _ Hinit)
    as [Hpass [Hsrc [Hrout [Hprereq [Hstart _]]]]].
  split.
  - intros Hlt.
    assert (Hat : isChannelRoutingAtStart pDSP = true).
    { rewrite Hstart. unfold dsp_isChannelRoutingAtStart. apply Z.ltb_lt. exact Hlt. }
    assert (Hrr : dsp_isChannelRoutingRequired cfg = true).
    { unfold dsp_isChannelRoutingRequired.
      replace (dspc_channelsIn cfg =? dspc_channelsOut cfg) with false
        by (symmetry; apply Z.eqb_neq; lia). reflexivity. }
    assert (Hpr : isPreFormatConversionRequired pDSP = true).
    { rewrite Hprereq. unfold dsp_isPreFormatConversionRequired. rewrite Hrr.
      rewrite andb_false_r. reflexivity. }
    assert (Hnp : isPassthrough pDSP = false).
    { rewrite Hpass. unfold dsp_isPassthrough. rewrite Hrr. cbn.
      rewrite andb_false_r. reflexivity. }
    specialize (Hpost Hpr). rewrite Hat in Hs, Hr, Hpost. cbn [negb] in Hpost.
    repeat split; auto.
    unfold pull_chain, mal_dsp_read_entry. rewrite Hnp.
    destruct (isSRCRequired pDSP) eqn:Esrc.
    + rewrite (pull_chain_step _ _ _ _ _ Hpost), (pull_chain_step _ _ _ _ _ Hs),
        (pull_chain_step _ _ _ _ _ Hr), (pull_chain_step _ _ _ _ _ Hpre),
        (pull_chain_stop _ _ _ _ Hc). reflexivity.
    + rewrite (pull_chain_step _ _ _ _ _ Hpost), (pull_chain_step _ _ _ _ _ Hr),
        (pull_chain_step _ _ _ _ _ Hpre), (pull_chain_stop _ _ _ _ Hc). reflexivity.
  - intros Hge.
    assert (Hat : isChannelRoutingAtStart pDSP = false).
    { rewrite Hstart. unfold dsp_isChannelRoutingAtStart. apply Z.ltb_ge. exact Hge. }
    rewrite Hat in Hs, Hr, Hpost. cbn [negb] in Hpost.
    repeat split; auto.
    intros Esrc.
    assert (Hsr : dsp_isSRCRequired cfg = true) by (rewrite <- Hsrc; exact Esrc).
    assert (Hpr : isPreFormatConversionRequired pDSP = true).
    { rewrite Hprereq. unfold dsp_isPreFormatConversionRequired. rewrite Hsr.
      reflexivity. }
    assert (Hnp : isPassthrough pDSP = false).
    { rewrite Hpass. unfold dsp_isPassthrough. rewrite Hsr. cbn.
      rewrite andb_false_r. reflexivity. }
    specialize (Hpost Hpr). rewrite Esrc in Hr.
    unfold pull_chain, mal_dsp_read_entry. rewrite Hnp.
    rewrite (pull_chain_step _ _ _ _ _ Hpost), (pull_chain_step _ _ _ _ _ Hr),
      (pull_chain_step _ _ _ _ _ Hs), (pull_chain_step _ _ _ _ _ Hpre),
      (pull_chain_stop _ _ _ _ Hc). reflexivity.
Qed.

(** Stereo to mono with a rate change puts the router first; mono to
    stereo with a rate change puts it last. *)
Lemma dsp_router_src_order_witness :
  (exists pDSP,
     mal_dsp_init cpu_scalar libm_flat (stereo_s16_config 2 1 48000 44100)
     = Initialized pDSP /\
     dspc_channelsOut (stereo_s16_config 2 1 48000 44100)
     < dspc_channelsIn (stereo_s16_config 2 1 48000 44100) /\
     pulls_from pDSP stage_src = Some stage_channel_router /\
     pulls_from pDSP stage_channel_router = Some stage_pre_format_converter) /\
  (exists pDSP,
     mal_dsp_init cpu_scalar libm_flat (stereo_s16_config 1 2 48000 44100)
     = Initialized pDSP /\
     dspc_channelsIn (stereo_s16_config 1 2 48000 44100)
     <= dspc_channelsOut (stereo_s16_config 1 2 48000 44100) /\
     isSRCRequired pDSP = true /\
     pull_chain pDSP
     = [stage_post_format_converter; stage_channel_router; stage_src;
        stage_pre_format_converter; stage_client]).
Proof.
  split.
  - eexists. split; [reflexivity|].
    assert (Hlt : dspc_channelsOut (stereo_s16_config 2 1 48000 44100)
                  < dspc_channelsIn (stereo_s16_config 2 1 48000 44100))
      by (cbn; lia).
    split; [exact Hlt|].
    destruct (proj1 (dsp_router_src_order unit cpu_scalar libm_flat
                       (stereo_s16_config 2 1 48000 44100) _ eq_refl) Hlt)
      as [_ [H1 [H2 _]]].
    split; assumption.
  - eexists. split; [reflexivity|].
    assert (Hle : dspc_channelsIn (stereo_s16_config 1 2 48000 44100)
                  <= dspc_channelsOut (stereo_s16_config 1 2 48000 44100))
      by (cbn; lia).
    split; [exact Hle|]. split; [reflexivity|].
    destruct (proj2 (dsp_router_src_order unit cpu_scalar libm_flat
                       (stereo_s16_config 1 2 48000 44100) _ eq_refl) Hle)
      as [_ [_ [_ H]]].
    apply H. reflexivity.
Defined.

(* ------------------------------------------------------------------ *)
(** ** Loops that are left in their first trip                         *)
(* ------------------------------------------------------------------ *)

Lemma while_loop_one_trip :
  forall (St : Type) (cond : St -> bool) (body : St -> St * bool) fuel s s',
    cond s = true -> body s = (s', false) ->
    while_loop cond body fuel s = (s', false).
Proof.
  intros St cond body fuel s s' Hc Hb.
  assert (Ht : while_trip cond body s = (s', false)).
  { unfold while_trip. rewrite Hc. exact Hb. }
  unfold while_loop. induction fuel as [p IH|p IH|]; cbn [while_trips].
  - rewrite Ht. reflexivity.
  - rewrite IH. reflexivity.
  - exact Ht.
Qed.

Lemma in_zrange_nat : forall n lo k, lo <= k < lo + Z.of_nat n -> In k (zrange n lo).
Proof.
  induction n as [|n IH]; intros lo k H.
  - cbn in H. lia.
  - cbn [zrange]. destruct (Z.eq_dec lo k) as [->|Hne]; [left; reflexivity|].
    right. apply IH. lia.
Qed.

Lemma in_zrange : forall n lo k, lo <= k < lo + n -> In k (zrange (Z.to_nat n) lo).
Proof.
  intros n lo k H. apply in_zrange_nat. rewrite Z2Nat.id; lia.
Qed.

(* ------------------------------------------------------------------ *)
(** ** Linear SRC, 48000 to 24000                                      *)
(* ------------------------------------------------------------------ *)

Lemma array_blit_nil : forall (A : Type) (a : list A) off, array_blit a off [] = a.
Proof.
  intros A a. induction a as [|x a IH]; intros [|off]; cbn; try reflexivity.
  f_equal. apply IH.
Qed.

Lemma array_set_same : forall (A : Type) (a : list A) i d, array_set a i (nth i a d) = a.
Proof.
  intros A a. induction a as [|x a IH]; intros [|i] d; cbn; try reflexivity.
  f_equal. apply IH.
Qed.

(** A recording that holds no more frames than asked for hands out all
    of them. *)
Lemma recording_proc_exhausts : forall frameCount (st : recording),
  Z.of_nat (length (nth 0%nat st [])) <= frameCount ->
  recording_proc frameCount st
  = ((Z.of_nat (length (nth 0%nat st [])), map (firstn (length (nth 0%nat st []))) st),
     map (skipn (length (nth 0%nat st []))) st).
Proof.
  intros frameCount st H. unfold recording_proc.
  replace (frameCount <? Z.of_nat (length (nth 0%nat st []))) with false
    by (symmetry; apply Z.ltb_ge; exact H).
  rewrite Nat2Z.id. reflexivity.
Qed.

Lemma u32_small : forall z, 0 <= z < 2 ^ 32 -> u32 z = z.
Proof. intros z H. unfold u32. apply Z.mod_small. exact H. Qed.

(** With a factor of 2 a request of 4 to 16384 output frames asks the
    client to fill the cache up to 10 to 256 frames. *)
Lemma halving_first_request : forall k, 4 <= k <= 16384 ->
  10 <= linear_framesToReadFromClient F32.zero k (F32.of_Z 2) <= 256.
Proof.
  assert (H : forallb (fun k =>
                let r := linear_framesToReadFromClient F32.zero k (F32.of_Z 2) in
                (10 <=? r) && (r <=? 256)) (zrange (Z.to_nat 16381) 4) = true)
    by (vm_compute; reflexivity).
  intros k Hk. rewrite forallb_forall in H.
  assert (Hin : In k (zrange (Z.to_nat 16381) 4)) by (apply in_zrange; lia).
  specialize (H k Hin). cbn zeta in H.
  apply andb_true_iff in H. destruct H as [H1 H2].
  apply Z.leb_le in H1. apply Z.leb_le in H2. lia.
Qed.

(** A request of 1 to 16384 output frames asks for 3 to 256 frames. *)
Lemma halving_second_request : forall k, 1 <= k <= 16384 ->
  3 <= linear_framesToReadFromClient F32.zero k (F32.of_Z 2) <= 256.
Proof.
  assert (H : forallb (fun k =>
                let r := linear_framesToReadFromClient F32.zero k (F32.of_Z 2) in
                (3 <=? r) && (r <=? 256)) (zrange (Z.to_nat 16384) 1) = true)
    by (vm_compute; reflexivity).
  intros k Hk. rewrite forallb_forall in H.
  assert (Hin : In k (zrange (Z.to_nat 16384) 1)) by (apply in_zrange; lia).
  specialize (H k Hin). cbn zeta in H.
  apply andb_true_iff in H. destruct H as [H1 H2].
  apply Z.leb_le in H1. apply Z.leb_le in H2. lia.
Qed.

(** The client stores its eight frames in the empty cache. *)
Lemma halving_first_input : forall cpu req, 10 <= req <= 256 ->
  linear_read_input (halving_src cpu) req (ramp 8) = ((8, halving_cache), [[]]).
Proof.
  intros cpu req H. unfold linear_read_input.
  cbn [halving_src mal_src_object src_linear_leftoverFrames src_config src_linear_input
       linear_mono_config srcc_channels].
  replace (0 <? req) with true by (symmetry; apply Z.ltb_lt; lia).
  unfold src_onReadDeinterleaved.
  cbn [halving_src mal_src_object src_config linear_mono_config srcc_onReadDeinterleaved].
  rewrite Z.sub_0_r, u32_small by lia.
  rewrite recording_proc_exhausts by (cbn; lia).
  reflexivity.
Qed.

(** The client has nothing left; the two leftover frames remain. *)
Lemma halving_second_input : forall cpu req, 3 <= req <= 256 ->
  linear_read_input (sl_pSRC (halving_first cpu)) req (sl_client (halving_first cpu))
  = ((2, src_linear_input (sl_pSRC (halving_first cpu))), [[]]).
Proof.
  intros cpu req H. unfold linear_read_input.
  replace (src_linear_leftoverFrames (sl_pSRC (halving_first cpu))) with 2
    by (vm_compute; reflexivity).
  replace (2 <? req) with true by (symmetry; apply Z.ltb_lt; lia).
  unfold src_onReadDeinterleaved.
  replace (srcc_onReadDeinterleaved (src_config (sl_pSRC (halving_first cpu))))
    with (Some recording_proc) by reflexivity.
  replace (sl_client (halving_first cpu)) with ([[]] : recording) by reflexivity.
  rewrite u32_small by lia.
  rewrite recording_proc_exhausts by (cbn; lia).
  cbn [nth length map firstn skipn Z.of_nat].
  replace (srcc_channels (src_config (sl_pSRC (halving_first cpu)))) with 1
    by reflexivity.
  replace (u32 (u32 0 + 2)) with 2 by reflexivity.
  match goal with
  | |- (_, ?a, _) = (_, ?b, _) => replace a with b; [reflexivity|symmetry]
  end.
  unfold cache_store. change (range 1) with [0%nat]. cbn [fold_left nth].
  rewrite array_blit_nil. apply array_set_same.
Qed.

Lemma halving_first_frames : forall k, 3 <= k ->
  linear_maxOutputFramesToRead 8 F32.zero (F32.of_Z 2) k = 3.
Proof.
  intros k H. unfold linear_maxOutputFramesToRead.
  replace (linear_availableOutputFrames 8 F32.zero (F32.of_Z 2)) with 3
    by (vm_compute; reflexivity).
  replace (k <? 3) with false by (symmetry; apply Z.ltb_ge; lia). reflexivity.
Qed.

Lemma halving_second_frames : forall k, 1 <= k ->
  linear_maxOutputFramesToRead 2 F32.zero (F32.of_Z 2) k = 1.
Proof.
  intros k H. unfold linear_maxOutputFramesToRead.
  replace (linear_availableOutputFrames 2 F32.zero (F32.of_Z 2)) with 1
    by (vm_compute; reflexivity).
  replace (k <? 1) with false by (symmetry; apply Z.ltb_ge; lia). reflexivity.
Qed.

(** The first trip of the first read: three frames, and the loop is
    left because the client delivered 8 frames where more were asked. *)
Lemma halving_first_chunk : forall cpu k, 4 <= k <= 16384 ->
  src_linear_chunk k (F32.of_Z 2) (src_loop_start (halving_src cpu) [[]] (ramp 8))
  = (halving_first cpu, false).
Proof.
  intros cpu k Hk. unfold src_linear_chunk.
  cbn [src_loop_start sl_pSRC sl_client].
  replace (src_linear_timeIn (halving_src cpu)) with F32.zero by reflexivity.
  pose proof (halving_first_request k Hk) as Hreq.
  rewrite (halving_first_input cpu _ Hreq).
  replace (8 <? 2) with false by reflexivity.
  rewrite halving_first_frames by lia.
  replace (8 <? linear_framesToReadFromClient F32.zero k (F32.of_Z 2)) with true
    by (symmetry; apply Z.ltb_lt; lia).
  reflexivity.
Qed.

Lemma halving_second_chunk : forall cpu k, 1 <= k <= 16384 ->
  src_linear_chunk k (F32.of_Z 2)
    (src_loop_start (sl_pSRC (halving_first cpu)) [[]] (sl_client (halving_first cpu)))
  = (halving_second cpu, false).
Proof.
  intros cpu k Hk. unfold src_linear_chunk.
  cbn [src_loop_start sl_pSRC sl_client].
  replace (src_linear_timeIn (sl_pSRC (halving_first cpu))) with F32.zero
    by (vm_compute; reflexivity).
  pose proof (halving_second_request k Hk) as Hreq.
  rewrite (halving_second_input cpu _ Hreq).
  replace (2 <? 2) with false by reflexivity.
  rewrite halving_second_frames by lia.
  replace (2 <? linear_framesToReadFromClient F32.zero k (F32.of_Z 2)) with true
    by (symmetry; apply Z.ltb_lt; lia).
  reflexivity.
Qed.

(** A read of the halving converter is one trip of its loop. *)
Lemma halving_read :
  forall (pSRC : mal_src (read_deinterleaved_proc recording)) n out st s',
    srcc_sampleRateIn (src_config pSRC) = 48000 ->
    srcc_sampleRateOut (src_config pSRC) = 24000 ->
    1 <= n ->
    (forall k, 1 <= k <= 16384 -> (4 <= n -> 4 <= k) ->
       src_linear_chunk k (F32.of_Z 2) (src_loop_start pSRC out st) = (s', false)) ->
    mal_src_read_deinterleaved__linear pSRC n out st = ((sl_totalFramesRead s', s'), false).
Proof.
  intros pSRC n out st s' Hin Hout Hn Hchunk.
  unfold mal_src_read_deinterleaved__linear. rewrite Hin, Hout.
  replace (F32.div (F32.of_Z 48000) (F32.of_Z 24000)) with (F32.of_Z 2)
    by (vm_compute; reflexivity).
  rewrite (while_loop_one_trip _ _ _ _ _ s'); [reflexivity| |].
  - unfold src_loop_cond. cbn. apply Z.ltb_lt. lia.
  - unfold src_linear_body. cbn [src_loop_start sl_totalFramesRead].
    rewrite Z.sub_0_r. destruct (16384 <? n) eqn:E.
    + apply Hchunk; lia.
    + apply Z.ltb_ge in E. apply Hchunk; lia.
Qed.

(** C4, counterexample: a single read of 4 frames returns 3 frames. *)
Lemma linear_src_single_read_returns_three :
  mal_src_init cpu_scalar libm_flat (Some (linear_mono_config 48000 24000))
  = Initialized (halving_src cpu_scalar) /\
  fst (fst (mal_src_read_deinterleaved__linear (halving_src cpu_scalar) 4 [[]] (ramp 8))) = 3 /\
  fst (fst (mal_src_read_deinterleaved__linear (halving_src cpu_scalar) 4 [[]] (ramp 8))) <> 4.
Proof.
  split; [reflexivity|]. split; [vm_compute; reflexivity | vm_compute; discriminate].
Qed.

(** C4, amended: for a linear SRC configured with sampleRateIn = 48000,
    sampleRateOut = 24000, one channel and fresh state, and a source
    that supplies exactly the 8 samples 0, 1, ..., 7 and then reports
    the end of input, a single read requesting at least 4 frames returns
    exactly 3 output frames, with the values 0, 2 and 4, and keeps the
    input samples 6 and 7 as leftover: the leftover count is 2, the
    first two cells of the input cache hold the samples 6 and 7, and
    the source is exhausted. A following read requesting at least 1
    frame returns exactly 1 frame, with the value 6. The values are
    exact, and both reads terminate. *)
Theorem linear_src_halving_reads :
  forall (cpu : mal_cpu) (libm : mal_libm) (n m : Z),
    4 <= n -> 1 <= m ->
    exists pSRC s1 s2,
      mal_src_init cpu libm (Some (linear_mono_config 48000 24000)) = Initialized pSRC /\
      mal_src_read_deinterleaved__linear pSRC n [[]] (ramp 8) = ((3, s1), false) /\
      sl_out s1 = [[F32.of_Z 0; F32.of_Z 2; F32.of_Z 4]] /\
      src_linear_leftoverFrames (sl_pSRC s1) = 2 /\
      firstn 2 (nth 0%nat (src_linear_input (sl_pSRC s1)) [])
      = [F32.of_Z 6; F32.of_Z 7] /\
      sl_client s1 = [[]] /\
      mal_src_read_deinterleaved__linear (sl_pSRC s1) m [[]] (sl_client s1)
      = ((1, s2), false) /\
      sl_out s2 = [[F32.of_Z 6]].
Proof.
  intros cpu libm n m Hn Hm.
  exists (halving_src cpu), (halving_first cpu), (halving_second cpu).
  split; [reflexivity|]. split.
  { rewrite (halving_read (halving_src cpu) n [[]] (ramp 8) (halving_first cpu));
      try reflexivity; try lia.
    intros k Hk Hk4. apply halving_first_chunk. lia. }
  split; [vm_compute; reflexivity|].
  split; [vm_compute; reflexivity|].
  split; [vm_compute; reflexivity|].
  split; [vm_compute; reflexivity|].
  split; [|vm_compute; reflexivity].
  rewrite (halving_read (sl_pSRC (halving_first cpu)) m [[]] (sl_client (halving_first cpu))
             (halving_second cpu)); try reflexivity; try lia.
  intros k Hk _. apply halving_second_chunk. exact Hk.
Qed.

Lemma linear_src_halving_reads_witness :
  4 <= 4 /\ 1 <= 1 /\
  exists pSRC s1 s2,
    mal_src_init cpu_scalar libm_flat (Some (linear_mono_config 48000 24000))
    = Initialized pSRC /\
    mal_src_read_deinterleaved__linear pSRC 4 [[]] (ramp 8) = ((3, s1), false) /\
    sl_out s1 = [[F32.of_Z 0; F32.of_Z 2; F32.of_Z 4]] /\
    src_linear_leftoverFrames (sl_pSRC s1) = 2 /\
    firstn 2 (nth 0%nat (src_linear_input (sl_pSRC s1)) [])
    = [F32.of_Z 6; F32.of_Z 7] /\
    sl_client s1 = [[]] /\
    mal_src_read_deinterleaved__linear (sl_pSRC s1) 1 [[]] (sl_client s1)
    = ((1, s2), false) /\
    sl_out s2 = [[F32.of_Z 6]].
Proof.
  assert (H4 : 4 <= 4) by lia. assert (H1 : 1 <= 1) by lia.
  split; [exact H4|]. split; [exact H1|].
  exact (linear_src_halving_reads cpu_scalar libm_flat 4 1 H4 H1).
Defined.

(* ------------------------------------------------------------------ *)
(** ** Loops: trips counted in unary                                   *)
(* ------------------------------------------------------------------ *)

Section WhileFacts.
Context {St : Type}.
Variable cond : St -> bool.
Variable body : St -> St * bool.

Lemma while_trips_nat_add : forall a b s,
  while_trips_nat cond body (a + b) s
  = let '(s1, go) := while_trips_nat cond body a s in
    if go then while_trips_nat cond body b s1 else (s1, false).
Proof.
  induction a as [|a IH]; intros b s.
  - reflexivity.
  - cbn [Nat.add while_trips_nat].
    destruct (while_trip cond body s) as [s1 go]. destruct go.
    + apply IH.
    + reflexivity.
Qed.

Lemma while_trips_nat_one : forall s,
  while_trips_nat cond body 1 s = while_trip cond body s.
Proof.
  intros s. cbn [while_trips_nat].
  destruct (while_trip cond body s) as [s1 go]. destruct go; reflexivity.
Qed.

Lemma while_trips_as_nat : forall p s,
  while_trips cond body p s = while_trips_nat cond body (Pos.to_nat p) s.
Proof.
  induction p as [p IH|p IH|]; intros s.
  - rewrite Pos2Nat.inj_xI.
    replace (Datatypes.S (2 * Pos.to_nat p)) with (1 + (Pos.to_nat p + Pos.to_nat p))%nat
      by lia.
    rewrite while_trips_nat_add, while_trips_nat_one. cbn [while_trips].
    destruct (while_trip cond body s) as [s0 go0]. destruct go0; [|reflexivity].
    rewrite while_trips_nat_add. rewrite <- IH.
    destruct (while_trips cond body p s0) as [s1 go]. destruct go; [|reflexivity].
    apply IH.
  - rewrite Pos2Nat.inj_xO.
    replace (2 * Pos.to_nat p)%nat with (Pos.to_nat p + Pos.to_nat p)%nat by lia.
    rewrite while_trips_nat_add. cbn [while_trips]. rewrite <- IH.
    destruct (while_trips cond body p s) as [s1 go]. destruct go; [|reflexivity].
    apply IH.
  - cbn [while_trips]. change (Pos.to_nat 1) with 1%nat.
    symmetry. apply while_trips_nat_one.
Qed.

(** A loop that has ended by itself within [n] trips gives the same
    result under every larger bound. *)
Lemma while_loop_stable : forall n s s' fuel,
  while_trips_nat cond body n s = (s', false) ->
  (n <= Pos.to_nat fuel)%nat ->
  while_loop cond body fuel s = (s', false).
Proof.
  intros n s s' fuel H Hle. unfold while_loop. rewrite while_trips_as_nat.
  replace (Pos.to_nat fuel) with (n + (Pos.to_nat fuel - n))%nat by lia.
  rewrite while_trips_nat_add, H. reflexivity.
Qed.
End WhileFacts.

(* ------------------------------------------------------------------ *)
(** ** Channel router with equal maps                                  *)
(* ------------------------------------------------------------------ *)

Lemma copy_channel_map_twice_equal : forall channels m,
  channels <> 0 -> channels <= MAL_MAX_CHANNELS ->
  mal_channel_map_equal false channels (copy_channel_map channels m)
    (copy_channel_map channels m) = true.
Proof.
  intros channels m H0 H32. apply mal_channel_map_equal_iff. auto.
Qed.

(** A router from a map to the same map is a passthrough, whatever the
    mixing mode. *)
Lemma same_map_router_is_passthrough :
  forall (proc : Type) cpu channels m (onRead : proc) pRouter,
    mal_channel_router_init cpu (Some (same_map_router_config channels m onRead))
    = Initialized pRouter ->
    channels <= MAL_MAX_CHANNELS ->
    cr_isPassthrough pRouter = true /\
    crc_onReadDeinterleaved (cr_config pRouter) = Some onRead /\
    crc_channelsOut (cr_config pRouter) = channels.
Proof.
  intros proc cpu channels m onRead pRouter Hinit H32.
  apply mal_channel_router_init_keeps_config in Hinit.
  destruct Hinit as [Hcfg [Hpass [Hvalid _]]].
  rewrite Hcfg, Hpass. split; [|split; reflexivity].
  apply mal_channel_map_valid_iff in Hvalid. destruct Hvalid as [H0 _]. cbn in H0.
  unfold router_isPassthrough, same_map_router_config, mal_channel_router_config_init.
  cbn [crc_channelsIn crc_channelsOut crc_channelMapIn crc_channelMapOut].
  rewrite Z.eqb_refl, copy_channel_map_twice_equal by assumption. reflexivity.
Qed.

(** Identity of the M to M router below 2^32 frames: for a frame count
    that fits 32 bits, a read of a router built from
    a map to the same map is one call of the source callback: the count
    the callback returns and the samples it stored are the result. *)
Lemma same_map_router_read_is_identity :
  forall (S : Type) cpu channels m (onRead : read_deinterleaved_proc S) pRouter
         frameCount ppSamplesOut pUserData,
    mal_channel_router_init cpu (Some (same_map_router_config channels m onRead))
    = Initialized pRouter ->
    channels <= MAL_MAX_CHANNELS ->
    0 <= frameCount <= 0xFFFFFFFF ->
    mal_channel_router_read_deinterleaved pRouter frameCount ppSamplesOut pUserData
    = Some (let '((n, samples), st) := onRead frameCount pUserData in
            ((u32 n, store_block ppSamplesOut cursors_init channels samples), st)).
Proof.
  intros S cpu channels m onRead pRouter frameCount out st Hinit H32 Hfc.
  destruct (same_map_router_is_passthrough _ _ _ _ _ _ Hinit H32) as [Hp [Hcb Hch]].
  unfold mal_channel_router_read_deinterleaved. rewrite Hp.
  replace (frameCount <=? 0xFFFFFFFF) with true by (symmetry; apply Z.leb_le; lia).
  cbn [andb]. unfold router_onReadDeinterleaved. rewrite Hcb, Hch.
  rewrite u32_small by lia.
  destruct (onRead frameCount st) as [[n samples] st']. reflexivity.
Qed.

Lemma same_map_router_read_is_identity_witness :
  exists pRouter,
    mal_channel_router_init cpu_scalar (Some (stereo_router_config recording_proc))
    = Initialized pRouter /\
    mal_channel_router_read_deinterleaved pRouter 4 [[]; []] stereo_frames
    = Some ((4, stereo_frames), [[]; []]).
Proof.
  eexists. split; [reflexivity|].
  etransitivity.
  - apply (same_map_router_read_is_identity recording cpu_scalar 2
             (channel_map_of [MAL_CHANNEL_FRONT_LEFT; MAL_CHANNEL_FRONT_RIGHT])
             recording_proc).
    + reflexivity.
    + unfold MAL_MAX_CHANNELS. lia.
    + lia.
  - vm_compute. reflexivity.
Defined.

(** Above 32 bits a passthrough router never reports a frame: the
    block for large frame counts falls through into the path for a
    router that is not a passthrough, whose first trip either gets no
    frame from the source and returns 0, or gets frames and fails the
    assertion of [mal_channel_router__do_routing]. *)
Lemma passthrough_router_above_32_bits :
  forall (S : Type) (pRouter : mal_channel_router (read_deinterleaved_proc S))
         (frameCount : Z) (ppSamplesOut : list buffer) (pUserData : S),
    cr_isPassthrough pRouter = true ->
    0xFFFFFFFF < frameCount ->
    match mal_channel_router_read_deinterleaved pRouter frameCount ppSamplesOut pUserData with
    | Some ((n, _), _) => n = 0
    | None => True
    end.
Proof.
  intros S pRouter frameCount out st Hp Hfc.
  unfold mal_channel_router_read_deinterleaved. rewrite Hp.
  replace (frameCount <=? 0xFFFFFFFF) with false by (symmetry; apply Z.leb_gt; lia).
  cbn [andb].
  set (s0 := fst (router_passthrough_loop pRouter frameCount _)).
  unfold router_routing_loop.
  set (maxFrames := mal_split_buffer _ _ _ _ / 4).
  set (start := {| rl_totalFramesRead := 0; rl_ppNextSamplesOut := cursors_init;
                   rl_out := rl_out s0; rl_client := rl_client s0 |}).
  assert (Hbody : exists s', router_routing_body pRouter frameCount maxFrames start
                             = (s', false) /\
                             match s' with
                             | Some s1 => rl_totalFramesRead s1 = 0
                             | None => True
                             end).
  { unfold router_routing_body.
    destruct (router_onReadDeinterleaved pRouter _ (rl_client start)) as [[n ppTemp] st'].
    destruct (u32 n =? 0).
    - eexists. split; [reflexivity|]. reflexivity.
    - unfold mal_channel_router__do_routing. rewrite Hp.
      eexists. split; [reflexivity|]. exact I. }
  destruct Hbody as [s' [Hbody Hs']].
  rewrite (while_loop_one_trip _ _ _ (Z.to_pos (frameCount + 1)) (Some start) s').
  - cbn [fst]. destruct s' as [s1|]; [exact Hs'|exact I].
  - unfold router_loop_cond. cbn [start rl_totalFramesRead]. apply Z.ltb_lt. lia.
  - exact Hbody.
Qed.

(** C3, the code at a frame count above 32 bits. A mono router from
    [MONO] to [MONO] in simple mode is asked for 2^32 frames from a
    source that holds 3 frames: the source delivers the 3 frames, they
    are stored in the output buffer, and the read returns 0. A stereo
    router from [FRONT_LEFT, FRONT_RIGHT] to the same map is asked for
    2^32 frames from a source that holds 4 frames and hands out 2 per
    call: the first 2 frames are fetched, the next 2 reach
    [mal_channel_router__do_routing], whose assertion that the router
    is not a passthrough fails, and the call does not return. *)
Theorem router_read_above_32_bits :
  (exists pRouter,
     mal_channel_router_init cpu_scalar (Some (mono_router_config recording_proc))
     = Initialized pRouter /\
     recording_proc 0xFFFFFFFF (ramp 3) = ((3, ramp 3), [[]]) /\
     mal_channel_router_read_deinterleaved pRouter (2 ^ 32) [[]] (ramp 3)
     = Some ((0, ramp 3), [[]])) /\
  (exists pRouter,
     mal_channel_router_init cpu_scalar (Some (stereo_router_config (chunked_proc 2)))
     = Initialized pRouter /\
     chunked_proc 2 0xFFFFFFFF stereo_frames
     = ((2, [map F32.of_Z [0; 1]; map F32.of_Z [10; 11]]),
        [map F32.of_Z [2; 3]; map F32.of_Z [12; 13]]) /\
     mal_channel_router_read_deinterleaved pRouter (2 ^ 32) [[]; []] stereo_frames = None).
Proof.
  split.
  - eexists. split; [reflexivity|]. split; vm_compute; reflexivity.
  - eexists. split; [reflexivity|]. split; vm_compute; reflexivity.
Qed.

(* ------------------------------------------------------------------ *)
(** ** Sinc table lookups                                              *)
(* ------------------------------------------------------------------ *)

(** No table has an entry at [sinc_table_count]. *)
Lemma sinc_table_load_past_the_end : forall table,
  sinc_table_load table sinc_table_count = None.
Proof. intros table. reflexivity. Qed.

(** A lookup whose index is the last of the table fails, since the
    entry after it is read too. *)
Lemma interpolation_factor_at_last_index : forall table x,
  sinc_table_index x + 1 = sinc_table_count ->
  mal_src_sinc__interpolation_factor table x = None.
Proof.
  intros table x H. unfold mal_src_sinc__interpolation_factor.
  unfold sinc_table_index in H. cbv zeta. rewrite H.
  rewrite sinc_table_load_past_the_end.
  destruct (sinc_table_load table _); reflexivity.
Qed.

(** C10, the code at the default window width. With a window of 32
    taps and a fractional phase of 7/8, the tap at distance -31 gives
    the index 255, so the entry read at [ixabs + 1] is number 256 of a
    table of 256 entries, whatever the table holds. In a run: on every
    CPU and with every C library, a sinc converter initialised with the
    default window width (stored as 32) for 44100 Hz to 48000 Hz has a
    table of 256 entries, and a read of 2 frames from a source of 400
    samples reads outside the table, under any bound on the trips of
    the loop of at least 2. *)
Theorem sinc_lookup_leaves_table :
  sinc_table_count = 256 /\
  sinc_table_index (F32.sub (F32.of_ratio 7 8) (sinc_iWindowF 32 1)) = 255 /\
  (forall table,
     mal_src_sinc__interpolation_factor table
       (F32.sub (F32.of_ratio 7 8) (sinc_iWindowF 32 1)) = None) /\
  (forall (cpu : mal_cpu) (libm : mal_libm) (extra : positive),
     exists pSRC,
       mal_src_init cpu libm (Some default_sinc_config) = Initialized pSRC /\
       windowWidth (srcc_sinc (src_config pSRC)) = 32 /\
       Z.of_nat (length (src_sinc_table pSRC)) = sinc_table_count /\
       mal_src_read_deinterleaved__sinc (Pos.succ extra) pSRC 2 [[]] (ramp 400) = None).
Proof.
  split; [reflexivity|]. split; [vm_compute; reflexivity|]. split.
  - intros table. apply interpolation_factor_at_last_index. vm_compute. reflexivity.
  - intros cpu libm extra.
    destruct cpu as [[] [] [] []];
      (eexists; split; [reflexivity|]; split; [reflexivity|];
       split; [vm_compute; reflexivity|];
       unfold mal_src_read_deinterleaved__sinc;
       rewrite (while_loop_stable _ _ 2 _ None);
       [reflexivity | vm_compute; reflexivity | lia]).
Qed.

(* ------------------------------------------------------------------ *)
(** ** PCM sample conversion                                           *)
(* ------------------------------------------------------------------ *)

Ltac zdiv := Z.to_euclidean_division_equations; lia.

Lemma range_sample_count : forall (A : Type) (src : list A),
  range (sample_count src) = seq 0 (length src).
Proof. intros A src. unfold range, sample_count. rewrite Nat2Z.id. reflexivity. Qed.

Lemma range_of_nat : forall n, range (Z.of_nat n) = seq 0 n.
Proof. intros n. unfold range. rewrite Nat2Z.id. reflexivity. Qed.

Lemma map_nth_seq : forall (A B : Type) (d : A) (f : A -> B) (l : list A),
  map (fun i => f (nth i l d)) (seq 0 (length l)) = map f l.
Proof.
  intros A B d f l. induction l as [|a l IH]; [reflexivity|].
  cbn [length seq map nth]. f_equal.
  rewrite <- seq_shift, map_map. exact IH.
Qed.

(** A loop that converts cell by cell is a [map] over the buffer. *)
Lemma map_cells : forall (B : Type) (f : Z -> B) (src : list Z),
  map (fun i => f (cell src i)) (range (sample_count src)) = map f src.
Proof.
  intros B f src. rewrite range_sample_count. apply map_nth_seq.
Qed.

Lemma sample_count_map : forall (A B : Type) (f : A -> B) (l : list A),
  sample_count (map f l) = sample_count l.
Proof. intros A B f l. unfold sample_count. rewrite length_map. reflexivity. Qed.

Lemma map_agree : forall (A B : Type) (P : A -> bool) (f g : A -> B) (l : list A),
  (forall x, P x = true -> f x = g x) -> forallb P l = true -> map f l = map g l.
Proof.
  intros A B P f g l H Hl. apply map_ext_in. intros x Hx.
  apply H. rewrite forallb_forall in Hl. apply Hl. exact Hx.
Qed.

(** Checking a property of every u8 or s16 value by running through
    the values. *)
Lemma for_all_u8 : forall (P : Z -> bool),
  forallb P (zrange (Z.to_nat 256) 0) = true -> forall x, is_u8 x = true -> P x = true.
Proof.
  intros P H x Hx. rewrite forallb_forall in H. apply H.
  unfold is_u8 in Hx. apply andb_true_iff in Hx. destruct Hx as [H0 H1].
  apply Z.leb_le in H0. apply Z.ltb_lt in H1. apply in_zrange.
  change (2 ^ 8) with 256 in H1. lia.
Qed.

Lemma for_all_s16 : forall (P : Z -> bool),
  forallb P (zrange (Z.to_nat 65536) (-32768)) = true ->
  forall x, is_s16 x = true -> P x = true.
Proof.
  intros P H x Hx. rewrite forallb_forall in H. apply H.
  unfold is_s16 in Hx. apply andb_true_iff in Hx. destruct Hx as [H0 H1].
  apply Z.leb_le in H0. apply Z.ltb_lt in H1. apply in_zrange.
  change (2 ^ 15) with 32768 in *. lia.
Qed.

Lemma is_s32_range : forall x, is_s32 x = true <-> - 2 ^ 31 <= x < 2 ^ 31.
Proof.
  intros x. unfold is_s32. rewrite andb_true_iff, Z.leb_le, Z.ltb_lt. reflexivity.
Qed.

Lemma is_s16_range : forall x, is_s16 x = true <-> - 2 ^ 15 <= x < 2 ^ 15.
Proof.
  intros x. unfold is_s16. rewrite andb_true_iff, Z.leb_le, Z.ltb_lt. reflexivity.
Qed.

Lemma is_u8_range : forall x, is_u8 x = true <-> 0 <= x < 2 ^ 8.
Proof.
  intros x. unfold is_u8. rewrite andb_true_iff, Z.leb_le, Z.ltb_lt. reflexivity.
Qed.

(** The powers of two of the sample formats, as numerals. *)
Ltac pow2 :=
  change (2 ^ 7) with 128 in *; change (2 ^ 8) with 256 in *;
  change (2 ^ 15) with 32768 in *; change (2 ^ 16) with 65536 in *;
  change (2 ^ 24) with 16777216 in *; change (2 ^ 31) with 2147483648 in *;
  change (2 ^ 32) with 4294967296 in *.

(** Bits below position [n] and bits from position [n] on do not
    overlap, so that joining them with [|] adds them. *)
Lemma land_low_shiftl : forall a b n, 0 <= n -> 0 <= a < 2 ^ n ->
  Z.land a (Z.shiftl b n) = 0.
Proof.
  intros a b n Hn Ha. apply Z.bits_inj'. intros m Hm.
  rewrite Z.land_spec, Z.bits_0. destruct (Z.ltb_spec m n) as [Hlt|Hge].
  - rewrite (Z.shiftl_spec_low b n m Hlt). apply andb_false_r.
  - rewrite <- (Z.mod_small a (2 ^ n)) by exact Ha.
    rewrite Z.mod_pow2_bits_high by lia. reflexivity.
Qed.

Lemma lor_low_shiftl : forall a b n, 0 <= n -> 0 <= a < 2 ^ n ->
  Z.lor a (Z.shiftl b n) = a + Z.shiftl b n.
Proof.
  intros a b n Hn Ha. rewrite <- (Z.add_lor_land a (Z.shiftl b n)).
  rewrite (land_low_shiftl a b n Hn Ha). lia.
Qed.

(** The byte of a value that a mask and a shift select. *)
Lemma byte0_of : forall x, Z.land x 0xFF = x mod 2 ^ 8.
Proof. intros x. apply (Z.land_ones x 8). lia. Qed.

Lemma byte1_of : forall x, Z.shiftr (Z.land x 0x0000FF00) 8 = (x / 2 ^ 8) mod 2 ^ 8.
Proof.
  intros x. rewrite Z.shiftr_land. change (Z.shiftr 65280 8) with (Z.ones 8).
  rewrite Z.land_ones, Z.shiftr_div_pow2 by lia. reflexivity.
Qed.

Lemma byte2_of : forall x, Z.shiftr (Z.land x 0x00FF0000) 16 = (x / 2 ^ 16) mod 2 ^ 8.
Proof.
  intros x. rewrite Z.shiftr_land. change (Z.shiftr 16711680 16) with (Z.ones 8).
  rewrite Z.land_ones, Z.shiftr_div_pow2 by lia. reflexivity.
Qed.

Lemma byte3_of : forall x, Z.shiftr (Z.land x 0xFF000000) 24 = (x / 2 ^ 24) mod 2 ^ 8.
Proof.
  intros x. rewrite Z.shiftr_land. change (Z.shiftr 4278190080 24) with (Z.ones 8).
  rewrite Z.land_ones, Z.shiftr_div_pow2 by lia. reflexivity.
Qed.

(** The cells of a buffer of three-byte samples. *)
Lemma nth_triples : forall (a b c : nat -> Z) n s i, (i < n)%nat ->
  let l := flat_map (fun j => [a j; b j; c j]) (seq s n) in
  cell l (i * 3 + 0) = a (s + i)%nat /\
  cell l (i * 3 + 1) = b (s + i)%nat /\
  cell l (i * 3 + 2) = c (s + i)%nat.
Proof.
  intros a b c n. induction n as [|n IH]; intros s i Hi; [lia|].
  cbn zeta. cbn [seq flat_map]. destruct i as [|i].
  - cbn. rewrite Nat.add_0_r. auto.
  - specialize (IH (Datatypes.S s) i ltac:(lia)). cbn zeta in IH.
    replace (s + Datatypes.S i)%nat with (Datatypes.S s + i)%nat by lia.
    unfold cell in *. cbn [Nat.mul Nat.add app nth]. exact IH.
Qed.

Lemma map_triples : forall (B : Type) (F : Z -> Z -> Z -> B) (a b c : nat -> Z) n,
  let l := flat_map (fun j => [a j; b j; c j]) (seq 0 n) in
  map (fun i => F (cell l (i * 3 + 0)) (cell l (i * 3 + 1)) (cell l (i * 3 + 2))) (seq 0 n)
  = map (fun i => F (a i) (b i) (c i)) (seq 0 n).
Proof.
  intros B F a b c n l. apply map_ext_in. intros i Hi. apply in_seq in Hi.
  destruct (nth_triples a b c n 0 i ltac:(lia)) as [H0 [H1 H2]].
  fold l in H0, H1, H2. rewrite H0, H1, H2. reflexivity.
Qed.

Lemma flat_map_cells : forall (F : Z -> list Z) (src : list Z),
  flat_map (fun i => F (cell src i)) (range (sample_count src)) = flat_map F src.
Proof.
  intros F src. rewrite !flat_map_concat_map. f_equal. apply map_cells.
Qed.

Lemma nth_map_seq : forall (f : nat -> Z) n i, (i < n)%nat ->
  cell (map f (seq 0 n)) i = f i.
Proof.
  intros f n i Hi. unfold cell.
  rewrite (nth_indep _ 0 (f 0%nat)) by (rewrite length_map, length_seq; exact Hi).
  rewrite map_nth, seq_nth by exact Hi. reflexivity.
Qed.

(** A buffer of [n] three-byte samples, read byte by byte. *)
Lemma flat_map_triples_id : forall n (src : list Z), length src = (3 * n)%nat ->
  flat_map (fun i => [cell src (i * 3 + 0); cell src (i * 3 + 1); cell src (i * 3 + 2)])
           (seq 0 n) = src.
Proof.
  induction n as [|n IH]; intros src Hlen.
  - destruct src; [reflexivity | discriminate].
  - destruct src as [|x0 [|x1 [|x2 rest]]]; cbn in Hlen; try lia.
    cbn [seq flat_map]. cbn [Nat.mul Nat.add cell nth app]. do 3 f_equal.
    rewrite <- seq_shift, flat_map_concat_map, map_map, <- flat_map_concat_map.
    transitivity
      (flat_map (fun i => [cell rest (i * 3 + 0); cell rest (i * 3 + 1); cell rest (i * 3 + 2)])
                (seq 0 n)); [|apply IH; lia].
    apply flat_map_ext. intros i. unfold cell. cbn [Nat.mul Nat.add nth]. reflexivity.
Qed.

(** A loop body that does not draw a random number leaves the
    generator alone. *)
Lemma for_each_sample_pure : forall (B : Type) count (h : nat -> B) body g,
  (forall i g, body i g = (h i, g)) ->
  for_each_sample count body g = (map h (range count), g).
Proof.
  intros B count h body g H. unfold for_each_sample.
  assert (G : forall l acc,
            fold_left (fun (acc : list B * Z) (i : nat) =>
                         let '(dst, g) := acc in
                         let '(y, g') := body i g in (dst ++ [y], g')) l (acc, g)
            = (acc ++ map h l, g)).
  { induction l as [|i l IH]; intros acc; cbn [fold_left map].
    - rewrite app_nil_r. reflexivity.
    - rewrite H, IH, <- app_assoc. reflexivity. }
  apply (G (range count) []).
Qed.

Lemma convert_twice : forall (B : Type) (f : Z -> Z) (h : Z -> B) (src : list Z),
  map (fun i => h (cell (map (fun i => f (cell src i)) (range (sample_count src))) i))
      (range (sample_count src))
  = map (fun x => h (f x)) src.
Proof.
  intros B f h src. rewrite map_cells.
  transitivity (map h (map f src)); [|apply map_map].
  rewrite <- (map_cells _ h (map f src)), sample_count_map. reflexivity.
Qed.

(** Reading back the three bytes that were written for each cell. *)
Lemma convert_through_s24 :
  forall (B : Type) (a b c : Z -> Z) (F : Z -> Z -> Z -> B) (src : list Z),
    let l := flat_map (fun i => [a (cell src i); b (cell src i); c (cell src i)])
                      (range (sample_count src)) in
    map (fun i => F (cell l (i * 3 + 0)) (cell l (i * 3 + 1)) (cell l (i * 3 + 2)))
        (range (sample_count src))
    = map (fun x => F (a x) (b x) (c x)) src.
Proof.
  intros B a b c F src l. subst l. rewrite range_sample_count.
  rewrite (map_triples B F (fun i => a (cell src i)) (fun i => b (cell src i))
                       (fun i => c (cell src i))).
  apply (map_nth_seq Z B 0 (fun x => F (a x) (b x) (c x))).
Qed.

Lemma map_same_on : forall (P : Z -> bool) (f : Z -> Z) (l : list Z),
  (forall x, P x = true -> f x = x) -> forallb P l = true -> map f l = l.
Proof.
  intros P f l H Hl. rewrite <- (map_id l) at 2. exact (map_agree Z Z P f _ l H Hl).
Qed.

(** Widening a u8 sample to s16, s24 (its top byte) or s32 and
    narrowing it again gives the sample back. *)
Lemma u8_cell_round_trips : forall b, is_u8 b = true ->
  s16_to_u8_cell (s16 (s16 (Z.shiftl (s16 (s16 b - 128)) 8))) = b /\
  u8 (s8 (s8 (u8 (s8 (s16 (s16 b - 128)))) + 128)) = b /\
  u8 (s32 (Z.shiftr (s32 (Z.shiftl (s32 (s32 b - 128)) 24)) 24 + 128)) = b.
Proof.
  intros b Hb.
  pose proof (for_all_u8
    (fun b =>
       (s16_to_u8_cell (s16 (s16 (Z.shiftl (s16 (s16 b - 128)) 8))) =? b)
       && (u8 (s8 (s8 (u8 (s8 (s16 (s16 b - 128)))) + 128)) =? b)
       && (u8 (s32 (Z.shiftr (s32 (Z.shiftl (s32 (s32 b - 128)) 24)) 24 + 128)) =? b))
    ltac:(vm_compute; reflexivity) b Hb) as H.
  cbv beta in H. apply andb_true_iff in H. destruct H as [H H3].
  apply andb_true_iff in H. destruct H as [H1 H2].
  apply Z.eqb_eq in H1, H2, H3. auto.
Qed.

(** Round trips from u8: converting a buffer of u8 samples to s16, to
    s24 or to s32 and converting the result back to u8 without dither
    returns the original buffer and leaves the random number generator
    untouched. *)
Theorem pcm_u8_round_trips :
  forall (src : list Z) (g_malLCG : Z),
    forallb is_u8 src = true ->
    mal_pcm_s16_to_u8__reference
      (mal_pcm_u8_to_s16__reference src (sample_count src)) (sample_count src)
      mal_dither_mode_none g_malLCG = (src, g_malLCG) /\
    mal_pcm_s24_to_u8__reference
      (mal_pcm_u8_to_s24__reference src (sample_count src)) (sample_count src)
      mal_dither_mode_none g_malLCG = (src, g_malLCG) /\
    mal_pcm_s32_to_u8__reference
      (mal_pcm_u8_to_s32__reference src (sample_count src)) (sample_count src)
      mal_dither_mode_none g_malLCG = (src, g_malLCG).
Proof.
  intros src g Hsrc. repeat split.
  - unfold mal_pcm_s16_to_u8__reference, mal_pcm_u8_to_s16__reference. f_equal.
    etransitivity;
      [apply (convert_twice Z (fun x => s16 (Z.shiftl (s16 (s16 x - 128)) 8))
                (fun x => s16_to_u8_cell (s16 x)) src)|].
    apply (map_same_on is_u8); [|exact Hsrc].
    intros b Hb. apply (u8_cell_round_trips b Hb).
  - unfold mal_pcm_s24_to_u8__reference, mal_pcm_u8_to_s24__reference. f_equal.
    etransitivity;
      [apply (convert_through_s24 Z (fun _ => 0) (fun _ => 0)
                (fun x => u8 (s8 (s16 (s16 x - 128))))
                (fun _ _ z => u8 (s8 (s8 z + 128))) src)|].
    apply (map_same_on is_u8); [|exact Hsrc].
    intros b Hb. apply (u8_cell_round_trips b Hb).
  - unfold mal_pcm_s32_to_u8__reference, mal_pcm_u8_to_s32__reference. f_equal.
    etransitivity;
      [apply (convert_twice Z (fun x => s32 (Z.shiftl (s32 (s32 x - 128)) 24))
                (fun x => u8 (s32 (Z.shiftr x 24 + 128))) src)|].
    apply (map_same_on is_u8); [|exact Hsrc].
    intros b Hb. apply (u8_cell_round_trips b Hb).
Qed.

Lemma pcm_u8_round_trips_witness :
  forallb is_u8 some_u8_samples = true /\
  mal_pcm_s16_to_u8__reference
    (mal_pcm_u8_to_s16__reference some_u8_samples 8) 8 mal_dither_mode_none 7
  = (some_u8_samples, 7).
Proof.
  split; [reflexivity|].
  exact (proj1 (pcm_u8_round_trips some_u8_samples 7 eq_refl)).
Defined.

(** Widening an s16 sample to s24 (two bytes above a zero byte) or to
    s32 and narrowing it again gives the sample back. *)
Lemma s16_cell_round_trips : forall x, is_s16 x = true ->
  s16 (Z.lor (s16 (u16 (u8 (Z.land x 0xFF))))
             (u16 (Z.shiftl (u16 (u8 (Z.shiftr x 8))) 8))) = x /\
  s16 (Z.shiftr (s32 (Z.shiftl x 16)) 16) = x.
Proof.
  intros x Hx. apply is_s16_range in Hx. split.
  - rewrite byte0_of, Z.shiftr_div_pow2 by lia.
    replace (s16 (u16 (u8 (x mod 2 ^ 8)))) with (x mod 2 ^ 8)
      by (unfold s16, u16, u8; pow2; zdiv).
    replace (u16 (Z.shiftl (u16 (u8 (x / 2 ^ 8))) 8))
      with (Z.shiftl ((x / 2 ^ 8) mod 2 ^ 8) 8)
      by (rewrite !Z.shiftl_mul_pow2 by lia; unfold u16, u8; pow2; zdiv).
    rewrite lor_low_shiftl by (pow2; zdiv).
    rewrite Z.shiftl_mul_pow2 by lia. unfold s16. pow2. zdiv.
  - rewrite Z.shiftl_mul_pow2, Z.shiftr_div_pow2 by lia. unfold s16, s32. pow2. zdiv.
Qed.

(** Round trips from s16: converting a buffer of s16 samples to s24 or
    to s32 and converting the result back to s16 without dither returns
    the original buffer. *)
Theorem pcm_s16_round_trips :
  forall (src : list Z) (g_malLCG : Z),
    forallb is_s16 src = true ->
    mal_pcm_s24_to_s16__reference
      (mal_pcm_s16_to_s24__reference src (sample_count src)) (sample_count src)
      mal_dither_mode_none g_malLCG = (src, g_malLCG) /\
    mal_pcm_s32_to_s16__reference
      (mal_pcm_s16_to_s32__reference src (sample_count src)) (sample_count src)
      mal_dither_mode_none g_malLCG = (src, g_malLCG).
Proof.
  intros src g Hsrc. split.
  - unfold mal_pcm_s24_to_s16__reference, mal_pcm_s16_to_s24__reference. f_equal.
    etransitivity;
      [apply (convert_through_s24 Z (fun _ => 0) (fun x => u8 (Z.land x 0xFF))
                (fun x => u8 (Z.shiftr x 8))
                (fun _ y z => s16 (Z.lor (s16 (u16 y)) (u16 (Z.shiftl (u16 z) 8)))) src)|].
    apply (map_same_on is_s16); [|exact Hsrc].
    intros x Hx. apply (s16_cell_round_trips x Hx).
  - unfold mal_pcm_s32_to_s16__reference, mal_pcm_s16_to_s32__reference. f_equal.
    etransitivity;
      [apply (convert_twice Z (fun x => s32 (Z.shiftl x 16))
                (fun x => s16 (Z.shiftr x 16)) src)|].
    apply (map_same_on is_s16); [|exact Hsrc].
    intros x Hx. apply (s16_cell_round_trips x Hx).
Qed.

Lemma pcm_s16_round_trips_witness :
  forallb is_s16 some_s16_samples = true /\
  mal_pcm_s32_to_s16__reference
    (mal_pcm_s16_to_s32__reference some_s16_samples 9) 9 mal_dither_mode_none 7
  = (some_s16_samples, 7).
Proof.
  split; [reflexivity|].
  exact (proj2 (pcm_s16_round_trips some_s16_samples 7 eq_refl)).
Defined.

(* ------------------------------------------------------------------ *)
(** ** PCM sample conversion: s24 and s32                              *)
(* ------------------------------------------------------------------ *)

Lemma widen_bytes : forall b0 b1 b2,
  0 <= b0 < 2 ^ 8 -> 0 <= b1 < 2 ^ 8 -> 0 <= b2 < 2 ^ 8 ->
  Z.lor (Z.lor (u32 (Z.shiftl b0 8)) (u32 (Z.shiftl b1 16))) (u32 (Z.shiftl b2 24))
  = b0 * 2 ^ 8 + b1 * 2 ^ 16 + b2 * 2 ^ 24.
Proof.
  intros b0 b1 b2 H0 H1 H2.
  replace (u32 (Z.shiftl b0 8)) with (b0 * 2 ^ 8)
    by (rewrite Z.shiftl_mul_pow2 by lia; unfold u32; pow2; zdiv).
  replace (u32 (Z.shiftl b1 16)) with (Z.shiftl b1 16)
    by (rewrite Z.shiftl_mul_pow2 by lia; unfold u32; pow2; zdiv).
  replace (u32 (Z.shiftl b2 24)) with (Z.shiftl b2 24)
    by (rewrite Z.shiftl_mul_pow2 by lia; unfold u32; pow2; zdiv).
  rewrite (lor_low_shiftl (b0 * 2 ^ 8) b1 16) by (pow2; lia).
  rewrite lor_low_shiftl by (rewrite ?Z.shiftl_mul_pow2 by lia; pow2; lia).
  rewrite !Z.shiftl_mul_pow2 by lia. reflexivity.
Qed.

Lemma cell_is_u8 : forall src j, forallb is_u8 src = true -> (j < length src)%nat ->
  0 <= cell src j < 2 ^ 8.
Proof.
  intros src j H Hj. apply is_u8_range. rewrite forallb_forall in H. apply H.
  unfold cell. apply nth_In. exact Hj.
Qed.

(** The 32-bit value of an s24 sample, in terms of its bytes. *)
Lemma s24_widen_value : forall src i k,
  forallb is_u8 src = true -> length src = (3 * k)%nat -> (i < k)%nat ->
  s24_widen src i
  = s32 (cell src (i * 3 + 0) * 2 ^ 8 + cell src (i * 3 + 1) * 2 ^ 16
         + cell src (i * 3 + 2) * 2 ^ 24).
Proof.
  intros src i k H Hlen Hi. unfold s24_widen.
  rewrite widen_bytes by (apply cell_is_u8; [exact H | lia]). reflexivity.
Qed.

(** The bytes [mal_pcm_s32_to_s24__reference] writes for the widened
    value of three bytes are those three bytes. *)
Lemma s32_bytes_of_widened : forall b0 b1 b2,
  0 <= b0 < 2 ^ 8 -> 0 <= b1 < 2 ^ 8 -> 0 <= b2 < 2 ^ 8 ->
  let x := u32 (s32 (b0 * 2 ^ 8 + b1 * 2 ^ 16 + b2 * 2 ^ 24)) in
  [u8 (Z.shiftr (Z.land x 0x0000FF00) 8);
   u8 (Z.shiftr (Z.land x 0x00FF0000) 16);
   u8 (Z.shiftr (Z.land x 0xFF000000) 24)] = [b0; b1; b2].
Proof.
  intros b0 b1 b2 H0 H1 H2 x. subst x.
  rewrite byte1_of, byte2_of, byte3_of. unfold u8, u32, s32. pow2.
  f_equal; [|f_equal; [|f_equal]]; zdiv.
Qed.

(** Round trip of s24 through s32: converting a buffer of [k] s24
    samples (three bytes each) to s32 and back returns the buffer. *)
Theorem pcm_s24_s32_round_trip :
  forall (src : list Z) (k : nat),
    forallb is_u8 src = true ->
    length src = (3 * k)%nat ->
    mal_pcm_s32_to_s24__reference
      (mal_pcm_s24_to_s32__reference src (Z.of_nat k)) (Z.of_nat k) = src.
Proof.
  intros src k Hsrc Hlen.
  unfold mal_pcm_s32_to_s24__reference, mal_pcm_s24_to_s32__reference.
  rewrite range_of_nat.
  etransitivity; [|apply (flat_map_triples_id k src Hlen)].
  rewrite !flat_map_concat_map. f_equal. apply map_ext_in. intros i Hi.
  apply in_seq in Hi. rewrite nth_map_seq by lia.
  rewrite (s24_widen_value src i k Hsrc Hlen) by lia.
  apply s32_bytes_of_widened; apply cell_is_u8; (exact Hsrc || lia).
Qed.

Lemma pcm_s24_s32_round_trip_witness :
  forallb is_u8 some_s24_samples = true /\
  length some_s24_samples = (3 * 4)%nat /\
  mal_pcm_s32_to_s24__reference (mal_pcm_s24_to_s32__reference some_s24_samples 4) 4
  = some_s24_samples.
Proof.
  split; [reflexivity|]. split; [reflexivity|].
  exact (pcm_s24_s32_round_trip some_s24_samples 4 eq_refl eq_refl).
Defined.

(* ------------------------------------------------------------------ *)
(** ** PCM sample conversion: composition                              *)
(* ------------------------------------------------------------------ *)

Lemma flat_convert_twice : forall (f : Z -> Z) (H : Z -> list Z) (src : list Z),
  flat_map (fun i => H (cell (map (fun i => f (cell src i)) (range (sample_count src))) i))
           (range (sample_count src))
  = flat_map (fun x => H (f x)) src.
Proof.
  intros f H src. rewrite !flat_map_concat_map. f_equal.
  apply (convert_twice (list Z) f H src).
Qed.

Lemma flat_map_agree : forall (P : Z -> bool) (f g : Z -> list Z) (l : list Z),
  (forall x, P x = true -> f x = g x) -> forallb P l = true ->
  flat_map f l = flat_map g l.
Proof.
  intros P f g l H Hl. rewrite !flat_map_concat_map. f_equal.
  exact (map_agree Z (list Z) P f g l H Hl).
Qed.

Lemma u8_cell_widenings : forall b, is_u8 b = true ->
  s32 (Z.shiftl (s16 (Z.shiftl (s16 (s16 b - 128)) 8)) 16)
  = s32 (Z.shiftl (s32 (s32 b - 128)) 24) /\
  s32 (Z.lor (Z.lor (u32 (Z.shiftl 0 8)) (u32 (Z.shiftl 0 16)))
             (u32 (Z.shiftl (u8 (s8 (s16 (s16 b - 128)))) 24)))
  = s32 (Z.shiftl (s32 (s32 b - 128)) 24) /\
  [0; u8 (Z.land (s16 (Z.shiftl (s16 (s16 b - 128)) 8)) 0xFF);
      u8 (Z.shiftr (s16 (Z.shiftl (s16 (s16 b - 128)) 8)) 8)]
  = [0; 0; u8 (s8 (s16 (s16 b - 128)))].
Proof.
  intros b Hb.
  pose proof (for_all_u8
    (fun b =>
       (s32 (Z.shiftl (s16 (Z.shiftl (s16 (s16 b - 128)) 8)) 16)
        =? s32 (Z.shiftl (s32 (s32 b - 128)) 24))
       && (s32 (Z.lor (Z.lor (u32 (Z.shiftl 0 8)) (u32 (Z.shiftl 0 16)))
                      (u32 (Z.shiftl (u8 (s8 (s16 (s16 b - 128)))) 24)))
           =? s32 (Z.shiftl (s32 (s32 b - 128)) 24))
       && (u8 (Z.land (s16 (Z.shiftl (s16 (s16 b - 128)) 8)) 0xFF) =? 0)
       && (u8 (Z.shiftr (s16 (Z.shiftl (s16 (s16 b - 128)) 8)) 8)
           =? u8 (s8 (s16 (s16 b - 128)))))
    ltac:(vm_compute; reflexivity) b Hb) as H.
  cbv beta in H. apply andb_true_iff in H. destruct H as [H H4].
  apply andb_true_iff in H. destruct H as [H H3].
  apply andb_true_iff in H. destruct H as [H1 H2].
  apply Z.eqb_eq in H1, H2, H3, H4. rewrite H3, H4. auto.
Qed.

Lemma s16_cell_widening : forall x, is_s16 x = true ->
  s32 (Z.lor (Z.lor (u32 (Z.shiftl 0 8)) (u32 (Z.shiftl (u8 (Z.land x 0xFF)) 16)))
             (u32 (Z.shiftl (u8 (Z.shiftr x 8)) 24)))
  = s32 (Z.shiftl x 16).
Proof.
  intros x Hx. apply is_s16_range in Hx.
  rewrite widen_bytes; try (unfold u8; pow2; zdiv).
  rewrite byte0_of, Z.shiftr_div_pow2, Z.shiftl_mul_pow2 by lia.
  unfold s32, u8. pow2. zdiv.
Qed.

(** Widening conversions compose: converting u8 samples to s32 by way
    of s16 or of s24, or to s24 by way of s16, gives the same buffer as
    the direct conversion, and so does converting s16 samples to s32 by
    way of s24. *)
Theorem pcm_widening_composes :
  (forall src : list Z,
     forallb is_u8 src = true ->
     mal_pcm_s16_to_s32__reference
       (mal_pcm_u8_to_s16__reference src (sample_count src)) (sample_count src)
     = mal_pcm_u8_to_s32__reference src (sample_count src) /\
     mal_pcm_s24_to_s32__reference
       (mal_pcm_u8_to_s24__reference src (sample_count src)) (sample_count src)
     = mal_pcm_u8_to_s32__reference src (sample_count src) /\
     mal_pcm_s16_to_s24__reference
       (mal_pcm_u8_to_s16__reference src (sample_count src)) (sample_count src)
     = mal_pcm_u8_to_s24__reference src (sample_count src)) /\
  (forall src : list Z,
     forallb is_s16 src = true ->
     mal_pcm_s24_to_s32__reference
       (mal_pcm_s16_to_s24__reference src (sample_count src)) (sample_count src)
     = mal_pcm_s16_to_s32__reference src (sample_count src)).
Proof.
  split.
  - intros src Hsrc. repeat split.
    + unfold mal_pcm_s16_to_s32__reference, mal_pcm_u8_to_s16__reference,
        mal_pcm_u8_to_s32__reference.
      rewrite (map_cells Z (fun c => s32 (Z.shiftl (s32 (s32 c - 128)) 24)) src).
      etransitivity;
        [apply (convert_twice Z (fun x => s16 (Z.shiftl (s16 (s16 x - 128)) 8))
                  (fun x => s32 (Z.shiftl x 16)) src)|].
      apply (map_agree Z Z is_u8); [|exact Hsrc].
      intros b Hb. apply (u8_cell_widenings b Hb).
    + unfold mal_pcm_s24_to_s32__reference, mal_pcm_u8_to_s24__reference,
        mal_pcm_u8_to_s32__reference, s24_widen.
      rewrite (map_cells Z (fun c => s32 (Z.shiftl (s32 (s32 c - 128)) 24)) src).
      etransitivity;
        [apply (convert_through_s24 Z (fun _ => 0) (fun _ => 0)
                  (fun x => u8 (s8 (s16 (s16 x - 128))))
                  (fun y0 y1 y2 =>
                     s32 (Z.lor (Z.lor (u32 (Z.shiftl y0 8)) (u32 (Z.shiftl y1 16)))
                                (u32 (Z.shiftl y2 24)))) src)|].
      apply (map_agree Z Z is_u8); [|exact Hsrc].
      intros b Hb. apply (u8_cell_widenings b Hb).
    + unfold mal_pcm_s16_to_s24__reference, mal_pcm_u8_to_s16__reference,
        mal_pcm_u8_to_s24__reference.
      rewrite (flat_map_cells (fun c => [0; 0; u8 (s8 (s16 (s16 c - 128)))]) src).
      etransitivity;
        [apply (flat_convert_twice (fun x => s16 (Z.shiftl (s16 (s16 x - 128)) 8))
                  (fun y => [0; u8 (Z.land y 0xFF); u8 (Z.shiftr y 8)]) src)|].
      apply (flat_map_agree is_u8); [|exact Hsrc].
      intros b Hb. apply (u8_cell_widenings b Hb).
  - intros src Hsrc.
    unfold mal_pcm_s24_to_s32__reference, mal_pcm_s16_to_s24__reference,
      mal_pcm_s16_to_s32__reference, s24_widen.
    rewrite (map_cells Z (fun c => s32 (Z.shiftl c 16)) src).
    etransitivity;
      [apply (convert_through_s24 Z (fun _ => 0) (fun x => u8 (Z.land x 0xFF))
                (fun x => u8 (Z.shiftr x 8))
                (fun y0 y1 y2 =>
                   s32 (Z.lor (Z.lor (u32 (Z.shiftl y0 8)) (u32 (Z.shiftl y1 16)))
                              (u32 (Z.shiftl y2 24)))) src)|].
    apply (map_agree Z Z is_s16); [|exact Hsrc].
    intros x Hx. apply (s16_cell_widening x Hx).
Qed.

Lemma pcm_widening_composes_witness :
  forallb is_u8 some_u8_samples = true /\
  mal_pcm_s16_to_s32__reference (mal_pcm_u8_to_s16__reference some_u8_samples 8) 8
  = mal_pcm_u8_to_s32__reference some_u8_samples 8.
Proof.
  split; [reflexivity|].
  exact (proj1 (proj1 pcm_widening_composes some_u8_samples eq_refl)).
Defined.

Lemma s32_cell_narrowings : forall x, is_s32 x = true ->
  s16_to_u8_cell (s16 (s16 (Z.shiftr x 16))) = u8 (s32 (Z.shiftr x 24 + 128)) /\
  u8 (s8 (s8 (u8 (Z.shiftr (Z.land (u32 x) 0xFF000000) 24)) + 128))
  = u8 (s32 (Z.shiftr x 24 + 128)) /\
  s16 (Z.lor (s16 (u16 (u8 (Z.shiftr (Z.land (u32 x) 0x00FF0000) 16))))
             (u16 (Z.shiftl (u16 (u8 (Z.shiftr (Z.land (u32 x) 0xFF000000) 24))) 8)))
  = s16 (Z.shiftr x 16).
Proof.
  intros x Hx. apply is_s32_range in Hx. repeat split.
  - unfold s16_to_u8_cell, s16, u8, s32. rewrite !Z.shiftr_div_pow2 by lia. pow2. zdiv.
  - rewrite byte3_of, Z.shiftr_div_pow2 by lia. unfold s8, u8, u32, s32. pow2. zdiv.
  - rewrite byte2_of, byte3_of, Z.shiftr_div_pow2 by lia.
    replace (s16 (u16 (u8 ((u32 x / 2 ^ 16) mod 2 ^ 8))))
      with ((u32 x / 2 ^ 16) mod 2 ^ 8) by (unfold s16, u16, u8; pow2; zdiv).
    replace (u16 (Z.shiftl (u16 (u8 ((u32 x / 2 ^ 24) mod 2 ^ 8))) 8))
      with (Z.shiftl ((u32 x / 2 ^ 24) mod 2 ^ 8) 8)
      by (rewrite !Z.shiftl_mul_pow2 by lia; unfold u16, u8; pow2; zdiv).
    rewrite lor_low_shiftl by (pow2; zdiv).
    rewrite Z.shiftl_mul_pow2 by lia. unfold s16, u32. pow2. zdiv.
Qed.

(** Narrowing conversions compose: without dither, converting s32
    samples to u8 by way of s16 or of s24, or to s16 by way of s24,
    gives the same buffer as the direct conversion. *)
Theorem pcm_narrowing_composes :
  forall (src : list Z) (g_malLCG : Z),
    forallb is_s32 src = true ->
    mal_pcm_s16_to_u8__reference
      (fst (mal_pcm_s32_to_s16__reference src (sample_count src)
              mal_dither_mode_none g_malLCG))
      (sample_count src) mal_dither_mode_none g_malLCG
    = mal_pcm_s32_to_u8__reference src (sample_count src) mal_dither_mode_none g_malLCG /\
    mal_pcm_s24_to_u8__reference
      (mal_pcm_s32_to_s24__reference src (sample_count src))
      (sample_count src) mal_dither_mode_none g_malLCG
    = mal_pcm_s32_to_u8__reference src (sample_count src) mal_dither_mode_none g_malLCG /\
    mal_pcm_s24_to_s16__reference
      (mal_pcm_s32_to_s24__reference src (sample_count src))
      (sample_count src) mal_dither_mode_none g_malLCG
    = mal_pcm_s32_to_s16__reference src (sample_count src) mal_dither_mode_none g_malLCG.
Proof.
  intros src g Hsrc. repeat split.
  - unfold mal_pcm_s16_to_u8__reference, mal_pcm_s32_to_s16__reference,
      mal_pcm_s32_to_u8__reference. cbn [fst]. f_equal.
    rewrite (map_cells Z (fun c => u8 (s32 (Z.shiftr c 24 + 128))) src).
    etransitivity;
      [apply (convert_twice Z (fun x => s16 (Z.shiftr x 16))
                (fun x => s16_to_u8_cell (s16 x)) src)|].
    apply (map_agree Z Z is_s32); [|exact Hsrc].
    intros x Hx. apply (s32_cell_narrowings x Hx).
  - unfold mal_pcm_s24_to_u8__reference, mal_pcm_s32_to_s24__reference,
      mal_pcm_s32_to_u8__reference. f_equal.
    rewrite (map_cells Z (fun c => u8 (s32 (Z.shiftr c 24 + 128))) src).
    etransitivity;
      [apply (convert_through_s24 Z
                (fun x => u8 (Z.shiftr (Z.land (u32 x) 0x0000FF00) 8))
                (fun x => u8 (Z.shiftr (Z.land (u32 x) 0x00FF0000) 16))
                (fun x => u8 (Z.shiftr (Z.land (u32 x) 0xFF000000) 24))
                (fun _ _ z => u8 (s8 (s8 z + 128))) src)|].
    apply (map_agree Z Z is_s32); [|exact Hsrc].
    intros x Hx. apply (s32_cell_narrowings x Hx).
  - unfold mal_pcm_s24_to_s16__reference, mal_pcm_s32_to_s24__reference,
      mal_pcm_s32_to_s16__reference. f_equal.
    rewrite (map_cells Z (fun c => s16 (Z.shiftr c 16)) src).
    etransitivity;
      [apply (convert_through_s24 Z
                (fun x => u8 (Z.shiftr (Z.land (u32 x) 0x0000FF00) 8))
                (fun x => u8 (Z.shiftr (Z.land (u32 x) 0x00FF0000) 16))
                (fun x => u8 (Z.shiftr (Z.land (u32 x) 0xFF000000) 24))
                (fun _ y z => s16 (Z.lor (s16 (u16 y)) (u16 (Z.shiftl (u16 z) 8)))) src)|].
    apply (map_agree Z Z is_s32); [|exact Hsrc].
    intros x Hx. apply (s32_cell_narrowings x Hx).
Qed.

Lemma pcm_narrowing_composes_witness :
  forallb is_s32 some_s32_samples = true /\
  mal_pcm_s24_to_u8__reference
    (mal_pcm_s32_to_s24__reference some_s32_samples 10) 10 mal_dither_mode_none 7
  = mal_pcm_s32_to_u8__reference some_s32_samples 10 mal_dither_mode_none 7.
Proof.
  split; [reflexivity|].
  exact (proj1 (proj2 (pcm_narrowing_composes some_s32_samples 7 eq_refl))).
Defined.

Lemma narrow_then_widen_cells :
  (forall x, is_s16 x = true ->
     s16 (Z.shiftl (s16 (s16 (s16_to_u8_cell (s16 x)) - 128)) 8) = x - x mod 2 ^ 8) /\
  (forall x, is_s32 x = true ->
     s32 (Z.shiftl (s16 (Z.shiftr x 16)) 16) = x - x mod 2 ^ 16 /\
     s32 (Z.shiftl (s32 (s32 (u8 (s32 (Z.shiftr x 24 + 128))) - 128)) 24)
     = x - x mod 2 ^ 24 /\
     s32 (Z.lor (Z.lor (u32 (Z.shiftl (u8 (Z.shiftr (Z.land (u32 x) 0x0000FF00) 8)) 8))
                       (u32 (Z.shiftl (u8 (Z.shiftr (Z.land (u32 x) 0x00FF0000) 16)) 16)))
                (u32 (Z.shiftl (u8 (Z.shiftr (Z.land (u32 x) 0xFF000000) 24)) 24)))
     = x - x mod 2 ^ 8).
Proof.
  split.
  - intros x Hx. apply is_s16_range in Hx. unfold s16_to_u8_cell.
    rewrite Z.shiftl_mul_pow2, Z.shiftr_div_pow2 by lia. unfold s16, u8. pow2. zdiv.
  - intros x Hx. apply is_s32_range in Hx. repeat split.
    + rewrite Z.shiftl_mul_pow2, Z.shiftr_div_pow2 by lia. unfold s16, s32. pow2. zdiv.
    + rewrite Z.shiftl_mul_pow2, Z.shiftr_div_pow2 by lia. unfold u8, s32. pow2. zdiv.
    + rewrite byte1_of, byte2_of, byte3_of.
      rewrite widen_bytes; try (unfold u8; pow2; zdiv).
      unfold u8, u32, s32. pow2. zdiv.
Qed.

(** Narrowing and widening again clears the bits the narrow format
    cannot hold: without dither, s16 to u8 to s16 clears the low 8
    bits; s32 to s16 to s32 the low 16 bits, s32 to u8 to s32 the low 24
    bits and s32 to s24 to s32 the low 8 bits. *)
Theorem pcm_narrow_then_widen_truncates :
  (forall (src : list Z) (g_malLCG : Z),
     forallb is_s16 src = true ->
     mal_pcm_u8_to_s16__reference
       (fst (mal_pcm_s16_to_u8__reference src (sample_count src)
               mal_dither_mode_none g_malLCG)) (sample_count src)
     = map (fun x => x - x mod 2 ^ 8) src) /\
  (forall (src : list Z) (g_malLCG : Z),
     forallb is_s32 src = true ->
     mal_pcm_s16_to_s32__reference
       (fst (mal_pcm_s32_to_s16__reference src (sample_count src)
               mal_dither_mode_none g_malLCG)) (sample_count src)
     = map (fun x => x - x mod 2 ^ 16) src /\
     mal_pcm_u8_to_s32__reference
       (fst (mal_pcm_s32_to_u8__reference src (sample_count src)
               mal_dither_mode_none g_malLCG)) (sample_count src)
     = map (fun x => x - x mod 2 ^ 24) src /\
     mal_pcm_s24_to_s32__reference
       (mal_pcm_s32_to_s24__reference src (sample_count src)) (sample_count src)
     = map (fun x => x - x mod 2 ^ 8) src).
Proof.
  destruct narrow_then_widen_cells as [H16 H32]. split.
  - intros src g Hsrc.
    unfold mal_pcm_u8_to_s16__reference, mal_pcm_s16_to_u8__reference. cbn [fst].
    etransitivity;
      [apply (convert_twice Z (fun x => s16_to_u8_cell (s16 x))
                (fun x => s16 (Z.shiftl (s16 (s16 x - 128)) 8)) src)|].
    apply (map_agree Z Z is_s16); [|exact Hsrc]. intros x Hx. apply (H16 x Hx).
  - intros src g Hsrc. repeat split.
    + unfold mal_pcm_s16_to_s32__reference, mal_pcm_s32_to_s16__reference. cbn [fst].
      etransitivity;
        [apply (convert_twice Z (fun x => s16 (Z.shiftr x 16))
                  (fun x => s32 (Z.shiftl x 16)) src)|].
      apply (map_agree Z Z is_s32); [|exact Hsrc]. intros x Hx. apply (H32 x Hx).
    + unfold mal_pcm_u8_to_s32__reference, mal_pcm_s32_to_u8__reference. cbn [fst].
      etransitivity;
        [apply (convert_twice Z (fun x => u8 (s32 (Z.shiftr x 24 + 128)))
                  (fun x => s32 (Z.shiftl (s32 (s32 x - 128)) 24)) src)|].
      apply (map_agree Z Z is_s32); [|exact Hsrc]. intros x Hx. apply (H32 x Hx).
    + unfold mal_pcm_s24_to_s32__reference, mal_pcm_s32_to_s24__reference, s24_widen.
      etransitivity;
        [apply (convert_through_s24 Z
                  (fun x => u8 (Z.shiftr (Z.land (u32 x) 0x0000FF00) 8))
                  (fun x => u8 (Z.shiftr (Z.land (u32 x) 0x00FF0000) 16))
                  (fun x => u8 (Z.shiftr (Z.land (u32 x) 0xFF000000) 24))
                  (fun y0 y1 y2 =>
                     s32 (Z.lor (Z.lor (u32 (Z.shiftl y0 8)) (u32 (Z.shiftl y1 16)))
                                (u32 (Z.shiftl y2 24)))) src)|].
      apply (map_agree Z Z is_s32); [|exact Hsrc]. intros x Hx. apply (H32 x Hx).
Qed.

Lemma pcm_narrow_then_widen_truncates_witness :
  forallb is_s32 some_s32_samples = true /\
  mal_pcm_s24_to_s32__reference (mal_pcm_s32_to_s24__reference some_s32_samples 10) 10
  = map (fun x => x - x mod 2 ^ 8) some_s32_samples.
Proof.
  split; [reflexivity|].
  exact (proj2 (proj2 (proj2 pcm_narrow_then_widen_truncates some_s32_samples 7 eq_refl))).
Defined.

(* ------------------------------------------------------------------ *)
(** ** PCM sample conversion: through f32                              *)
(* ------------------------------------------------------------------ *)

Lemma map_nth_twice :
  forall (A B C : Type) (da : A) (db : B) (f : A -> B) (h : B -> C) (src : list A),
    map (fun i => h (nth i (map (fun i => f (nth i src da)) (seq 0 (length src))) db))
        (seq 0 (length src))
    = map (fun x => h (f x)) src.
Proof.
  intros A B C da db f h src. rewrite (map_nth_seq A B da f src).
  transitivity (map h (map f src)); [|apply map_map].
  rewrite <- (map_nth_seq B C db h (map f src)), length_map. reflexivity.
Qed.

Lemma mal_pcm_f32_to_u8__sample_without_dither : forall a b x g,
  mal_pcm_f32_to_u8__sample mal_dither_mode_none a b x g
  = (fst (mal_pcm_f32_to_u8__sample mal_dither_mode_none a b x 0), g).
Proof. intros a b x g. reflexivity. Qed.

(** Without dither the loop of [mal_pcm_f32_to_u8__reference] converts
    sample by sample and leaves the generator alone. *)
Lemma mal_pcm_f32_to_u8_without_dither : forall (src : list F32.t) (g : Z),
  mal_pcm_f32_to_u8 src mal_dither_mode_none g
  = (map (fun x => fst (mal_pcm_f32_to_u8__sample mal_dither_mode_none
                          (F32.of_Z 0) (F32.of_Z 0) x 0)) src, g).
Proof.
  intros src g. unfold mal_pcm_f32_to_u8, mal_pcm_f32_to_u8__optimized,
    mal_pcm_f32_to_u8__reference.
  assert (G : forall l acc,
            fold_left
              (fun (acc : list Z * Z) (x : F32.t) =>
                 let '(dst, g) := acc in
                 let '(b, g') :=
                   mal_pcm_f32_to_u8__sample mal_dither_mode_none
                     (F32.of_Z 0) (F32.of_Z 0) x g in
                 (dst ++ [b], g')) l (acc, g)
            = (acc ++ map (fun x => fst (mal_pcm_f32_to_u8__sample mal_dither_mode_none
                                           (F32.of_Z 0) (F32.of_Z 0) x 0)) l, g)).
  { induction l as [|x l IH]; intros acc; cbn [fold_left map].
    - rewrite app_nil_r. reflexivity.
    - rewrite (mal_pcm_f32_to_u8__sample_without_dither _ _ x g). cbv beta iota.
      rewrite IH, <- app_assoc. reflexivity. }
  apply (G src []).
Qed.

Lemma u8_through_f32_value : forall b, is_u8 b = true ->
  u8_through_f32 b = if (1 <=? b) && (b <=? 47) then b - 1 else b.
Proof.
  intros b Hb. apply Z.eqb_eq.
  apply (for_all_u8
           (fun b => u8_through_f32 b =? (if (1 <=? b) && (b <=? 47) then b - 1 else b))
           ltac:(vm_compute; reflexivity) b Hb).
Qed.

(** Round trip of u8 through f32: converting u8 samples to f32 and back
    without dither returns the samples 0 and 48 to 255 unchanged and
    the samples 1 to 47 lowered by one. *)
Theorem pcm_u8_f32_round_trip :
  forall (src : list Z) (g_malLCG : Z),
    forallb is_u8 src = true ->
    mal_pcm_f32_to_u8
      (mal_pcm_u8_to_f32__reference src (sample_count src)) mal_dither_mode_none g_malLCG
    = (map (fun b => if (1 <=? b) && (b <=? 47) then b - 1 else b) src, g_malLCG).
Proof.
  intros src g Hsrc. rewrite mal_pcm_f32_to_u8_without_dither. f_equal.
  unfold mal_pcm_u8_to_f32__reference.
  rewrite (map_cells F32.t
             (fun c => F32.sub (F32.mul (F32.of_Z c) u8_to_f32_scale) (F32.of_Z 1)) src).
  rewrite map_map. apply (map_agree Z Z is_u8); [|exact Hsrc].
  intros b Hb. apply (u8_through_f32_value b Hb).
Qed.

Lemma pcm_u8_f32_round_trip_witness :
  forallb is_u8 some_u8_samples = true /\
  mal_pcm_f32_to_u8 (mal_pcm_u8_to_f32__reference some_u8_samples 8) mal_dither_mode_none 7
  = ([0; 0; 46; 48; 127; 128; 200; 255], 7).
Proof.
  split; [reflexivity|].
  exact (pcm_u8_f32_round_trip some_u8_samples 7 eq_refl).
Defined.

Lemma s16_through_f32_checked :
  forallb (fun x => s16_through_f32 x =? x - Z.sgn x)
          (zrange (Z.to_nat 65536) (-32768)) = true.
Proof. vm_cast_no_check (@eq_refl bool true). Qed.

(** Round trip of s16 through f32: converting s16 samples to f32 and
    back without dither moves every sample other than 0 one step
    towards 0 (the way back scales by 32767, the way there by 1/32768). *)
Theorem pcm_s16_f32_round_trip :
  forall (src : list Z) (g_malLCG : Z),
    forallb is_s16 src = true ->
    mal_pcm_f32_to_s16__reference
      (mal_pcm_s16_to_f32__reference src (sample_count src)) (sample_count src)
      mal_dither_mode_none g_malLCG
    = (map (fun x => x - Z.sgn x) src, g_malLCG).
Proof.
  intros src g Hsrc. unfold mal_pcm_f32_to_s16__reference.
  rewrite (for_each_sample_pure Z (sample_count src)
             (fun i => f32_to_s16_cell
                         (F32.add (nth i (mal_pcm_s16_to_f32__reference src (sample_count src))
                                       F32.zero) (F32.of_Z 0))))
    by (intros i g'; reflexivity).
  f_equal. unfold mal_pcm_s16_to_f32__reference, cell. rewrite range_sample_count.
  etransitivity;
    [apply (map_nth_twice Z F32.t Z 0 F32.zero
              (fun c => F32.mul (F32.of_Z c) (F32.of_dyadic 1 (-15)))
              (fun y => f32_to_s16_cell (F32.add y (F32.of_Z 0))) src)|].
  apply (map_agree Z Z is_s16); [|exact Hsrc].
  intros x Hx. apply Z.eqb_eq.
  exact (for_all_s16 _ s16_through_f32_checked x Hx).
Qed.

Lemma pcm_s16_f32_round_trip_witness :
  forallb is_s16 some_s16_samples = true /\
  mal_pcm_f32_to_s16__reference
    (mal_pcm_s16_to_f32__reference some_s16_samples 9) 9 mal_dither_mode_none 7
  = ([-32767; -32766; -255; 0; 0; 0; 254; 255; 32766], 7).
Proof.
  split; [reflexivity|].
  exact (pcm_s16_f32_round_trip some_s16_samples 7 eq_refl).
Defined.

(* ------------------------------------------------------------------ *)
(** ** f32 to s16: the unrolled loop                                   *)
(* ------------------------------------------------------------------ *)

Section UnrolledLoop.
Variable src : list F32.t.
Variable ditherMode : mal_dither_mode.

(** One trip of the loop of [mal_pcm_f32_to_s16__reference]. *)
Let step (acc : list Z * Z) (i : nat) : list Z * Z :=
  let '(dst, g) := acc in
  let '(y, g') :=
    (let x := nth i src F32.zero in
     let '(d, g') := mal_dither_f32 ditherMode (f32_to_s16_ditherMin ditherMode)
                       (f32_to_s16_ditherMax ditherMode) g in
     let x := F32.add x d in
     (f32_to_s16_cell x, g')) in
  (dst ++ [y], g').

(** One trip of the loop for the samples left over by the unrolled
    loop. *)
Let step_leftover (acc : list Z * Z) (i : nat) : list Z * Z :=
  let '(dst, g) := acc in
  let x := nth i src F32.zero in
  let '(d, g') := mal_dither_f32 ditherMode (f32_to_s16_ditherMin ditherMode)
                    (f32_to_s16_ditherMax ditherMode) g in
  let x := F32.add x d in
  (dst ++ [f32_to_s16_cell x], g').

Lemma step_leftover_is_step : forall acc i, step_leftover acc i = step acc i.
Proof.
  intros [dst g] i. unfold step_leftover, step.
  destruct (mal_dither_f32 ditherMode (f32_to_s16_ditherMin ditherMode)
              (f32_to_s16_ditherMax ditherMode) g) as [d g']. reflexivity.
Qed.

Lemma fold_left_same : forall (f h : list Z * Z -> nat -> list Z * Z) l acc,
  (forall a i, f a i = h a i) -> fold_left f l acc = fold_left h l acc.
Proof.
  intros f h l. induction l as [|i l IH]; intros acc H; [reflexivity|].
  cbn [fold_left]. rewrite H. apply IH. exact H.
Qed.

Lemma f32_to_s16_group_is_four_trips : forall acc i4,
  f32_to_s16_group src ditherMode acc i4 = fold_left step (seq (i4 * 4) 4) acc.
Proof.
  intros [dst g] i4. unfold f32_to_s16_group. cbn [seq fold_left]. unfold step.
  rewrite Nat.add_0_r.
  replace (i4 * 4 + 1)%nat with (Datatypes.S (i4 * 4)) by lia.
  replace (i4 * 4 + 2)%nat with (Datatypes.S (Datatypes.S (i4 * 4))) by lia.
  replace (i4 * 4 + 3)%nat with (Datatypes.S (Datatypes.S (Datatypes.S (i4 * 4)))) by lia.
  destruct (mal_dither_f32 ditherMode (f32_to_s16_ditherMin ditherMode)
              (f32_to_s16_ditherMax ditherMode) g) as [d0 g0].
  destruct (mal_dither_f32 ditherMode (f32_to_s16_ditherMin ditherMode)
              (f32_to_s16_ditherMax ditherMode) g0) as [d1 g1].
  destruct (mal_dither_f32 ditherMode (f32_to_s16_ditherMin ditherMode)
              (f32_to_s16_ditherMax ditherMode) g1) as [d2 g2].
  destruct (mal_dither_f32 ditherMode (f32_to_s16_ditherMin ditherMode)
              (f32_to_s16_ditherMax ditherMode) g2) as [d3 g3].
  rewrite <- !app_assoc. reflexivity.
Qed.

Lemma f32_to_s16_groups : forall c4 acc,
  fold_left (f32_to_s16_group src ditherMode) (seq 0 c4) acc
  = fold_left step (seq 0 (c4 * 4)) acc.
Proof.
  induction c4 as [|c4 IH]; intros acc; [reflexivity|].
  rewrite seq_S, fold_left_app, IH. cbn [fold_left Nat.add].
  rewrite f32_to_s16_group_is_four_trips.
  replace (Datatypes.S c4 * 4)%nat with (c4 * 4 + 4)%nat by lia.
  rewrite seq_app, fold_left_app. reflexivity.
Qed.

Lemma fold_left_seq_offset : forall (s n : nat) (acc : list Z * Z),
  fold_left (fun acc k => step acc (s + k)%nat) (seq 0 n) acc
  = fold_left step (seq s n) acc.
Proof.
  intros s n. induction n as [|n IH]; intros acc; [reflexivity|].
  rewrite !seq_S, !fold_left_app, IH. reflexivity.
Qed.

Lemma f32_to_s16_unrolled : forall count g,
  0 <= count ->
  mal_pcm_f32_to_s16__optimized src count ditherMode g
  = mal_pcm_f32_to_s16__reference src count ditherMode g.
Proof.
  intros count g Hc.
  unfold mal_pcm_f32_to_s16__optimized, mal_pcm_f32_to_s16__reference, for_each_sample.
  unfold range. rewrite f32_to_s16_groups.
  change (fold_left
            (fun (acc : list Z * Z) (k : nat) =>
               step_leftover acc (Z.to_nat (Z.shiftr count 2 * 4) + k)%nat)
            (seq 0 (Z.to_nat (count - Z.shiftr count 2 * 4)))
            (fold_left step (seq 0 (Z.to_nat (Z.shiftr count 2) * 4)) ([], g))
          = fold_left step (seq 0 (Z.to_nat count)) ([], g)).
  rewrite (fold_left_same _ (fun acc k => step acc (Z.to_nat (Z.shiftr count 2 * 4) + k)%nat))
    by (intros a i; apply step_leftover_is_step).
  rewrite fold_left_seq_offset, <- fold_left_app.
  rewrite Z.shiftr_div_pow2 by lia. change (2 ^ 2) with 4.
  replace (Z.to_nat (count / 4 * 4)) with (Z.to_nat (count / 4) * 4)%nat by zdiv.
  rewrite <- seq_app. f_equal. f_equal. zdiv.
Qed.
End UnrolledLoop.

(** The unrolled loop of [mal_pcm_f32_to_s16__optimized] writes the
    same samples as the reference loop and leaves the random number
    generator in the same state, for every buffer, sample count and
    dither mode. *)
Theorem pcm_f32_to_s16_optimized_is_reference :
  forall (src : list F32.t) (count : Z) (ditherMode : mal_dither_mode) (g_malLCG : Z),
    0 <= count ->
    mal_pcm_f32_to_s16 src count ditherMode g_malLCG
    = mal_pcm_f32_to_s16__reference src count ditherMode g_malLCG.
Proof.
  intros src count ditherMode g Hc. apply f32_to_s16_unrolled. exact Hc.
Qed.

Lemma pcm_f32_to_s16_optimized_is_reference_witness :
  0 <= 6 /\
  mal_pcm_f32_to_s16 some_f32_samples 6 mal_dither_mode_triangle 1
  = mal_pcm_f32_to_s16__reference some_f32_samples 6 mal_dither_mode_triangle 1.
Proof.
  split; [lia|].
  apply (pcm_f32_to_s16_optimized_is_reference some_f32_samples 6
           mal_dither_mode_triangle 1).
  lia.
Defined.

(* ------------------------------------------------------------------ *)
(** ** Clipping                                                        *)
(* ------------------------------------------------------------------ *)

(** A sample at or above +1 is clipped to +1, a sample at or below -1
    to -1; adding the zero dither of [mal_dither_mode_none] does not
    change such a sample. *)
Lemma clip_f32_high : forall x, F32.leb (F32.of_Z 1) x = true ->
  F32.add x (F32.of_Z 0) = x /\ clip_f32 x = F32.of_Z 1.
Proof.
  intros x H. unfold clip_f32, F32.leb, F32.ltb, F32.gtb, F32.add, SFleb, SFltb in *.
  change (F32.of_Z 1) with (S754_finite false 8388608 (-23)) in *.
  change (F32.of_Z (-1)) with (S754_finite true 8388608 (-23)).
  change (F32.of_Z 0) with (S754_zero false).
  destruct x as [s|s| |s m e]; try discriminate.
  - destruct s; [discriminate|]. split; reflexivity.
  - destruct s; [discriminate|]. split; [reflexivity|].
    unfold SFcompare in *.
    destruct (Z.compare (-23) e) eqn:Ee; try discriminate; try reflexivity.
    destruct (Pos.compare_cont Eq 8388608 m) eqn:Em; try discriminate; try reflexivity.
    apply Z.compare_eq in Ee. apply Pos.compare_eq in Em. subst. reflexivity.
Qed.

Lemma clip_f32_low : forall x, F32.leb x (F32.of_Z (-1)) = true ->
  F32.add x (F32.of_Z 0) = x /\ clip_f32 x = F32.of_Z (-1).
Proof.
  intros x H. unfold clip_f32, F32.leb, F32.ltb, F32.gtb, F32.add, SFleb, SFltb in *.
  change (F32.of_Z 1) with (S754_finite false 8388608 (-23)).
  change (F32.of_Z (-1)) with (S754_finite true 8388608 (-23)) in *.
  change (F32.of_Z 0) with (S754_zero false).
  destruct x as [s|s| |s m e]; try discriminate.
  - destruct s; [|discriminate]. split; reflexivity.
  - destruct s; [|discriminate]. split; [reflexivity|].
    unfold SFcompare in *.
    destruct (Z.compare e (-23)) eqn:Ee; try discriminate; try reflexivity.
    destruct (Pos.compare_cont Eq m 8388608) eqn:Em; try discriminate; try reflexivity.
    apply Z.compare_eq in Ee. apply Pos.compare_eq in Em. subst. reflexivity.
Qed.

Lemma f32_cells_beyond_full_scale : forall x,
  (F32.leb (F32.of_Z 1) x = true ->
   fst (mal_pcm_f32_to_u8__sample mal_dither_mode_none (F32.of_Z 0) (F32.of_Z 0) x 0) = 255 /\
   f32_to_s16_cell (F32.add x (F32.of_Z 0)) = 32767) /\
  (F32.leb x (F32.of_Z (-1)) = true ->
   fst (mal_pcm_f32_to_u8__sample mal_dither_mode_none (F32.of_Z 0) (F32.of_Z 0) x 0) = 0 /\
   f32_to_s16_cell (F32.add x (F32.of_Z 0)) = -32767).
Proof.
  intros x. split; intros H.
  - destruct (clip_f32_high x H) as [Ha Hc]. split.
    + change (u8 (F32.to_Z (F32.mul (F32.add (clip_f32 (F32.add x (F32.of_Z 0))) (F32.of_Z 1))
                                    (F32.of_ratio 1275 10))) = 255).
      rewrite Ha, Hc. reflexivity.
    + unfold f32_to_s16_cell. rewrite Ha, Hc. reflexivity.
  - destruct (clip_f32_low x H) as [Ha Hc]. split.
    + change (u8 (F32.to_Z (F32.mul (F32.add (clip_f32 (F32.add x (F32.of_Z 0))) (F32.of_Z 1))
                                    (F32.of_ratio 1275 10))) = 0).
      rewrite Ha, Hc. reflexivity.
    + unfold f32_to_s16_cell. rewrite Ha, Hc. reflexivity.
Qed.

(** Samples beyond full scale saturate: without dither, a buffer whose
    samples are all at or above +1.0 converts to the largest value of
    the target format (255 for u8, 32767 for s16, 8388607 for s24), and
    a buffer whose samples are all at or below -1.0 to 0 for u8, -32767
    for s16 and -8388607 for s24; nothing wraps around. *)
Theorem pcm_f32_beyond_full_scale_saturates :
  forall (src : list F32.t) (g_malLCG : Z),
    (forallb (fun x => F32.leb (F32.of_Z 1) x) src = true ->
     mal_pcm_f32_to_u8 src mal_dither_mode_none g_malLCG
     = (map (fun _ => 255) src, g_malLCG) /\
     mal_pcm_f32_to_s16 src (sample_count src) mal_dither_mode_none g_malLCG
     = (map (fun _ => 32767) src, g_malLCG) /\
     mal_pcm_f32_to_s24__reference src (sample_count src)
     = flat_map (fun _ => [255; 255; 127]) src) /\
    (forallb (fun x => F32.leb x (F32.of_Z (-1))) src = true ->
     mal_pcm_f32_to_u8 src mal_dither_mode_none g_malLCG
     = (map (fun _ => 0) src, g_malLCG) /\
     mal_pcm_f32_to_s16 src (sample_count src) mal_dither_mode_none g_malLCG
     = (map (fun _ => -32767) src, g_malLCG) /\
     mal_pcm_f32_to_s24__reference src (sample_count src)
     = flat_map (fun _ => [1; 0; 128]) src).
Proof.
  intros src g.
  assert (S16 : mal_pcm_f32_to_s16 src (sample_count src) mal_dither_mode_none g
                = (map (fun x => f32_to_s16_cell (F32.add x (F32.of_Z 0))) src, g)).
  { unfold mal_pcm_f32_to_s16.
    rewrite f32_to_s16_unrolled by (unfold sample_count; lia).
    unfold mal_pcm_f32_to_s16__reference.
    rewrite (for_each_sample_pure Z (sample_count src)
               (fun i => f32_to_s16_cell (F32.add (nth i src F32.zero) (F32.of_Z 0))))
      by (intros i g'; reflexivity).
    rewrite range_sample_count.
    rewrite (map_nth_seq F32.t Z F32.zero
               (fun x => f32_to_s16_cell (F32.add x (F32.of_Z 0))) src). reflexivity. }
  assert (S24 : mal_pcm_f32_to_s24__reference src (sample_count src)
                = flat_map (fun x =>
                              let r := s32 (F32.to_Z (F32.mul (clip_f32 x) (F32.of_Z 8388607))) in
                              [u8 (Z.shiftr (Z.land r 0x0000FF) 0);
                               u8 (Z.shiftr (Z.land r 0x00FF00) 8);
                               u8 (Z.shiftr (Z.land r 0xFF0000) 16)]) src).
  { unfold mal_pcm_f32_to_s24__reference. rewrite range_sample_count.
    rewrite !flat_map_concat_map. f_equal.
    apply (map_nth_seq F32.t (list Z) F32.zero
             (fun x =>
                let r := s32 (F32.to_Z (F32.mul (clip_f32 x) (F32.of_Z 8388607))) in
                [u8 (Z.shiftr (Z.land r 0x0000FF) 0);
                 u8 (Z.shiftr (Z.land r 0x00FF00) 8);
                 u8 (Z.shiftr (Z.land r 0xFF0000) 16)]) src). }
  rewrite mal_pcm_f32_to_u8_without_dither, S16, S24. split; intros H.
  - repeat split.
    + f_equal. apply (map_agree _ _ (fun x => F32.leb (F32.of_Z 1) x)); [|exact H].
      intros x Hx. apply (proj1 (f32_cells_beyond_full_scale x) Hx).
    + f_equal. apply (map_agree _ _ (fun x => F32.leb (F32.of_Z 1) x)); [|exact H].
      intros x Hx. apply (proj1 (f32_cells_beyond_full_scale x) Hx).
    + rewrite !flat_map_concat_map. f_equal.
      apply (map_agree _ _ (fun x => F32.leb (F32.of_Z 1) x)); [|exact H].
      intros x Hx. cbv zeta. rewrite (proj2 (clip_f32_high x Hx)). reflexivity.
  - repeat split.
    + f_equal. apply (map_agree _ _ (fun x => F32.leb x (F32.of_Z (-1)))); [|exact H].
      intros x Hx. apply (proj2 (f32_cells_beyond_full_scale x) Hx).
    + f_equal. apply (map_agree _ _ (fun x => F32.leb x (F32.of_Z (-1)))); [|exact H].
      intros x Hx. apply (proj2 (f32_cells_beyond_full_scale x) Hx).
    + rewrite !flat_map_concat_map. f_equal.
      apply (map_agree _ _ (fun x => F32.leb x (F32.of_Z (-1)))); [|exact H].
      intros x Hx. cbv zeta. rewrite (proj2 (clip_f32_low x Hx)). reflexivity.
Qed.

Lemma pcm_f32_beyond_full_scale_saturates_witness :
  forallb (fun x => F32.leb (F32.of_Z 1) x) loud_f32_samples = true /\
  mal_pcm_f32_to_s16 loud_f32_samples 3 mal_dither_mode_none 7 = ([32767; 32767; 32767], 7).
Proof.
  split; [reflexivity|].
  exact (proj1 (proj2 (proj1 (pcm_f32_beyond_full_scale_saturates loud_f32_samples 7)
                         eq_refl))).
Defined.

Lemma u8_as_f32_increasing_checked :
  forallb (fun a =>
             let fa := u8_as_f32 a in
             forallb (fun b => if a <? b then F32.ltb fa (u8_as_f32 b) else true)
                     (zrange (Z.to_nat 256) 0))
          (zrange (Z.to_nat 256) 0) = true.
Proof. vm_cast_no_check (@eq_refl bool true). Qed.

(** The f32 value of a u8 sample: 0 becomes exactly -1.0, 255 exactly
    +1.0, and a larger sample always becomes a strictly larger value;
    the midpoint 128 does not become 0.0. *)
Theorem pcm_u8_to_f32_is_increasing :
  u8_as_f32 0 = F32.of_Z (-1) /\
  u8_as_f32 255 = F32.of_Z 1 /\
  F32.ltb (F32.of_Z 0) (u8_as_f32 128) = true /\
  (forall a b, is_u8 a = true -> is_u8 b = true -> a < b ->
     F32.ltb (u8_as_f32 a) (u8_as_f32 b) = true) /\
  (forall (src : list Z),
     mal_pcm_u8_to_f32__reference src (sample_count src) = map u8_as_f32 src).
Proof.
  split; [reflexivity|]. split; [reflexivity|]. split; [reflexivity|]. split.
  - intros a b Ha Hb Hab.
    pose proof (for_all_u8 _ u8_as_f32_increasing_checked a Ha) as H. cbv beta zeta in H.
    pose proof (for_all_u8 _ H b Hb) as H'. cbv beta in H'.
    replace (a <? b) with true in H' by (symmetry; apply Z.ltb_lt; exact Hab).
    exact H'.
  - intros src. unfold mal_pcm_u8_to_f32__reference.
    apply (map_cells F32.t
             (fun c => F32.sub (F32.mul (F32.of_Z c) u8_to_f32_scale) (F32.of_Z 1)) src).
Qed.

Lemma pcm_u8_to_f32_is_increasing_witness :
  is_u8 47 = true /\ is_u8 48 = true /\ 47 < 48 /\
  F32.ltb (u8_as_f32 47) (u8_as_f32 48) = true.
Proof.
  split; [reflexivity|]. split; [reflexivity|]. split; [lia|].
  apply (proj1 (proj2 (proj2 (proj2 pcm_u8_to_f32_is_increasing))) 47 48);
    [reflexivity | reflexivity | lia].
Defined.

(* ------------------------------------------------------------------ *)
(** ** Interleaving and deinterleaving                                 *)
(* ------------------------------------------------------------------ *)

Lemma length_array_set : forall (A : Type) (a : list A) i v,
  length (array_set a i v) = length a.
Proof.
  intros A a. induction a as [|x a IH]; intros [|i] v; cbn; try reflexivity.
  f_equal. apply IH.
Qed.

Lemma nth_array_set_eq : forall (A : Type) (a : list A) i v d,
  (i < length a)%nat -> nth i (array_set a i v) d = v.
Proof.
  intros A a. induction a as [|x a IH]; intros [|i] v d H; cbn in *; try lia.
  - reflexivity.
  - apply IH. lia.
Qed.

Lemma nth_array_set_neq : forall (A : Type) (a : list A) i k v d,
  i <> k -> nth k (array_set a i v) d = nth k a d.
Proof.
  intros A a. induction a as [|x a IH]; intros [|i] [|k] v d H; cbn; try reflexivity.
  - contradiction.
  - apply IH. lia.
Qed.

Section Interleave.
Context {A : Type}.
Variable d : A.
Variable src : list (list A).
Variable C : nat.

Let val (f c : nat) : A := nth f (nth c src []) d.

(** The inner loop over the channels of frame [f]. *)
Lemma interleave_frame : forall n f (dst : list A),
  (f * C + n <= length dst)%nat ->
  let r := fold_left (fun dst c => array_set dst (f * C + c) (val f c)) (seq 0 n) dst in
  length r = length dst /\
  forall k, nth k r d
            = if (f * C <=? k)%nat && (k <? f * C + n)%nat then val f (k - f * C)
              else nth k dst d.
Proof.
  induction n as [|n IH]; intros f dst Hlen; cbn zeta.
  - split; [reflexivity|]. intros k.
    destruct (f * C <=? k)%nat eqn:E1; destruct (k <? f * C + 0)%nat eqn:E2;
      try reflexivity.
    apply Nat.leb_le in E1. apply Nat.ltb_lt in E2. lia.
  - rewrite seq_S, fold_left_app. cbn [fold_left Nat.add].
    destruct (IH f dst ltac:(lia)) as [Hl Hn]. cbn zeta in Hl, Hn.
    split; [rewrite length_array_set; exact Hl|].
    intros k. destruct (Nat.eq_dec (f * C + n) k) as [<-|Hne].
    + rewrite nth_array_set_eq by (rewrite Hl; lia).
      replace (f * C <=? f * C + n)%nat with true by (symmetry; apply Nat.leb_le; lia).
      replace (f * C + n <? f * C + Datatypes.S n)%nat with true
        by (symmetry; apply Nat.ltb_lt; lia).
      cbn [andb]. f_equal. lia.
    + rewrite nth_array_set_neq by exact Hne. rewrite Hn.
      destruct (f * C <=? k)%nat eqn:E1; cbn [andb]; [|reflexivity].
      apply Nat.leb_le in E1.
      destruct (k <? f * C + n)%nat eqn:E2.
      * replace (k <? f * C + Datatypes.S n)%nat with true
          by (symmetry; apply Nat.ltb_lt; apply Nat.ltb_lt in E2; lia). reflexivity.
      * replace (k <? f * C + Datatypes.S n)%nat with false
          by (symmetry; apply Nat.ltb_ge; apply Nat.ltb_ge in E2; lia). reflexivity.
Qed.

(** The outer loop over the frames. *)
Lemma interleave_frames : forall F (dst : list A),
  (F * C <= length dst)%nat ->
  let r := fold_left
             (fun dst f => fold_left (fun dst c => array_set dst (f * C + c) (val f c))
                                     (seq 0 C) dst)
             (seq 0 F) dst in
  length r = length dst /\
  (forall f c, (f < F)%nat -> (c < C)%nat -> nth (f * C + c) r d = val f c) /\
  (forall k, (F * C <= k)%nat -> nth k r d = nth k dst d).
Proof.
  induction F as [|F IH]; intros dst Hlen; cbn zeta.
  - split; [reflexivity|]. split; [intros; lia|]. reflexivity.
  - rewrite seq_S, fold_left_app. cbn [fold_left Nat.add].
    destruct (IH dst ltac:(lia)) as [Hl [Hin Hout]]. cbn zeta in Hl, Hin, Hout.
    set (prev := fold_left _ (seq 0 F) dst) in *.
    destruct (interleave_frame C F prev ltac:(rewrite Hl; lia)) as [Hl' Hn].
    cbn zeta in Hl', Hn. split; [rewrite Hl'; exact Hl|]. split.
    + intros f c Hf Hc. rewrite Hn.
      destruct (Nat.eq_dec f F) as [->|Hne].
      * replace (F * C <=? F * C + c)%nat with true by (symmetry; apply Nat.leb_le; lia).
        replace (F * C + c <? F * C + C)%nat with true by (symmetry; apply Nat.ltb_lt; lia).
        cbn [andb]. f_equal. lia.
      * replace (F * C <=? f * C + c)%nat with false
          by (symmetry; apply Nat.leb_gt; nia).
        cbn [andb]. apply Hin; lia.
    + intros k Hk. rewrite Hn.
      replace (k <? F * C + C)%nat with false by (symmetry; apply Nat.ltb_ge; lia).
      rewrite andb_false_r. apply Hout. lia.
Qed.
End Interleave.

(** Stores into an array of arrays. *)
Lemma rows_set_length : forall (A : Type) (a : list (list A)) i j v c,
  length (array_set a i (array_set (nth i a []) j v)) = length a /\
  length (nth c (array_set a i (array_set (nth i a []) j v)) []) = length (nth c a []).
Proof.
  intros A a i j v c. split; [apply length_array_set|].
  destruct (Nat.eq_dec i c) as [<-|Hne].
  - destruct (Nat.lt_ge_cases i (length a)) as [Hi|Hi].
    + rewrite nth_array_set_eq by exact Hi. apply length_array_set.
    + rewrite (nth_overflow a) by exact Hi.
      rewrite nth_overflow by (rewrite length_array_set; exact Hi). reflexivity.
  - rewrite nth_array_set_neq by exact Hne. reflexivity.
Qed.

Lemma rows_set_nth : forall (A : Type) (a : list (list A)) i j v c k d,
  (i < length a)%nat -> (j < length (nth i a []))%nat ->
  nth k (nth c (array_set a i (array_set (nth i a []) j v)) []) d
  = if (c =? i)%nat && (k =? j)%nat then v else nth k (nth c a []) d.
Proof.
  intros A a i j v c k d Hi Hj. destruct (Nat.eqb_spec c i) as [->|Hne]; cbn [andb].
  - rewrite nth_array_set_eq by exact Hi.
    destruct (Nat.eqb_spec k j) as [->|Hne].
    + apply nth_array_set_eq. exact Hj.
    + apply nth_array_set_neq. lia.
  - rewrite nth_array_set_neq by lia. reflexivity.
Qed.

Lemma rows_ext : forall (A : Type) (d : A) (a b : list (list A)),
  length a = length b ->
  (forall c, length (nth c a []) = length (nth c b [])) ->
  (forall c k, (c < length a)%nat -> (k < length (nth c a []))%nat ->
     nth k (nth c a []) d = nth k (nth c b []) d) ->
  a = b.
Proof.
  intros A d a b Hl Hr Hn. apply (nth_ext a b [] [] Hl). intros c Hc.
  apply (nth_ext _ _ d d (Hr c)). intros k Hk. apply Hn; assumption.
Qed.

Section Deinterleave.
Context {A : Type}.
Variable d : A.
Variable src : list A.
Variable C : nat.

Let store (dst : list (list A)) (f c : nat) : list (list A) :=
  array_set dst c (array_set (nth c dst []) f (nth (f * C + c) src d)).

Lemma deinterleave_frame : forall n f (dst : list (list A)),
  (n <= length dst)%nat ->
  (forall c, (c < n)%nat -> (f < length (nth c dst []))%nat) ->
  let r := fold_left (fun dst c => store dst f c) (seq 0 n) dst in
  length r = length dst /\
  (forall c, length (nth c r []) = length (nth c dst [])) /\
  forall c k, nth k (nth c r []) d
              = if (c <? n)%nat && (k =? f)%nat then nth (f * C + c) src d
                else nth k (nth c dst []) d.
Proof.
  induction n as [|n IH]; intros f dst Hlen Hrows; cbn zeta.
  - repeat split; reflexivity.
  - rewrite seq_S, fold_left_app. cbn [fold_left Nat.add].
    destruct (IH f dst ltac:(lia) ltac:(intros; apply Hrows; lia)) as [Hl [Hr Hn]].
    cbn zeta in Hl, Hr, Hn. set (prev := fold_left _ (seq 0 n) dst) in *.
    change (store prev f n)
      with (array_set prev n (array_set (nth n prev []) f (nth (f * C + n) src d))).
    split; [rewrite (proj1 (rows_set_length A prev n f _ 0%nat)); exact Hl|].
    split; [intros c; rewrite (proj2 (rows_set_length A prev n f _ c)); apply Hr|].
    intros c k.
    rewrite rows_set_nth by (rewrite ?Hr, ?Hl; try apply Hrows; lia).
    rewrite Hn. destruct (Nat.eqb_spec c n) as [->|Hne]; cbn [andb].
    + replace (n <? Datatypes.S n)%nat with true by (symmetry; apply Nat.ltb_lt; lia).
      replace (n <? n)%nat with false by (symmetry; apply Nat.ltb_ge; lia).
      cbn [andb]. destruct (k =? f)%nat; reflexivity.
    + destruct (c <? n)%nat eqn:E.
      * replace (c <? Datatypes.S n)%nat with true
          by (symmetry; apply Nat.ltb_lt; apply Nat.ltb_lt in E; lia). reflexivity.
      * replace (c <? Datatypes.S n)%nat with false
          by (symmetry; apply Nat.ltb_ge; apply Nat.ltb_ge in E; lia). reflexivity.
Qed.

Lemma deinterleave_frames : forall F (dst : list (list A)),
  (C <= length dst)%nat ->
  (forall c, (c < C)%nat -> (F <= length (nth c dst []))%nat) ->
  let r := fold_left (fun dst f => fold_left (fun dst c => store dst f c) (seq 0 C) dst)
                     (seq 0 F) dst in
  length r = length dst /\
  (forall c, length (nth c r []) = length (nth c dst [])) /\
  forall c k, nth k (nth c r []) d
              = if (c <? C)%nat && (k <? F)%nat then nth (k * C + c) src d
                else nth k (nth c dst []) d.
Proof.
  induction F as [|F IH]; intros dst Hlen Hrows; cbn zeta.
  - repeat split; try reflexivity. intros c k. rewrite andb_false_r. reflexivity.
  - rewrite seq_S, fold_left_app. cbn [fold_left Nat.add].
    destruct (IH dst Hlen ltac:(intros c Hc; specialize (Hrows c Hc); lia))
      as [Hl [Hr Hn]].
    cbn zeta in Hl, Hr, Hn. set (prev := fold_left _ (seq 0 F) dst) in *.
    destruct (deinterleave_frame C F prev ltac:(rewrite Hl; exact Hlen)
                ltac:(intros c Hc; rewrite Hr; specialize (Hrows c Hc); lia))
      as [Hl' [Hr' Hn']].
    cbn zeta in Hl', Hr', Hn'.
    split; [rewrite Hl'; exact Hl|]. split; [intros c; rewrite Hr'; apply Hr|].
    intros c k. rewrite Hn', Hn. destruct (c <? C)%nat; cbn [andb]; [|reflexivity].
    destruct (Nat.eqb_spec k F) as [->|Hne].
    + replace (F <? Datatypes.S F)%nat with true by (symmetry; apply Nat.ltb_lt; lia).
      reflexivity.
    + destruct (k <? F)%nat eqn:E.
      * replace (k <? Datatypes.S F)%nat with true
          by (symmetry; apply Nat.ltb_lt; apply Nat.ltb_lt in E; lia). reflexivity.
      * replace (k <? Datatypes.S F)%nat with false
          by (symmetry; apply Nat.ltb_ge; apply Nat.ltb_ge in E; lia). reflexivity.
Qed.
End Deinterleave.

Lemma is_deinterleaved_rows : forall (A : Type) F C (b : list (list A)),
  is_deinterleaved F C b ->
  length b = Z.to_nat C /\
  forall c, (c < Z.to_nat C)%nat -> length (nth c b []) = Z.to_nat F.
Proof.
  intros A F C b [Hl Hr]. split; [exact Hl|]. intros c Hc.
  rewrite Forall_forall in Hr. apply Hr. apply nth_In. lia.
Qed.

(** Round trip: interleaving [channels] channels of [frameCount] cells
    into a buffer of [frameCount * channels] cells and deinterleaving
    that buffer into buffers of the same shape gives the channels
    back, whatever the two destination buffers held before. *)
Theorem pcm_deinterleave_after_interleave :
  forall (A : Type) (d : A) (src dstD : list (list A)) (dstI : list A)
         (frameCount channels : Z),
    is_deinterleaved frameCount channels src ->
    is_deinterleaved frameCount channels dstD ->
    length dstI = (Z.to_nat frameCount * Z.to_nat channels)%nat ->
    mal_pcm_deinterleave__reference d dstD
      (mal_pcm_interleave__reference d dstI src frameCount channels)
      frameCount channels = src.
Proof.
  intros A d src dstD dstI F C Hsrc HdstD HdstI.
  destruct (is_deinterleaved_rows A F C src Hsrc) as [Hs1 Hs2].
  destruct (is_deinterleaved_rows A F C dstD HdstD) as [Hd1 Hd2].
  unfold mal_pcm_deinterleave__reference, mal_pcm_interleave__reference, range.
  destruct (interleave_frames d src (Z.to_nat C) (Z.to_nat F) dstI ltac:(lia))
    as [_ [Hin _]].
  cbn zeta in Hin. set (flat := fold_left _ (seq 0 (Z.to_nat F)) dstI) in *.
  destruct (deinterleave_frames d flat (Z.to_nat C) (Z.to_nat F) dstD ltac:(lia)
              ltac:(intros c Hc; rewrite (Hd2 c Hc); lia)) as [Hl [Hr Hn]].
  cbn zeta in Hl, Hr, Hn.
  apply (rows_ext A d).
  - rewrite Hl. lia.
  - intros c. rewrite Hr. destruct (Nat.lt_ge_cases c (Z.to_nat C)) as [Hc|Hc].
    + rewrite Hd2, Hs2 by exact Hc. reflexivity.
    + rewrite !nth_overflow by lia. reflexivity.
  - intros c k Hc Hk. rewrite Hl, Hd1 in Hc. rewrite Hr, (Hd2 c Hc) in Hk.
    rewrite Hn.
    replace (c <? Z.to_nat C)%nat with true by (symmetry; apply Nat.ltb_lt; exact Hc).
    replace (k <? Z.to_nat F)%nat with true by (symmetry; apply Nat.ltb_lt; exact Hk).
    cbn [andb]. apply Hin; assumption.
Qed.

Lemma pcm_deinterleave_after_interleave_witness :
  is_deinterleaved 3 2 stereo_rows /\
  is_deinterleaved 3 2 two_rows /\
  length six_cells = (Z.to_nat 3 * Z.to_nat 2)%nat /\
  mal_pcm_deinterleave__reference 0 two_rows
    (mal_pcm_interleave__reference 0 six_cells stereo_rows 3 2) 3 2 = stereo_rows.
Proof.
  assert (H1 : is_deinterleaved 3 2 stereo_rows)
    by (split; [reflexivity | repeat constructor]).
  assert (H2 : is_deinterleaved 3 2 two_rows)
    by (split; [reflexivity | repeat constructor]).
  split; [exact H1|]. split; [exact H2|]. split; [reflexivity|].
  exact (pcm_deinterleave_after_interleave Z 0 stereo_rows two_rows six_cells 3 2
           H1 H2 eq_refl).
Defined.

(** Round trip the other way: deinterleaving a buffer of
    [frameCount * channels] cells and interleaving the channels again
    gives the buffer back. *)
Theorem pcm_interleave_after_deinterleave :
  forall (A : Type) (d : A) (src dstI : list A) (dstD : list (list A))
         (frameCount channels : Z),
    length src = (Z.to_nat frameCount * Z.to_nat channels)%nat ->
    length dstI = (Z.to_nat frameCount * Z.to_nat channels)%nat ->
    is_deinterleaved frameCount channels dstD ->
    mal_pcm_interleave__reference d dstI
      (mal_pcm_deinterleave__reference d dstD src frameCount channels)
      frameCount channels = src.
Proof.
  intros A d src dstI dstD F C Hsrc HdstI HdstD.
  destruct (is_deinterleaved_rows A F C dstD HdstD) as [Hd1 Hd2].
  unfold mal_pcm_deinterleave__reference, mal_pcm_interleave__reference, range.
  destruct (deinterleave_frames d src (Z.to_nat C) (Z.to_nat F) dstD ltac:(lia)
              ltac:(intros c Hc; rewrite (Hd2 c Hc); lia)) as [_ [_ Hn]].
  cbn zeta in Hn. set (rows := fold_left _ (seq 0 (Z.to_nat F)) dstD) in *.
  destruct (interleave_frames d rows (Z.to_nat C) (Z.to_nat F) dstI ltac:(lia))
    as [Hl [Hin _]].
  cbn zeta in Hl, Hin.
  apply (nth_ext _ _ d d); [rewrite Hl; lia|].
  intros k Hk. rewrite Hl, HdstI in Hk.
  assert (HC : (0 < Z.to_nat C)%nat) by nia.
  rewrite (Nat.div_mod_eq k (Z.to_nat C)).
  rewrite (Nat.mul_comm (Z.to_nat C) (k / Z.to_nat C)).
  assert (Hf : (k / Z.to_nat C < Z.to_nat F)%nat)
    by (apply Nat.Div0.div_lt_upper_bound; lia).
  assert (Hc : (k mod Z.to_nat C < Z.to_nat C)%nat) by (apply Nat.mod_upper_bound; lia).
  rewrite (Hin _ _ Hf Hc), Hn.
  replace (k mod Z.to_nat C <? Z.to_nat C)%nat with true
    by (symmetry; apply Nat.ltb_lt; exact Hc).
  replace (k / Z.to_nat C <? Z.to_nat F)%nat with true
    by (symmetry; apply Nat.ltb_lt; exact Hf).
  reflexivity.
Qed.

Lemma pcm_interleave_after_deinterleave_witness :
  length stereo_interleaved = (Z.to_nat 3 * Z.to_nat 2)%nat /\
  length six_cells = (Z.to_nat 3 * Z.to_nat 2)%nat /\
  is_deinterleaved 3 2 two_rows /\
  mal_pcm_interleave__reference 0 six_cells
    (mal_pcm_deinterleave__reference 0 two_rows stereo_interleaved 3 2) 3 2
  = stereo_interleaved.
Proof.
  assert (H : is_deinterleaved 3 2 two_rows)
    by (split; [reflexivity | repeat constructor]).
  split; [reflexivity|]. split; [reflexivity|]. split; [exact H|].
  exact (pcm_interleave_after_deinterleave Z 0 stereo_interleaved six_cells two_rows 3 2
           eq_refl eq_refl H).
Defined.

Lemma length_array_blit : forall (A : Type) (data a : list A),
  length (array_blit a 0 data) = length a.
Proof.
  intros A data. induction data as [|x data IH]; intros [|y a]; cbn; try reflexivity.
  f_equal. apply IH.
Qed.

Lemma nth_array_blit : forall (A : Type) (data a : list A) k d,
  (length data <= length a)%nat ->
  nth k (array_blit a 0 data) d = if (k <? length data)%nat then nth k data d else nth k a d.
Proof.
  intros A data. induction data as [|x data IH]; intros [|y a] k d H; cbn in H; try lia.
  - reflexivity.
  - destruct k; reflexivity.
  - destruct k as [|k]; [reflexivity|].
    cbn [array_blit nth length]. rewrite IH by lia. reflexivity.
Qed.

(** The special cases of [mal_pcm_interleave_u8__optimized] for one
    and for two channels store the same cells as the reference loop:
    for channels of [frameCount] cells each and a destination of
    [frameCount * channels] cells the two functions agree. *)
Theorem pcm_interleave_u8_optimized_is_reference :
  forall (dst : list Z) (src : list (list Z)) (frameCount channels : Z),
    is_deinterleaved frameCount channels src ->
    length dst = (Z.to_nat frameCount * Z.to_nat channels)%nat ->
    mal_pcm_interleave_u8 dst src frameCount channels
    = mal_pcm_interleave__reference 0 dst src frameCount channels.
Proof.
  intros dst src F C Hsrc Hdst.
  unfold mal_pcm_interleave_u8, mal_pcm_interleave_u8__optimized.
  destruct (Z.eqb_spec C 1) as [->|H1].
  - destruct (is_deinterleaved_rows Z F 1 src Hsrc) as [Hs1 Hs2].
    unfold mal_pcm_interleave__reference, range.
    destruct (interleave_frames 0 src (Z.to_nat 1) (Z.to_nat F) dst ltac:(lia))
      as [Hl [Hin _]].
    cbn zeta in Hl, Hin.
    assert (Hrow : length (firstn (Z.to_nat F) (nth 0 src [])) = Z.to_nat F)
      by (rewrite length_firstn, (Hs2 0%nat) by (cbn; lia); lia).
    apply (nth_ext _ _ 0 0); [rewrite length_array_blit, Hl; reflexivity|].
    intros k Hk. rewrite length_array_blit in Hk.
    rewrite nth_array_blit by lia. rewrite Hrow.
    replace (k <? Z.to_nat F)%nat with true by (symmetry; apply Nat.ltb_lt; lia).
    replace k with (k * Z.to_nat 1 + 0)%nat at 2 by (cbn; lia).
    rewrite Hin by (cbn; lia).
    rewrite nth_firstn.
    replace (k <? Z.to_nat F)%nat with true by (symmetry; apply Nat.ltb_lt; lia).
    reflexivity.
  - destruct (Z.eqb_spec C 2) as [->|H2]; reflexivity.
Qed.

Lemma pcm_interleave_u8_optimized_is_reference_witness :
  is_deinterleaved 3 2 stereo_rows /\
  length six_cells = (Z.to_nat 3 * Z.to_nat 2)%nat /\
  mal_pcm_interleave_u8 six_cells stereo_rows 3 2
  = mal_pcm_interleave__reference 0 six_cells stereo_rows 3 2.
Proof.
  assert (H : is_deinterleaved 3 2 stereo_rows)
    by (split; [reflexivity | repeat constructor]).
  split; [exact H|]. split; [reflexivity|].
  exact (pcm_interleave_u8_optimized_is_reference six_cells stereo_rows 3 2 H eq_refl).
Defined.

(* ------------------------------------------------------------------ *)
(** ** Standard channel maps                                           *)
(* ------------------------------------------------------------------ *)

Lemma channel_count_cases : forall channels, 1 <= channels <= MAL_MAX_CHANNELS ->
  In channels (zrange (Z.to_nat 32) 1).
Proof. intros channels H. apply in_zrange. unfold MAL_MAX_CHANNELS in H. lia. Qed.

(** Every standard channel map is a usable map: for each of the seven
    standards and each channel count from 1 to 32 that the standard
    defines (all of them, except that the RFC 3551 map stops at six
    channels), whatever the array held before, the map written is
    accepted by [mal_channel_map_valid] and its entries in use are
    pairwise different positions, none of them [MAL_CHANNEL_NONE]. For
    seven or eight channels the RFC 3551 map leaves the array as it
    was. *)
Theorem standard_channel_maps_are_valid :
  (forall (standardChannelMap : mal_standard_channel_map) (channels : Z)
          (channelMap : channel_map),
     length channelMap = Z.to_nat MAL_MAX_CHANNELS ->
     1 <= channels <= MAL_MAX_CHANNELS ->
     standard_map_defined standardChannelMap channels = true ->
     mal_channel_map_valid channels
       (Some (mal_get_standard_channel_map standardChannelMap channels channelMap)) = true /\
     positions_distinct channels
       (mal_get_standard_channel_map standardChannelMap channels channelMap) = true) /\
  (forall channelMap : channel_map,
     mal_get_standard_channel_map mal_standard_channel_map_rfc3551 7 channelMap = channelMap /\
     mal_get_standard_channel_map mal_standard_channel_map_rfc3551 8 channelMap = channelMap).
Proof.
  split; [|intros channelMap; split; reflexivity].
  intros std channels m Hlen Hch Hdef.
  apply channel_count_cases in Hch.
  do 32 (destruct m as [|? m]; [discriminate Hlen|]).
  destruct m; [|discriminate Hlen]. clear Hlen.
  cbv [zrange Z.to_nat Pos.to_nat Pos.iter_op Nat.add In] in Hch.
  repeat (destruct Hch as [<-|Hch]; [destruct std; first [discriminate Hdef | split; vm_compute; reflexivity]|]).
  contradiction.
Qed.

Lemma standard_channel_maps_are_valid_witness :
  length blank_channel_map = Z.to_nat MAL_MAX_CHANNELS /\
  1 <= 6 <= MAL_MAX_CHANNELS /\
  standard_map_defined mal_standard_channel_map_vorbis 6 = true /\
  positions_distinct 6
    (mal_get_standard_channel_map mal_standard_channel_map_vorbis 6 blank_channel_map) = true.
Proof.
  assert (H : 1 <= 6 <= MAL_MAX_CHANNELS) by (unfold MAL_MAX_CHANNELS; lia).
  split; [reflexivity|]. split; [exact H|]. split; [reflexivity|].
  exact (proj2 (proj1 standard_channel_maps_are_valid mal_standard_channel_map_vorbis 6
                  blank_channel_map eq_refl H eq_refl)).
Defined.

(* ------------------------------------------------------------------ *)
(** ** Comparing and copying channel maps                              *)
(* ------------------------------------------------------------------ *)

(** [mal_channel_map_equal] on two distinct arrays is symmetric and
    transitive, and looks at the first [channels] entries only; called
    with the same array for both arguments it answers false. *)
Theorem channel_map_equal_is_symmetric_and_transitive :
  forall (channels : Z) (a b c : channel_map),
    mal_channel_map_equal false channels a b = mal_channel_map_equal false channels b a /\
    (mal_channel_map_equal false channels a b = true ->
     mal_channel_map_equal false channels b c = true ->
     mal_channel_map_equal false channels a c = true) /\
    (firstn (Z.to_nat channels) a = firstn (Z.to_nat channels) b ->
     mal_channel_map_equal false channels a c = mal_channel_map_equal false channels b c) /\
    mal_channel_map_equal true channels a a = false.
Proof.
  intros channels a b c. repeat split.
  - destruct (mal_channel_map_equal false channels a b) eqn:E1;
      destruct (mal_channel_map_equal false channels b a) eqn:E2; try reflexivity.
    + apply mal_channel_map_equal_iff in E1. destruct E1 as [H0 [H1 H2]].
      rewrite <- E2. symmetry. apply mal_channel_map_equal_iff.
      repeat split; auto. intros i Hi. symmetry. auto.
    + apply mal_channel_map_equal_iff in E2. destruct E2 as [H0 [H1 H2]].
      rewrite <- E1. apply mal_channel_map_equal_iff.
      repeat split; auto. intros i Hi. symmetry. auto.
  - intros E1 E2. apply mal_channel_map_equal_iff in E1, E2.
    destruct E1 as [H0 [H1 H2]]. destruct E2 as [_ [_ H3]].
    apply mal_channel_map_equal_iff. repeat split; auto.
    intros i Hi. rewrite H2, H3 by exact Hi. reflexivity.
  - intros Hab.
    assert (Hn : forall i, (i < Z.to_nat channels)%nat -> map_at a i = map_at b i).
    { intros i Hi. unfold map_at.
      pose proof (nth_firstn (Z.to_nat channels) a i MAL_CHANNEL_NONE) as Ha.
      pose proof (nth_firstn (Z.to_nat channels) b i MAL_CHANNEL_NONE) as Hb.
      replace (i <? Z.to_nat channels)%nat with true in Ha, Hb
        by (symmetry; apply Nat.ltb_lt; exact Hi).
      rewrite <- Ha, <- Hb, Hab. reflexivity. }
    destruct (mal_channel_map_equal false channels a c) eqn:E1;
      destruct (mal_channel_map_equal false channels b c) eqn:E2; try reflexivity.
    + apply mal_channel_map_equal_iff in E1. destruct E1 as [H0 [H1 H2]].
      rewrite <- E2. symmetry. apply mal_channel_map_equal_iff.
      repeat split; auto. intros i Hi. rewrite <- Hn by exact Hi. auto.
    + apply mal_channel_map_equal_iff in E2. destruct E2 as [H0 [H1 H2]].
      rewrite <- E1. apply mal_channel_map_equal_iff.
      repeat split; auto. intros i Hi. rewrite Hn by exact Hi. auto.
Qed.

(** Three stereo maps that differ from the third entry on are equal
    pairwise over two channels. *)
Lemma channel_map_equal_is_symmetric_and_transitive_witness :
  mal_channel_map_equal false 2 duplicate_map
    (channel_map_of [MAL_CHANNEL_FRONT_LEFT; MAL_CHANNEL_FRONT_LEFT; MAL_CHANNEL_LFE]) = true /\
  mal_channel_map_equal false 2
    (channel_map_of [MAL_CHANNEL_FRONT_LEFT; MAL_CHANNEL_FRONT_LEFT; MAL_CHANNEL_LFE])
    (channel_map_of [MAL_CHANNEL_FRONT_LEFT; MAL_CHANNEL_FRONT_LEFT; MAL_CHANNEL_MONO]) = true /\
  mal_channel_map_equal false 2 duplicate_map
    (channel_map_of [MAL_CHANNEL_FRONT_LEFT; MAL_CHANNEL_FRONT_LEFT; MAL_CHANNEL_MONO]) = true.
Proof.
  split; [reflexivity|]. split; [reflexivity|].
  exact (proj1 (proj2 (channel_map_equal_is_symmetric_and_transitive 2 duplicate_map
                         (channel_map_of [MAL_CHANNEL_FRONT_LEFT; MAL_CHANNEL_FRONT_LEFT;
                                          MAL_CHANNEL_LFE])
                         (channel_map_of [MAL_CHANNEL_FRONT_LEFT; MAL_CHANNEL_FRONT_LEFT;
                                          MAL_CHANNEL_MONO])))
               eq_refl eq_refl).
Defined.

Lemma mal_channel_map_copy_entries : forall pOut pIn channels i,
  length pOut = Z.to_nat MAL_MAX_CHANNELS -> length pIn = Z.to_nat MAL_MAX_CHANNELS ->
  1 <= channels <= MAL_MAX_CHANNELS ->
  map_at (mal_channel_map_copy pOut pIn channels) i
  = if (i <? Z.to_nat channels)%nat then map_at pIn i else map_at pOut i.
Proof.
  intros pOut pIn channels i Ho Hi Hc. unfold mal_channel_map_copy, map_at.
  replace (0 <? channels) with true by (symmetry; apply Z.ltb_lt; lia).
  assert (Hl : length (firstn (Z.to_nat channels) pIn) = Z.to_nat channels)
    by (rewrite length_firstn; lia).
  rewrite nth_array_blit by lia. rewrite Hl, nth_firstn.
  destruct (i <? Z.to_nat channels)%nat; reflexivity.
Qed.

(** [mal_channel_map_copy] of 1 to 32 channels makes the destination
    equal to the source in the sense of [mal_channel_map_equal], as
    valid as the source, and leaves the entries past [channels] as they
    were. *)
Theorem channel_map_copy_gives_an_equal_map :
  forall (pOut pIn : channel_map) (channels : Z),
    length pOut = Z.to_nat MAL_MAX_CHANNELS ->
    length pIn = Z.to_nat MAL_MAX_CHANNELS ->
    1 <= channels <= MAL_MAX_CHANNELS ->
    mal_channel_map_equal false channels (mal_channel_map_copy pOut pIn channels) pIn = true /\
    mal_channel_map_valid channels (Some (mal_channel_map_copy pOut pIn channels))
    = mal_channel_map_valid channels (Some pIn) /\
    (forall i, (Z.to_nat channels <= i)%nat ->
       map_at (mal_channel_map_copy pOut pIn channels) i = map_at pOut i).
Proof.
  intros pOut pIn channels Ho Hi Hc.
  assert (Hin : forall i, (i < Z.to_nat channels)%nat ->
                  map_at (mal_channel_map_copy pOut pIn channels) i = map_at pIn i).
  { intros i Hlt. rewrite mal_channel_map_copy_entries by assumption.
    replace (i <? Z.to_nat channels)%nat with true by (symmetry; apply Nat.ltb_lt; exact Hlt).
    reflexivity. }
  repeat split.
  - apply mal_channel_map_equal_iff. repeat split; [lia | lia | exact Hin].
  - destruct (mal_channel_map_valid channels (Some pIn)) eqn:E.
    + apply mal_channel_map_valid_iff in E. destruct E as [E0 E1].
      apply mal_channel_map_valid_iff. split; [exact E0|].
      intros H1 i Hlt. rewrite Hin by exact Hlt. auto.
    + destruct (mal_channel_map_valid channels
                  (Some (mal_channel_map_copy pOut pIn channels))) eqn:E'; [|reflexivity].
      apply mal_channel_map_valid_iff in E'. destruct E' as [E0 E1].
      rewrite <- E. symmetry. apply mal_channel_map_valid_iff. split; [exact E0|].
      intros H1 i Hlt. rewrite <- Hin by exact Hlt. auto.
  - intros i Hge. rewrite mal_channel_map_copy_entries by assumption.
    replace (i <? Z.to_nat channels)%nat with false by (symmetry; apply Nat.ltb_ge; exact Hge).
    reflexivity.
Qed.

Lemma channel_map_copy_gives_an_equal_map_witness :
  length blank_channel_map = Z.to_nat MAL_MAX_CHANNELS /\
  length duplicate_map = Z.to_nat MAL_MAX_CHANNELS /\
  1 <= 2 <= MAL_MAX_CHANNELS /\
  mal_channel_map_equal false 2 (mal_channel_map_copy blank_channel_map duplicate_map 2)
    duplicate_map = true.
Proof.
  assert (H : 1 <= 2 <= MAL_MAX_CHANNELS) by (unfold MAL_MAX_CHANNELS; lia).
  split; [reflexivity|]. split; [reflexivity|]. split; [exact H|].
  exact (proj1 (channel_map_copy_gives_an_equal_map blank_channel_map duplicate_map 2
                  eq_refl eq_refl H)).
Defined.

(* ------------------------------------------------------------------ *)
(** ** Sample rate converter: reading without conversion               *)
(* ------------------------------------------------------------------ *)

Lemma recording_proc_serves : forall frameCount (st : recording),
  recording_proc frameCount st
  = (let k := Z.min frameCount (Z.of_nat (length (nth 0%nat st []))) in
     ((k, map (firstn (Z.to_nat k)) st), map (skipn (Z.to_nat k)) st)).
Proof.
  intros frameCount st. unfold recording_proc. cbv zeta.
  destruct (Z.ltb_spec frameCount (Z.of_nat (length (nth 0%nat st [])))) as [H|H].
  - rewrite Z.min_l by lia. reflexivity.
  - rewrite Z.min_r by lia. reflexivity.
Qed.

(** Reading from a converter with algorithm none whose source is a
    recording of fewer than [0xFFFFFFFF] frames: for every 64-bit frame
    count, also above 32 bits, the read returns the smaller of the
    frame count and the frames left, stores exactly those frames in the
    output buffers and leaves the rest in the source; a frame count of
    zero reads nothing. *)
Theorem src_read_without_conversion_returns_the_frames :
  forall (trips : positive) (pSRC : mal_src (read_deinterleaved_proc recording))
         (frameCount : Z) (ppSamplesOut : list buffer) (st : recording),
    srcc_algorithm (src_config pSRC) = mal_src_algorithm_none ->
    srcc_onReadDeinterleaved (src_config pSRC) = Some recording_proc ->
    0 <= frameCount < 2 ^ 64 ->
    Z.of_nat (length (nth 0%nat st [])) < 0xFFFFFFFF ->
    exists s,
      mal_src_read_deinterleaved trips pSRC frameCount ppSamplesOut st
      = Some ((Z.min frameCount (Z.of_nat (length (nth 0%nat st []))), s), false) /\
      sl_client s
      = map (skipn (Z.to_nat (Z.min frameCount (Z.of_nat (length (nth 0%nat st [])))))) st /\
      (frameCount <> 0 ->
       sl_out s
       = store_block ppSamplesOut cursors_init (srcc_channels (src_config pSRC))
           (map (firstn (Z.to_nat (Z.min frameCount (Z.of_nat (length (nth 0%nat st []))))))
                st)) /\
      (frameCount = 0 -> sl_out s = ppSamplesOut).
Proof.
  intros trips pSRC frameCount out st Halg Hcb Hfc Hn.
  unfold mal_src_read_deinterleaved. rewrite Halg.
  destruct (Z.eqb_spec frameCount 0) as [->|H0].
  - eexists. split; [rewrite Z.min_l by lia; reflexivity|].
    cbn [sl_client sl_out src_loop_start]. rewrite Z.min_l by lia. split; [|split].
    + cbn. symmetry. apply map_id.
    + intros H. exfalso. apply H. reflexivity.
    + intros _. reflexivity.
  - unfold mal_src_read_deinterleaved__passthrough.
    destruct (Z.leb_spec frameCount 0xFFFFFFFF) as [Hle|Hgt].
    + unfold src_onReadDeinterleaved. rewrite Hcb.
      rewrite u32_small by lia. rewrite recording_proc_serves. cbv zeta.
      eexists. split; [reflexivity|]. cbn [sl_client sl_out].
      split; [reflexivity|]. split; [intros _; reflexivity|].
      intros H. contradiction.
    + set (n := Z.of_nat (length (nth 0%nat st []))) in *.
      assert (Hbody :
        exists s',
          src_passthrough_body frameCount (src_loop_start pSRC out st) = (s', false) /\
          sl_totalFramesRead s' = n /\
          sl_client s' = map (skipn (Z.to_nat n)) st /\
          sl_out s' = store_block out cursors_init (srcc_channels (src_config pSRC))
                        (map (firstn (Z.to_nat n)) st)).
      { unfold src_passthrough_body. cbn [sl_pSRC sl_totalFramesRead sl_client sl_out
                                           sl_ppNextSamplesOut src_loop_start].
        replace (0xFFFFFFFF <? frameCount - 0) with true by (symmetry; apply Z.ltb_lt; lia).
        unfold src_onReadDeinterleaved. rewrite Hcb.
        rewrite (u32_small 0xFFFFFFFF) by lia. rewrite recording_proc_serves. cbv zeta.
        fold n. rewrite (Z.min_r 0xFFFFFFFF n) by lia. rewrite (u32_small n) by lia.
        destruct (Z.eqb_spec n 0) as [En|En].
        - eexists. split; [reflexivity|]. cbn [sl_totalFramesRead sl_client sl_out].
          rewrite En. repeat split; reflexivity.
        - replace (n <? 0xFFFFFFFF) with true by (symmetry; apply Z.ltb_lt; lia).
          eexists. split; [reflexivity|]. cbn [sl_totalFramesRead sl_client sl_out].
          repeat split; try reflexivity. unfold u64. apply Z.mod_small. lia. }
      destruct Hbody as [s' [Hb [Ht [Hc Ho]]]].
      rewrite (while_loop_one_trip _ _ _ _ _ s'); [| |exact Hb].
      * exists s'. rewrite Ht. rewrite (Z.min_r frameCount n) by lia.
        split; [reflexivity|]. split; [exact Hc|]. split; [intros _; exact Ho|].
        intros H. contradiction.
      * unfold src_loop_cond. cbn. apply Z.ltb_lt. lia.
Qed.

Lemma src_read_without_conversion_returns_the_frames_witness :
  srcc_algorithm (src_config passthrough_mono_src) = mal_src_algorithm_none /\
  srcc_onReadDeinterleaved (src_config passthrough_mono_src) = Some recording_proc /\
  0 <= 2 ^ 32 < 2 ^ 64 /\
  Z.of_nat (length (nth 0%nat (ramp 3) [])) < 0xFFFFFFFF /\
  exists s,
    mal_src_read_deinterleaved 1 passthrough_mono_src (2 ^ 32) [[]] (ramp 3)
    = Some ((3, s), false).
Proof.
  split; [reflexivity|]. split; [reflexivity|]. split; [lia|]. split; [cbn; lia|].
  destruct (src_read_without_conversion_returns_the_frames 1 passthrough_mono_src
              (2 ^ 32) [[]] (ramp 3) eq_refl eq_refl ltac:(lia) ltac:(cbn; lia))
    as [s [H _]].
  exists s. exact H.
Defined.

(* ------------------------------------------------------------------ *)
(** ** Changing the sample rates                                       *)
(* ------------------------------------------------------------------ *)

(** Setting both rates of a converter at once is the same as setting
    the input rate and then the output rate, or the other way round; a
    successful call stores the two rates and changes nothing else of
    the converter. *)
Theorem src_set_sample_rate_composes :
  forall (proc : Type) (pSRC : mal_src proc) (sampleRateIn sampleRateOut : Z),
    sampleRateIn <> 0 -> sampleRateOut <> 0 ->
    mal_src_set_sample_rate pSRC sampleRateIn sampleRateOut
    = (MAL_SUCCESS,
       with_config pSRC (with_sample_rates (src_config pSRC) sampleRateIn sampleRateOut)) /\
    mal_src_set_output_sample_rate
      (snd (mal_src_set_input_sample_rate pSRC sampleRateIn)) sampleRateOut
    = mal_src_set_sample_rate pSRC sampleRateIn sampleRateOut /\
    mal_src_set_input_sample_rate
      (snd (mal_src_set_output_sample_rate pSRC sampleRateOut)) sampleRateIn
    = mal_src_set_sample_rate pSRC sampleRateIn sampleRateOut /\
    mal_src_set_sample_rate
      (snd (mal_src_set_sample_rate pSRC sampleRateIn sampleRateOut))
      sampleRateIn sampleRateOut
    = mal_src_set_sample_rate pSRC sampleRateIn sampleRateOut.
Proof.
  intros proc pSRC rIn rOut HIn HOut.
  unfold mal_src_set_sample_rate, mal_src_set_input_sample_rate,
    mal_src_set_output_sample_rate.
  apply Z.eqb_neq in HIn, HOut. rewrite HIn, HOut. cbn [orb snd].
  rewrite ?HIn, ?HOut. repeat split; reflexivity.
Qed.

Lemma src_set_sample_rate_composes_witness :
  48000 <> 0 /\ 44100 <> 0 /\
  mal_src_set_output_sample_rate
    (snd (mal_src_set_input_sample_rate passthrough_mono_src 48000)) 44100
  = mal_src_set_sample_rate passthrough_mono_src 48000 44100.
Proof.
  split; [lia|]. split; [lia|].
  apply (src_set_sample_rate_composes _ passthrough_mono_src 48000 44100); lia.
Defined.

Lemma mal_dsp_init_dynamic_flag :
  forall (cproc : Type) cpu libm (cfg : mal_dsp_config cproc) pDSP,
    mal_dsp_init cpu libm cfg = Initialized pDSP ->
    isDynamicSampleRateAllowed pDSP = Z.odd (dspc_allowDynamicSampleRate cfg).
Proof.
  intros cproc cpu libm cfg pDSP. unfold mal_dsp_init.
  destruct (mal_format_converter_init cpu (Some (preFormatConverterConfig cfg)));
    [|discriminate].
  destruct (mal_format_converter_init cpu (Some (postFormatConverterConfig cfg)));
    [|discriminate].
  destruct (mal_src_init cpu libm (Some (srcConfig cfg))); [|discriminate].
  destruct (mal_channel_router_init cpu (Some (routerConfig cfg))); [|discriminate].
  intros H. inversion H. reflexivity.
Qed.

(** Changing the rates of an initialised supervisor. Each of the three
    setters rejects a zero rate with [MAL_INVALID_ARGS]. For rates
    other than zero, each setter rejects the call with
    [MAL_INVALID_OPERATION] when the lowest bit of the config's
    [allowDynamicSampleRate] is clear, which is the case for
    [MAL_FALSE] and for every even value; in all these cases the
    supervisor is left as it was. When that bit is set, as for
    [MAL_TRUE], each setter succeeds, the SRC stage holds the new rate
    or rates and nothing else changes. Whenever
    [allowDynamicSampleRate] is not zero the SRC stage is part of the
    chain [mal_dsp_read] pulls through. *)
Theorem dsp_set_sample_rate_needs_dynamic_rates :
  forall (cproc : Type) (cpu : mal_cpu) (libm : mal_libm) (cfg : mal_dsp_config cproc)
         (pDSP : mal_dsp cproc) (sampleRateIn sampleRateOut : Z),
    mal_dsp_init cpu libm cfg = Initialized pDSP ->
    (mal_dsp_set_input_sample_rate pDSP 0 = (MAL_INVALID_ARGS, pDSP) /\
     mal_dsp_set_output_sample_rate pDSP 0 = (MAL_INVALID_ARGS, pDSP) /\
     ((sampleRateIn = 0 \/ sampleRateOut = 0) ->
      mal_dsp_set_sample_rate pDSP sampleRateIn sampleRateOut = (MAL_INVALID_ARGS, pDSP))) /\
    (sampleRateIn <> 0 -> sampleRateOut <> 0 ->
     Z.odd (dspc_allowDynamicSampleRate cfg) = false ->
     mal_dsp_set_sample_rate pDSP sampleRateIn sampleRateOut
     = (MAL_INVALID_OPERATION, pDSP) /\
     mal_dsp_set_input_sample_rate pDSP sampleRateIn = (MAL_INVALID_OPERATION, pDSP) /\
     mal_dsp_set_output_sample_rate pDSP sampleRateOut = (MAL_INVALID_OPERATION, pDSP)) /\
    (sampleRateIn <> 0 -> sampleRateOut <> 0 ->
     Z.odd (dspc_allowDynamicSampleRate cfg) = true ->
     mal_dsp_set_sample_rate pDSP sampleRateIn sampleRateOut
     = (MAL_SUCCESS,
        with_src pDSP
          (with_config (dsp_src pDSP)
             (with_sample_rates (src_config (dsp_src pDSP)) sampleRateIn sampleRateOut))) /\
     mal_dsp_set_input_sample_rate pDSP sampleRateIn
     = (MAL_SUCCESS,
        with_src pDSP
          (with_config (dsp_src pDSP)
             (with_sample_rates (src_config (dsp_src pDSP)) sampleRateIn
                (srcc_sampleRateOut (src_config (dsp_src pDSP)))))) /\
     mal_dsp_set_output_sample_rate pDSP sampleRateOut
     = (MAL_SUCCESS,
        with_src pDSP
          (with_config (dsp_src pDSP)
             (with_sample_rates (src_config (dsp_src pDSP))
                (srcc_sampleRateIn (src_config (dsp_src pDSP))) sampleRateOut)))) /\
    (dspc_allowDynamicSampleRate cfg <> 0 -> In stage_src (pull_chain pDSP)).
Proof.
  intros cproc cpu libm cfg pDSP rIn rOut Hinit.
  pose proof (mal_dsp_init_dynamic_flag _ _ _ _ _ Hinit) as Hdyn.
  split; [|split; [|split]].
  - split; [reflexivity|]. split; [reflexivity|].
    intros H. unfold mal_dsp_set_sample_rate.
    destruct H as [->| ->]; [reflexivity|]. rewrite orb_true_r. reflexivity.
  - intros HIn HOut Hno. rewrite Hno in Hdyn.
    unfold mal_dsp_set_sample_rate, mal_dsp_set_input_sample_rate,
      mal_dsp_set_output_sample_rate.
    apply Z.eqb_neq in HIn, HOut. rewrite HIn, HOut, Hdyn. repeat split; reflexivity.
  - intros HIn HOut Hyes. rewrite Hyes in Hdyn.
    unfold mal_dsp_set_sample_rate, mal_dsp_set_input_sample_rate,
      mal_dsp_set_output_sample_rate, mal_dsp_refresh_sample_rate,
      mal_src_set_input_sample_rate, mal_src_set_output_sample_rate.
    apply Z.eqb_neq in HIn, HOut. rewrite HIn, HOut, Hdyn.
    cbn [orb negb snd dsp_src with_src src_config with_config srcc_sampleRateIn
         srcc_sampleRateOut with_sample_rates isDynamicSampleRateAllowed].
    rewrite ?HIn, ?HOut. cbn [snd src_config with_config srcc_sampleRateOut srcc_sampleRateIn
                              with_sample_rates].
    rewrite ?HIn, ?HOut.
    split; [reflexivity|].
    split.
    + destruct (srcc_sampleRateOut (src_config (dsp_src pDSP)) =? 0); reflexivity.
    + destruct (srcc_sampleRateIn (src_config (dsp_src pDSP)) =? 0);
        cbn [snd src_config with_config srcc_sampleRateOut srcc_sampleRateIn
             with_sample_rates];
        rewrite ?HOut; reflexivity.
  - intros Hnz.
    destruct (mal_dsp_init_inversion _ _ _ _ _ Hinit)
      as [Hpass [Hsrc [_ [Hpre [Hstart _]]]]].
    destruct (mal_dsp_init_edges _ _ _ _ _ Hinit) as [Hc [Hp [Hs [Hr Hpost]]]].
    assert (Esrc : isSRCRequired pDSP = true).
    { rewrite Hsrc. unfold dsp_isSRCRequired.
      replace (dspc_allowDynamicSampleRate cfg =? 0) with false
        by (symmetry; apply Z.eqb_neq; exact Hnz).
      apply orb_true_r. }
    assert (Epre : isPreFormatConversionRequired pDSP = true)
      by (rewrite Hpre; unfold dsp_isPreFormatConversionRequired;
          rewrite <- Hsrc, Esrc; reflexivity).
    assert (Enp : isPassthrough pDSP = false)
      by (rewrite Hpass; unfold dsp_isPassthrough; rewrite <- Hsrc, Esrc;
          cbn; apply andb_false_r).
    specialize (Hpost Epre). rewrite Esrc in Hr, Hpost.
    unfold pull_chain, mal_dsp_read_entry. rewrite Enp.
    rewrite (pull_chain_step _ _ _ _ _ Hpost).
    destruct (isChannelRoutingAtStart pDSP); cbn [negb] in *.
    + rewrite (pull_chain_step _ _ _ _ _ Hs). cbn. auto.
    + rewrite (pull_chain_step _ _ _ _ _ Hr), (pull_chain_step _ _ _ _ _ Hs). cbn. auto.
Qed.

(** A config with [allowDynamicSampleRate = MAL_TRUE]: every setter
    succeeds and the SRC stage is in the chain. *)
Lemma dsp_set_sample_rate_needs_dynamic_rates_witness :
  exists pDSP,
    mal_dsp_init cpu_scalar libm_flat dynamic_rate_config = Initialized pDSP /\
    48000 <> 0 /\ 96000 <> 0 /\
    Z.odd (dspc_allowDynamicSampleRate dynamic_rate_config) = true /\
    dspc_allowDynamicSampleRate dynamic_rate_config <> 0 /\
    fst (mal_dsp_set_sample_rate pDSP 48000 96000) = MAL_SUCCESS /\
    fst (mal_dsp_set_input_sample_rate pDSP 48000) = MAL_SUCCESS /\
    fst (mal_dsp_set_output_sample_rate pDSP 96000) = MAL_SUCCESS /\
    In stage_src (pull_chain pDSP).
Proof.
  assert (HIn : 48000 <> 0) by discriminate.
  assert (HOut : 96000 <> 0) by discriminate.
  assert (Hnz : dspc_allowDynamicSampleRate dynamic_rate_config <> 0) by discriminate.
  eexists. split; [reflexivity|].
  split; [exact HIn|]. split; [exact HOut|]. split; [reflexivity|]. split; [exact Hnz|].
  match goal with
  | |- fst (mal_dsp_set_sample_rate ?p _ _) = _ /\ _ =>
      pose proof (dsp_set_sample_rate_needs_dynamic_rates unit cpu_scalar
                    libm_flat dynamic_rate_config p 48000 96000 eq_refl) as H
  end.
  destruct H as [_ [_ [Hyes Hchain]]].
  destruct (Hyes HIn HOut eq_refl) as [H1 [H2 H3]].
  split; [rewrite H1; reflexivity|]. split; [rewrite H2; reflexivity|].
  split; [rewrite H3; reflexivity|]. exact (Hchain Hnz).
Defined.

(* ------------------------------------------------------------------ *)
(** ** DSP supervisor: which configurations are accepted               *)
(* ------------------------------------------------------------------ *)

Lemma fold_array_set_seq : forall (A : Type) (g : nat -> A) n (a : list A) d k,
  (n <= length a)%nat ->
  nth k (fold_left (fun acc i => array_set acc i (g i)) (seq 0 n) a) d
  = if (k <? n)%nat then g k else nth k a d.
Proof.
  intros A g n. induction n as [|n IH]; intros a d k Hn; [reflexivity|].
  rewrite seq_S, fold_left_app. cbn [fold_left Nat.add].
  assert (Hl : forall m b, length (fold_left (fun acc i => array_set acc i (g i)) (seq 0 m) b)
                           = length b).
  { induction m as [|m IHm]; intros b; [reflexivity|].
    rewrite seq_S, fold_left_app. cbn [fold_left]. rewrite length_array_set. apply IHm. }
  destruct (Nat.eq_dec n k) as [<-|Hne].
  - rewrite nth_array_set_eq by (rewrite Hl; lia).
    replace (n <? Datatypes.S n)%nat with true by (symmetry; apply Nat.ltb_lt; lia).
    reflexivity.
  - rewrite nth_array_set_neq by exact Hne. rewrite IH by lia.
    destruct (k <? n)%nat eqn:E.
    + replace (k <? Datatypes.S n)%nat with true
        by (symmetry; apply Nat.ltb_lt; apply Nat.ltb_lt in E; lia). reflexivity.
    + replace (k <? Datatypes.S n)%nat with false
        by (symmetry; apply Nat.ltb_ge; apply Nat.ltb_ge in E; lia). reflexivity.
Qed.

(** The copy of a channel map in a router config holds the first
    [channels] entries of the original. *)
Lemma copy_channel_map_entries : forall channels m i,
  0 <= channels <= MAL_MAX_CHANNELS -> (i < Z.to_nat channels)%nat ->
  map_at (copy_channel_map channels m) i = map_at m i.
Proof.
  intros channels m i Hc Hi. unfold copy_channel_map, map_at, range.
  rewrite fold_array_set_seq
    by (unfold blank_channel_map; rewrite repeat_length; unfold MAL_MAX_CHANNELS in *; lia).
  replace (i <? Z.to_nat channels)%nat with true by (symmetry; apply Nat.ltb_lt; exact Hi).
  reflexivity.
Qed.

Lemma copy_channel_map_valid : forall channels m,
  0 <= channels <= MAL_MAX_CHANNELS ->
  mal_channel_map_valid channels (Some (copy_channel_map channels m))
  = mal_channel_map_valid channels (Some m).
Proof.
  intros channels m Hc.
  destruct (mal_channel_map_valid channels (Some m)) eqn:E.
  - apply mal_channel_map_valid_iff in E. destruct E as [E0 E1].
    apply mal_channel_map_valid_iff. split; [exact E0|].
    intros H1 i Hi. rewrite copy_channel_map_entries by assumption. auto.
  - destruct (mal_channel_map_valid channels (Some (copy_channel_map channels m))) eqn:E';
      [|reflexivity].
    apply mal_channel_map_valid_iff in E'. destruct E' as [E0 E1].
    rewrite <- E. symmetry. apply mal_channel_map_valid_iff. split; [exact E0|].
    intros H1 i Hi. rewrite <- (copy_channel_map_entries channels m i) by assumption. auto.
Qed.

(** Which configurations [mal_dsp_init] accepts: with channel counts
    that fit the channel map arrays, the initialisation succeeds if and
    only if both channel maps are valid for their channel counts (which
    makes both counts at least 1) and, when the sinc algorithm is
    selected, the window function is one of the two known ones. The
    sample formats, the sample rates and the client's read callback are
    not looked at. *)
Theorem dsp_init_succeeds_iff :
  forall (cproc : Type) (cpu : mal_cpu) (libm : mal_libm) (cfg : mal_dsp_config cproc),
    0 <= dspc_channelsIn cfg <= MAL_MAX_CHANNELS ->
    0 <= dspc_channelsOut cfg <= MAL_MAX_CHANNELS ->
    (result_code (mal_dsp_init cpu libm cfg) = MAL_SUCCESS <->
     mal_channel_map_valid (dspc_channelsIn cfg) (Some (dspc_channelMapIn cfg)) = true /\
     mal_channel_map_valid (dspc_channelsOut cfg) (Some (dspc_channelMapOut cfg)) = true /\
     (dspc_srcAlgorithm cfg = mal_src_algorithm_sinc ->
      known_window_function (windowFunction (dspc_sinc cfg)))).
Proof.
  intros cproc cpu libm cfg HcIn HcOut.
  pose proof (mal_src_init_success_iff _ cpu libm (srcConfig cfg)) as Hsrc.
  pose proof (copy_channel_map_valid _ (dspc_channelMapIn cfg) HcIn) as HvIn.
  pose proof (copy_channel_map_valid _ (dspc_channelMapOut cfg) HcOut) as HvOut.
  assert (Hnz : forall channels m, mal_channel_map_valid channels (Some m) = true ->
                                   channels <> 0).
  { intros channels m H. apply mal_channel_map_valid_iff in H. tauto. }
  unfold mal_dsp_init.
  unfold mal_format_converter_init at 1 2. cbv beta iota zeta.
  destruct (mal_src_init cpu libm (Some (srcConfig cfg))) as [src|e] eqn:E3.
  - destruct (proj1 Hsrc eq_refl) as [_ [_ [_ Hw]]].
    unfold mal_channel_router_init.
    cbn [routerConfig crc_onReadDeinterleaved crc_channelsIn crc_channelsOut
         crc_channelMapIn crc_channelMapOut mal_channel_router_config_init].
    rewrite HvIn, HvOut.
    destruct (mal_channel_map_valid (dspc_channelsIn cfg) (Some (dspc_channelMapIn cfg)));
      cbn [negb result_code].
    2:{ split; [discriminate|]. intros [H _]. discriminate. }
    destruct (mal_channel_map_valid (dspc_channelsOut cfg) (Some (dspc_channelMapOut cfg)));
      cbn [negb result_code].
    2:{ split; [discriminate|]. intros [_ [H _]]. discriminate. }
    split; [|reflexivity]. intros _. repeat split. exact Hw.
  - cbn [result_code]. split.
    + intros He. exfalso. subst e.
      revert E3. unfold mal_src_init.
      repeat match goal with
             | |- context [match ?x with _ => _ end] => destruct x
             end; intros E3; inversion E3.
    + intros [HmIn [HmOut Hw]]. exfalso.
      assert (Hs : e = MAL_SUCCESS).
      { apply Hsrc. cbn [srcConfig srcc_onReadDeinterleaved srcc_channels srcc_algorithm
                         srcc_sinc mal_src_config_init].
        pose proof (Hnz _ _ HmIn). pose proof (Hnz _ _ HmOut).
        split; [discriminate|].
        destruct (dspc_channelsIn cfg <? dspc_channelsOut cfg);
          repeat split; try assumption; try lia. }
      subst e. revert E3. unfold mal_src_init.
      repeat match goal with
             | |- context [match ?x with _ => _ end] => destruct x
             end; intros E3; inversion E3.
Qed.

(** A stereo config with valid maps and the linear algorithm is accepted. *)
Lemma dsp_init_succeeds_iff_witness :
  0 <= dspc_channelsIn format_only_config <= MAL_MAX_CHANNELS /\
  0 <= dspc_channelsOut format_only_config <= MAL_MAX_CHANNELS /\
  result_code (mal_dsp_init cpu_scalar libm_flat format_only_config) = MAL_SUCCESS.
Proof.
  assert (HIn : 0 <= dspc_channelsIn format_only_config <= MAL_MAX_CHANNELS)
    by (cbv; split; discriminate).
  assert (HOut : 0 <= dspc_channelsOut format_only_config <= MAL_MAX_CHANNELS)
    by (cbv; split; discriminate).
  split; [exact HIn|]. split; [exact HOut|].
  apply (proj2 (dsp_init_succeeds_iff unit cpu_scalar libm_flat format_only_config HIn HOut)).
  split; [reflexivity|]. split; [reflexivity|]. intros H. discriminate H.
Defined.

(* ------------------------------------------------------------------ *)
(** ** DSP supervisor: the readers behind one read                     *)
(* ------------------------------------------------------------------ *)

(** The readers behind [mal_dsp_read] for every accepted config: the
    client alone on the passthrough path; the post-format converter
    reading the client directly when neither the rate nor the channels
    change (the pre-format converter, the router and the SRC are all
    skipped); else the post-format converter, then the router and the SRC
    (the SRC left out when no rate conversion is required, and placed on
    the consumer's side of the router when the channel count shrinks),
    then the pre-format converter and the client. In every case the
    client is the last reader and no reader occurs twice. *)
Theorem dsp_read_chain_of_every_config :
  forall (cproc : Type) (cpu : mal_cpu) (libm : mal_libm)
         (cfg : mal_dsp_config cproc) (pDSP : mal_dsp cproc),
    mal_dsp_init cpu libm cfg = Initialized pDSP ->
    pull_chain pDSP
    = (if dsp_isPassthrough cfg then [stage_client]
       else if negb (dsp_isSRCRequired cfg) && negb (dsp_isChannelRoutingRequired cfg)
       then [stage_post_format_converter; stage_client]
       else if dspc_channelsOut cfg <? dspc_channelsIn cfg then
         if dsp_isSRCRequired cfg
         then [stage_post_format_converter; stage_src; stage_channel_router;
               stage_pre_format_converter; stage_client]
         else [stage_post_format_converter; stage_channel_router;
               stage_pre_format_converter; stage_client]
       else
         if dsp_isSRCRequired cfg
         then [stage_post_format_converter; stage_channel_router; stage_src;
               stage_pre_format_converter; stage_client]
         else [stage_post_format_converter; stage_channel_router;
               stage_pre_format_converter; stage_client]) /\
    last (pull_chain pDSP) stage_post_format_converter = stage_client /\
    NoDup (pull_chain pDSP).
Proof.
  intros cproc cpu libm cfg pDSP Hinit.
  destruct (mal_dsp_init_edges _ _ _ _ _ Hinit) as [Hc [Hpre [Hs [Hr Hpost]]]].
  destruct (mal_dsp_init_inversion _ _ _ _ _ Hinit)
    as [Hpass [Hsrc [Hrout [Hprereq [Hstart _]]]]].
  assert (Hchain :
    pull_chain pDSP
    = (if dsp_isPassthrough cfg then [stage_client]
       else if negb (dsp_isSRCRequired cfg) && negb (dsp_isChannelRoutingRequired cfg)
       then [stage_post_format_converter; stage_client]
       else if dspc_channelsOut cfg <? dspc_channelsIn cfg then
         if dsp_isSRCRequired cfg
         then [stage_post_format_converter; stage_src; stage_channel_router;
               stage_pre_format_converter; stage_client]
         else [stage_post_format_converter; stage_channel_router;
               stage_pre_format_converter; stage_client]
       else
         if dsp_isSRCRequired cfg
         then [stage_post_format_converter; stage_channel_router; stage_src;
               stage_pre_format_converter; stage_client]
         else [stage_post_format_converter; stage_channel_router;
               stage_pre_format_converter; stage_client])).
  { unfold pull_chain, mal_dsp_read_entry. rewrite Hpass.
    destruct (dsp_isPassthrough cfg) eqn:Ep.
    { apply pull_chain_stop. exact Hc. }
    rewrite Hprereq in Hpost. unfold dsp_isPreFormatConversionRequired in Hpost.
    rewrite Hstart in Hs, Hr, Hpost. rewrite Hsrc in Hr, Hpost.
    unfold dsp_isChannelRoutingAtStart in Hs, Hr, Hpost.
    destruct (negb (dsp_isSRCRequired cfg) && negb (dsp_isChannelRoutingRequired cfg)) eqn:En.
    - assert (Hpc : pulls_from pDSP stage_post_format_converter = Some stage_client).
      { unfold pulls_from, stage_callback.
        destruct (mal_dsp_init_inversion _ _ _ _ _ Hinit)
          as [_ [_ [_ [Hq [_ [_ [Hfo _]]]]]]].
        unfold format_converter_callback. rewrite Hfo.
        cbn [postFormatConverterConfig fcc_onRead fcc_onReadDeinterleaved].
        unfold dsp_isPreFormatConversionRequired. rewrite En. reflexivity. }
      rewrite (pull_chain_step _ _ _ _ _ Hpc), (pull_chain_stop _ _ _ _ Hc). reflexivity.
    - specialize (Hpost eq_refl).
      destruct (dspc_channelsOut cfg <? dspc_channelsIn cfg); cbn [negb] in Hpost;
        destruct (dsp_isSRCRequired cfg).
      + rewrite (pull_chain_step _ _ _ _ _ Hpost), (pull_chain_step _ _ _ _ _ Hs),
          (pull_chain_step _ _ _ _ _ Hr), (pull_chain_step _ _ _ _ _ Hpre),
          (pull_chain_stop _ _ _ _ Hc). reflexivity.
      + rewrite (pull_chain_step _ _ _ _ _ Hpost), (pull_chain_step _ _ _ _ _ Hr),
          (pull_chain_step _ _ _ _ _ Hpre), (pull_chain_stop _ _ _ _ Hc). reflexivity.
      + rewrite (pull_chain_step _ _ _ _ _ Hpost), (pull_chain_step _ _ _ _ _ Hr),
          (pull_chain_step _ _ _ _ _ Hs), (pull_chain_step _ _ _ _ _ Hpre),
          (pull_chain_stop _ _ _ _ Hc). reflexivity.
      + rewrite (pull_chain_step _ _ _ _ _ Hpost), (pull_chain_step _ _ _ _ _ Hr),
          (pull_chain_step _ _ _ _ _ Hpre), (pull_chain_stop _ _ _ _ Hc). reflexivity. }
  split; [exact Hchain|].
  rewrite Hchain.
  destruct (dsp_isPassthrough cfg);
    [|destruct (negb (dsp_isSRCRequired cfg) && negb (dsp_isChannelRoutingRequired cfg));
      [|destruct (dspc_channelsOut cfg <? dspc_channelsIn cfg);
        destruct (dsp_isSRCRequired cfg)]];
    (split; [reflexivity|]);
    repeat (constructor; [cbn; intuition discriminate|]); constructor.
Qed.

(** A config that only changes the sample format: the post-format
    converter reads the client directly. *)
Lemma dsp_read_chain_of_every_config_witness :
  exists pDSP,
    mal_dsp_init cpu_scalar libm_flat format_only_config = Initialized pDSP /\
    pull_chain pDSP = [stage_post_format_converter; stage_client].
Proof.
  eexists. split; [reflexivity|].
  etransitivity;
    [exact (proj1 (dsp_read_chain_of_every_config unit cpu_scalar libm_flat
                     format_only_config _ eq_refl))
    | reflexivity].
Defined.

(* ------------------------------------------------------------------ *)
(** ** Channel router: the shuffle table                               *)
(* ------------------------------------------------------------------ *)

Lemma fold_array_set_some :
  forall (A B : Type) (g : nat -> option B) (h : B -> A) n (a : list A) d k,
  (n <= length a)%nat ->
  nth k (fold_left (fun acc i => match g i with
                                 | Some v => array_set acc i (h v)
                                 | None => acc
                                 end) (seq 0 n) a) d
  = if (k <? n)%nat then match g k with Some v => h v | None => nth k a d end
    else nth k a d.
Proof.
  intros A B g h n. induction n as [|n IH]; intros a d k Hn; [reflexivity|].
  rewrite seq_S, fold_left_app. cbn [fold_left Nat.add].
  assert (Hl : forall m b,
             length (fold_left (fun acc i => match g i with
                                             | Some v => array_set acc i (h v)
                                             | None => acc
                                             end) (seq 0 m) b) = length b).
  { induction m as [|m IHm]; intros b; [reflexivity|].
    rewrite seq_S, fold_left_app. cbn [fold_left Nat.add].
    destruct (g m); [rewrite length_array_set|]; apply IHm. }
  destruct (Nat.eq_dec n k) as [<-|Hne].
  - replace (n <? Datatypes.S n)%nat with true by (symmetry; apply Nat.ltb_lt; lia).
    destruct (g n).
    + rewrite nth_array_set_eq by (rewrite Hl; lia). reflexivity.
    + rewrite IH by lia. rewrite Nat.ltb_irrefl. reflexivity.
  - assert (E : (k <? Datatypes.S n)%nat = (k <? n)%nat).
    { destruct (k <? n)%nat eqn:E.
      - apply Nat.ltb_lt in E. apply Nat.ltb_lt. lia.
      - apply Nat.ltb_ge in E. apply Nat.ltb_ge. lia. }
    rewrite E.
    destruct (g n); [rewrite nth_array_set_neq by exact Hne|]; apply IH; lia.
Qed.

Lemma find_seq_first : forall (f : nat -> bool) n s j,
  find f (seq s n) = Some j ->
  forall j', (s <= j' < j)%nat -> f j' = false.
Proof.
  intros f n. induction n as [|n IH]; intros s j Hf j' Hj'; [discriminate|].
  cbn [seq find] in Hf. destruct (f s) eqn:Es.
  - inversion Hf; subst. lia.
  - destruct (Nat.eq_dec j' s) as [->|Hne]; [exact Es|].
    apply (IH (Datatypes.S s) j Hf). lia.
Qed.

(** In shuffle mode every input channel is sent to an output channel
    that carries the same position: for a config whose input channel
    count fits the table, entry [i] of the shuffle table of a
    simple-shuffle router is an index below the output channel count,
    the output map holds at that index the position the input map holds
    at [i], and no earlier output channel has that position. *)
Theorem router_shuffle_table_matches_positions :
  forall (proc : Type) (cfg : mal_channel_router_config proc) (i : nat),
    crc_channelsIn cfg <= MAL_MAX_CHANNELS ->
    router_isSimpleShuffle cfg = true ->
    (i < Z.to_nat (crc_channelsIn cfg))%nat ->
    let iChannelOut := nth i (router_shuffleTable cfg) 0 in
    0 <= iChannelOut < crc_channelsOut cfg /\
    map_at (crc_channelMapOut cfg) (Z.to_nat iChannelOut) = map_at (crc_channelMapIn cfg) i /\
    forall j, (j < Z.to_nat iChannelOut)%nat ->
              map_at (crc_channelMapOut cfg) j <> map_at (crc_channelMapIn cfg) i.
Proof.
  intros proc cfg i Hmax Hsimple Hi.
  assert (Hflags : crc_channelsIn cfg = crc_channelsOut cfg /\
                   router_areAllChannelPositionsPresent cfg = true).
  { unfold router_isSimpleShuffle in Hsimple.
    destruct (negb (router_isPassthrough cfg)); [|discriminate].
    destruct (crc_channelsIn cfg =? crc_channelsOut cfg) eqn:E; [|discriminate].
    apply Z.eqb_eq in E. split; assumption. }
  destruct Hflags as [Hch Hall].
  unfold router_areAllChannelPositionsPresent in Hall.
  rewrite forallb_forall in Hall.
  assert (Hin : In i (range (crc_channelsIn cfg))).
  { unfold range. apply in_seq. lia. }
  specialize (Hall i Hin).
  unfold router_shuffleTable. rewrite Hsimple. unfold range.
  cbv zeta.
  rewrite (fold_array_set_some Z nat
             (fun iChannelIn =>
                find_channel (crc_channelsOut cfg) (crc_channelMapOut cfg)
                  (map_at (crc_channelMapIn cfg) iChannelIn))
             (fun iChannelOut => u8 (Z.of_nat iChannelOut)))
    by (unfold zero_shuffle_table; rewrite repeat_length;
        unfold MAL_MAX_CHANNELS in *; lia).
  replace (i <? Z.to_nat (crc_channelsIn cfg))%nat with true
    by (symmetry; apply Nat.ltb_lt; exact Hi).
  unfold find_channel in *.
  destruct (find (fun iChannelOut => map_at (crc_channelMapOut cfg) iChannelOut
                                     =? map_at (crc_channelMapIn cfg) i)
                 (range (crc_channelsOut cfg))) as [j|] eqn:Ef; [|discriminate].
  pose proof (find_some _ _ Ef) as [Hj Hpos].
  unfold range in Hj. apply in_seq in Hj. apply Z.eqb_eq in Hpos.
  assert (Hu : u8 (Z.of_nat j) = Z.of_nat j).
  { unfold u8. apply Z.mod_small. unfold MAL_MAX_CHANNELS in *. lia. }
  rewrite Hu, Nat2Z.id.
  split; [lia|]. split; [exact Hpos|].
  intros j' Hj' Heq.
  pose proof (find_seq_first _ _ _ _ Ef j' (conj (Nat.le_0_l j') Hj')) as Hfirst.
  cbv beta in Hfirst. apply Z.eqb_neq in Hfirst. contradiction.
Qed.

(** Left and right swapped: input 0 goes to output 1 and input 1 to
    output 0. *)
Lemma router_shuffle_table_matches_positions_witness :
  crc_channelsIn swapped_stereo_config <= MAL_MAX_CHANNELS /\
  router_isSimpleShuffle swapped_stereo_config = true /\
  (0 < Z.to_nat (crc_channelsIn swapped_stereo_config))%nat /\
  map_at (crc_channelMapOut swapped_stereo_config)
    (Z.to_nat (nth 0 (router_shuffleTable swapped_stereo_config) 0))
  = map_at (crc_channelMapIn swapped_stereo_config) 0.
Proof.
  assert (H1 : crc_channelsIn swapped_stereo_config <= MAL_MAX_CHANNELS)
    by (cbv; discriminate).
  assert (H2 : router_isSimpleShuffle swapped_stereo_config = true) by reflexivity.
  assert (H3 : (0 < Z.to_nat (crc_channelsIn swapped_stereo_config))%nat)
    by (cbv; repeat constructor).
  split; [exact H1|]. split; [exact H2|]. split; [exact H3|].
  exact (proj1 (proj2 (router_shuffle_table_matches_positions nat swapped_stereo_config
                         0%nat H1 H2 H3))).
Defined.

(* ------------------------------------------------------------------ *)
(** ** Splitting a scratch buffer                                      *)
(* ------------------------------------------------------------------ *)

(** [x & ~(2^k - 1)] on 64-bit unsigned values rounds [x] down to a
    multiple of [2^k]. *)
Lemma land_not_low_mask : forall a k,
  0 <= a < 2 ^ 64 -> 0 <= k < 64 ->
  Z.land a (u64 (Z.lnot (u64 (2 ^ k - 1)))) = a - a mod 2 ^ k.
Proof.
  intros a k Ha Hk.
  assert (Hp : 0 < 2 ^ k) by (apply Z.pow_pos_nonneg; lia).
  assert (Hle : 2 ^ k <= 2 ^ 63) by (apply Z.pow_le_mono_r; lia).
  assert (Hm : u64 (2 ^ k - 1) = Z.ones k).
  { unfold u64. rewrite Z.mod_small by (change (2 ^ 63) with 9223372036854775808 in Hle;
                                        change (2 ^ 64) with 18446744073709551616; lia).
    rewrite Z.ones_equiv. unfold Z.pred. lia. }
  rewrite Hm.
  transitivity (Z.ldiff a (Z.ones k)).
  - apply Z.bits_inj'. intros n Hn.
    rewrite Z.land_spec, Z.ldiff_spec.
    destruct (Z_lt_le_dec n 64) as [Hlt|Hge].
    + unfold u64. rewrite Z.mod_pow2_bits_low by lia. rewrite Z.lnot_spec by lia.
      reflexivity.
    + assert (Hhigh : Z.testbit a n = false).
      { rewrite <- (Z.mod_small a (2 ^ 64)) by lia.
        apply Z.mod_pow2_bits_high. lia. }
      rewrite Hhigh. reflexivity.
  - rewrite Z.ldiff_ones_r by lia. rewrite Z.shiftr_div_pow2, Z.shiftl_mul_pow2 by lia.
    pose proof (Z.div_mod a (2 ^ k)). lia.
Qed.

Lemma round_down_facts : forall a al,
  0 <= a -> 0 < al ->
  0 <= a - a mod al <= a /\ a < a - a mod al + al /\ (a - a mod al) mod al = 0.
Proof.
  intros a al Ha Hal.
  pose proof (Z.mod_pos_bound a al Hal).
  pose proof (Z.mod_le a al Ha Hal).
  split; [lia|]. split; [lia|].
  replace (a - a mod al) with (a / al * al) by (pose proof (Z.div_mod a al); lia).
  apply Z.mod_mul. lia.
Qed.

Lemma length_fold_array_set : forall (A : Type) (g : nat -> A) (l : list nat) (a : list A),
  length (fold_left (fun acc i => array_set acc i (g i)) l a) = length a.
Proof.
  intros A g l. induction l as [|x l IH]; intros a; [reflexivity|].
  cbn [fold_left]. rewrite IH. apply length_array_set.
Qed.

(** What [mal_split_buffer] hands out. For a buffer of at least
    [alignment] bytes that lies in the address space, a power-of-two
    alignment, a positive split count and an output array with room for
    [splitCount] pointers: the reported split size is a multiple of the
    alignment, and part [i] starts at an aligned address, lies inside
    the buffer with all of its [splitSize] bytes, and starts [i] split
    sizes after part 0, so that parts never overlap. The split size is
    the one [mal_split_buffer] computes from the distance between the
    buffer and part 0. *)
Theorem split_buffer_parts_are_aligned_and_inside :
  forall (pBuffer bufferSize splitCount k : Z) (out : list Z) (i : nat),
    0 < pBuffer -> 0 < bufferSize -> pBuffer + bufferSize <= 2 ^ 64 ->
    0 < splitCount -> 0 <= k < 64 -> 2 ^ k <= bufferSize ->
    (Z.to_nat splitCount <= length out)%nat ->
    (i < Z.to_nat splitCount)%nat ->
    exists parts splitSize,
      mal_split_buffer_at pBuffer bufferSize splitCount (2 ^ k) (Some out) (Some 0)
      = (Some parts, Some splitSize) /\
      length parts = length out /\
      0 <= splitSize /\ splitSize mod 2 ^ k = 0 /\
      nth i parts 0 mod 2 ^ k = 0 /\
      pBuffer <= nth i parts 0 /\
      nth i parts 0 + splitSize <= pBuffer + bufferSize /\
      nth i parts 0 = nth 0 parts 0 + Z.of_nat i * splitSize /\
      splitSize = mal_split_buffer (nth 0 parts 0 - pBuffer) bufferSize splitCount (2 ^ k).
Proof.
  intros pBuffer bufferSize splitCount k out i HpB Hsz Hend Hcnt Hk Hal Hout Hi.
  assert (Hp : 0 < 2 ^ k) by (apply Z.pow_pos_nonneg; lia).
  unfold mal_split_buffer_at.
  replace (pBuffer =? 0) with false by (symmetry; apply Z.eqb_neq; lia).
  replace (bufferSize =? 0) with false by (symmetry; apply Z.eqb_neq; lia).
  replace (splitCount =? 0) with false by (symmetry; apply Z.eqb_neq; lia).
  replace (2 ^ k =? 0) with false by (symmetry; apply Z.eqb_neq; lia).
  cbn [orb option_map]. cbv zeta.
  assert (HA : u64 (pBuffer + (2 ^ k - 1)) = pBuffer + (2 ^ k - 1)).
  { unfold u64. apply Z.mod_small. lia. }
  rewrite HA.
  rewrite (land_not_low_mask (pBuffer + (2 ^ k - 1)) k) by lia.
  set (A := pBuffer + (2 ^ k - 1)).
  destruct (round_down_facts A (2 ^ k)) as [[HA0 HA1] [HA2 HA3]]; [unfold A; lia|lia|].
  set (aligned := A - A mod 2 ^ k) in *.
  assert (Hun : u64 (aligned - pBuffer) = aligned - pBuffer).
  { unfold u64. apply Z.mod_small. unfold A in *. lia. }
  rewrite Hun.
  replace (aligned - pBuffer <=? bufferSize) with true
    by (symmetry; apply Z.leb_le; unfold A in *; lia).
  set (q := (bufferSize - (aligned - pBuffer)) / splitCount).
  assert (Hq : 0 <= q /\ q * splitCount <= bufferSize - (aligned - pBuffer)).
  { unfold q. split.
    - apply Z.div_pos; unfold A in *; lia.
    - pose proof (Z.mul_div_le (bufferSize - (aligned - pBuffer)) splitCount Hcnt). lia. }
  destruct Hq as [Hq0 Hq1].
  assert (Hq64 : q < 2 ^ 64).
  { assert (q * 1 <= q * splitCount) by (apply Z.mul_le_mono_nonneg_l; lia).
    unfold A in *. lia. }
  rewrite (land_not_low_mask q k) by lia.
  destruct (round_down_facts q (2 ^ k) Hq0 Hp) as [[HS0 HS1] [_ HS3]].
  set (splitSize := q - q mod 2 ^ k) in *.
  assert (Htot : splitSize * splitCount <= bufferSize - (aligned - pBuffer)).
  { assert (splitSize * splitCount <= q * splitCount)
      by (apply Z.mul_le_mono_nonneg_r; lia). lia. }
  assert (Hpart : forall j : nat, (j < Z.to_nat splitCount)%nat ->
            u64 (aligned + u64 (splitSize * Z.of_nat j)) = aligned + splitSize * Z.of_nat j /\
            aligned + splitSize * Z.of_nat j + splitSize <= pBuffer + bufferSize).
  { intros j Hj.
    assert (Hj1 : splitSize * (Z.of_nat j + 1) <= splitSize * splitCount)
      by (apply Z.mul_le_mono_nonneg_l; lia).
    assert (Hj0 : 0 <= splitSize * Z.of_nat j) by (apply Z.mul_nonneg_nonneg; lia).
    assert (Hin : aligned + splitSize * Z.of_nat j + splitSize <= pBuffer + bufferSize)
      by lia.
    assert (Hz : splitSize = 0 -> splitSize * Z.of_nat j = 0)
      by (intros Hs; rewrite Hs; apply Z.mul_0_l).
    split; [|exact Hin].
    unfold u64. rewrite (Z.mod_small (splitSize * Z.of_nat j)) by (unfold A in *; lia).
    apply Z.mod_small. unfold A in *. lia. }
  eexists. eexists. split; [reflexivity|].
  assert (Hnth : forall j : nat, (j < Z.to_nat splitCount)%nat ->
            nth j (fold_left
                     (fun out i => array_set out i (u64 (aligned + u64 (splitSize * Z.of_nat i))))
                     (range splitCount) out) 0
            = aligned + splitSize * Z.of_nat j).
  { intros j Hj. unfold range.
    rewrite (fold_array_set_seq Z (fun i => u64 (aligned + u64 (splitSize * Z.of_nat i))))
      by exact Hout.
    replace (j <? Z.to_nat splitCount)%nat with true by (symmetry; apply Nat.ltb_lt; exact Hj).
    apply (proj1 (Hpart j Hj)). }
  split; [apply length_fold_array_set|].
  rewrite (Hnth i Hi), (Hnth 0%nat) by lia.
  split; [exact HS0|]. split; [exact HS3|].
  split.
  { rewrite Z.add_mod, HA3 by lia. rewrite Z.mul_comm, Z.mul_mod, HS3 by lia.
    rewrite Z.mul_0_r. reflexivity. }
  assert (Hj0 : 0 <= splitSize * Z.of_nat i) by (apply Z.mul_nonneg_nonneg; lia).
  split; [unfold A in *; lia|].
  split; [exact (proj2 (Hpart i Hi))|].
  split; [change (Z.of_nat 0) with 0; lia|].
  change (Z.of_nat 0) with 0. rewrite Z.mul_0_r, Z.add_0_r.
  unfold mal_split_buffer.
  replace (bufferSize =? 0) with false by (symmetry; apply Z.eqb_neq; lia).
  replace (splitCount =? 0) with false by (symmetry; apply Z.eqb_neq; lia).
  replace (2 ^ k =? 0) with false by (symmetry; apply Z.eqb_neq; lia).
  cbn [orb]. cbv zeta.
  replace (aligned - pBuffer <=? bufferSize) with true
    by (symmetry; apply Z.leb_le; unfold A in *; lia).
  fold q. rewrite <- Z.ldiff_land.
  replace (2 ^ k - 1) with (Z.ones k) by (rewrite Z.ones_equiv; unfold Z.pred; lia).
  rewrite Z.ldiff_ones_r by lia. rewrite Z.shiftr_div_pow2, Z.shiftl_mul_pow2 by lia.
  unfold splitSize. pose proof (Z.div_mod q (2 ^ k)). lia.
Qed.

(** A 1000-byte buffer at address 4097 split in three for 64-byte
    alignment: three parts of 256 bytes from address 4160 on. *)
Lemma split_buffer_parts_are_aligned_and_inside_witness :
  0 < 4097 /\ 0 < 1000 /\ 4097 + 1000 <= 2 ^ 64 /\ 0 < 3 /\ 0 <= 6 < 64 /\
  2 ^ 6 <= 1000 /\ (Z.to_nat 3 <= length [0; 0; 0])%nat /\ (1 < Z.to_nat 3)%nat /\
  exists parts splitSize,
    mal_split_buffer_at 4097 1000 3 (2 ^ 6) (Some [0; 0; 0]) (Some 0)
    = (Some parts, Some splitSize) /\
    nth 1 parts 0 mod 2 ^ 6 = 0 /\
    nth 1 parts 0 + splitSize <= 4097 + 1000.
Proof.
  assert (H1 : 0 < 4097) by reflexivity.
  assert (H2 : 0 < 1000) by reflexivity.
  assert (H3 : 4097 + 1000 <= 2 ^ 64) by (vm_compute; discriminate).
  assert (H4 : 0 < 3) by reflexivity.
  assert (H5 : 0 <= 6 < 64) by (split; [discriminate|reflexivity]).
  assert (H6 : 2 ^ 6 <= 1000) by (vm_compute; discriminate).
  assert (H7 : (Z.to_nat 3 <= length [0; 0; 0])%nat) by (vm_compute; repeat constructor).
  assert (H8 : (1 < Z.to_nat 3)%nat) by (vm_compute; repeat constructor).
  repeat (split; [assumption|]).
  destruct (split_buffer_parts_are_aligned_and_inside 4097 1000 3 6 [0; 0; 0] 1%nat
              H1 H2 H3 H4 H5 H6 H7 H8)
    as [parts [splitSize [Hcall [_ [_ [_ [Hal [_ [Hin _]]]]]]]]].
  exists parts, splitSize. repeat split; assumption.
Defined.
